(** * footstep_planner: PlanningState and FootstepPlanner

    A shallow embedding of [PlanningState.cpp] and of the planning driver
    of [FootstepPlanner.cpp] (extractSolution, run, plan, replan,
    setGoal, setStart, setMap, updateEnvironment, getFootPosition, the
    pose callbacks, the planning service and the footstep markers).

    Conventions.
    - A C++ [int] is a [Z] in [-2^31, 2^31); an [unsigned int] is a [Z] in
      [0, 2^32).  Wrap-around of unsigned arithmetic is written out with
      [u32]; a conversion unsigned -> int with [s32].
    - A C++ [double] is a value of a type [D] carrying the operations of
      the class [DoubleOps]; the real numbers and the binary64 floats of
      the kernel are both instances.  A C++ [float] is a double narrowed
      to single precision ([d_float]); [sin] and [cos] are an interface.
    - A call that aborts the program or leaves the language's defined
      behaviour (a failed [assert], a division by zero, an access outside a
      matrix) yields [None].
    - The planner's collaborators that live outside these two files (the
      helper header, the grid map, the planning environment, the SBPL
      search) are interfaces: classes whose fields are the operations the
      code calls.
    - What the planner does to the outside is kept in a trace: the log
      messages (their format strings, without the arguments) and the calls
      that reset the environment, set it up, create a search, run it or
      tell it of changed costs.  The visualisation publishers are left
      out of [run] and of the map update; the markers of the footstep
      path are modelled on their own, the array handed to the publisher
      being the result. *)

From Stdlib Require Import Floats.
From Stdlib Require Uint63.
From Stdlib Require Import ZArith List Bool String Lia Permutation.
From Stdlib Require Finite.
From Stdlib Require Import Reals Lra.
Import ListNotations.

Local Open Scope Z_scope.

(** ** Option as the monad of calls that may abort *)

Definition obind {A B : Type} (o : option A) (k : A -> option B) : option B :=
  match o with
  | Some a => k a
  | None => None
  end.

Notation "x <- c ;; k" := (obind c (fun x => k))
  (at level 61, c at next level, right associativity).
Notation "c ;;; k" := (obind c (fun _ => k))
  (at level 61, right associativity).

(** [assert(b)]: continues on [true], aborts on [false]. *)
Definition assert (b : bool) : option unit :=
  if b then Some tt else None.

(** ** Machine integers *)

Definition u32 (z : Z) : Z := z mod 2 ^ 32.

(** unsigned int -> int, two's complement. *)
Definition s32 (z : Z) : Z :=
  let u := u32 z in if u <? 2 ^ 31 then u else u - 2 ^ 32.

(** [a << k] on unsigned int. *)
Definition shl32 (a k : Z) : Z := u32 (Z.shiftl a k).

(** [a + b] on unsigned int. *)
Definition add32 (a b : Z) : Z := u32 (a + b).

(** ** helper.h: the types shared by both files *)

Inductive Leg : Type := RIGHT | LEFT | NOLEG.

Definition Leg_eqb (a b : Leg) : bool :=
  match a, b with
  | RIGHT, RIGHT | LEFT, LEFT | NOLEG, NOLEG => true
  | _, _ => false
  end.

(** [struct State { double x, y, theta; Leg leg; }] *)
Record State (D : Type) : Type := mkState {
  x : D;
  y : D;
  theta : D;
  leg : Leg
}.
Arguments mkState {D} _ _ _ _.
Arguments x {D} _.
Arguments y {D} _.
Arguments theta {D} _.
Arguments leg {D} _.

(** The functions of helper.h the two files call, as the fields of an
    interface: [int state_2_cell(double value, double cell_size)],
    [int angle_state_2_cell(double angle, int angle_bin_num)],
    [double angle_cell_2_state(int angle, int angle_bin_num)] and
    [unsigned int int_hash(int key)].  [leg_code] is the integer value of
    an enumerator of [Leg], which [int_hash(ivLeg)] converts to;
    [State_default] is the value of a default-constructed [State]. *)
Class Helper (D : Type) : Type := {
  state_2_cell : D -> D -> Z;
  angle_state_2_cell : D -> Z -> Z;
  angle_cell_2_state : Z -> Z -> D;
  int_hash : Z -> Z;
  leg_code : Leg -> Z;
  State_default : State D
}.

(** ** PlanningState.cpp *)

(** The members of [class PlanningState], in the order the constructors
    initialise them. *)
Record PlanningState : Type := mkPlanningState {
  ivX : Z;
  ivY : Z;
  ivTheta : Z;
  ivLeg : Leg;
  ivId : Z;
  ivHashTag : Z
}.

Definition getX := ivX.
Definition getY := ivY.
Definition getTheta := ivTheta.
Definition getLeg := ivLeg.
Definition getId := ivId.
Definition getHashTag := ivHashTag.

Section PlanningStateDefs.
Context {D : Type} {H : Helper D}.

(** The operand of the outer [int_hash] in [calculateHashTag]: the four
    hashed members, shifted and added as unsigned ints. *)
Definition shifted_sum (vx vy vtheta : Z) (vleg : Leg) : Z :=
  add32 (add32 (add32 (shl32 (int_hash vx) 3) (shl32 (int_hash vy) 2))
               (shl32 (int_hash vtheta) 1))
        (int_hash (leg_code vleg)).

(** [PlanningState::calculateHashTag].  It runs inside the member
    initialiser of [ivHashTag] and reads the four members initialised
    before it.  [%] has an unsigned left operand, so [max_hash_size] is
    converted to unsigned; a zero divisor is undefined. *)
Definition calculateHashTag (vx vy vtheta : Z) (vleg : Leg)
           (max_hash_size : Z) : option Z :=
  let h := int_hash (s32 (shifted_sum vx vy vtheta vleg)) in
  let m := u32 max_hash_size in
  if m =? 0 then None else Some (h mod m).

(** [PlanningState(double x, double y, double theta, Leg, double
    cell_size, int num_angle_bins, int max_hash_size)]: the members are
    initialised, then the body runs [assert(false)]. *)
Definition PlanningState_double (vx vy vtheta : D) (vleg : Leg)
           (cell_size : D) (num_angle_bins max_hash_size : Z)
  : option PlanningState :=
  let cx := state_2_cell vx cell_size in
  let cy := state_2_cell vy cell_size in
  let ct := angle_state_2_cell vtheta num_angle_bins in
  tag <- calculateHashTag cx cy ct vleg max_hash_size ;;
  assert false ;;;
  Some (mkPlanningState cx cy ct vleg (-1) tag).

(** [PlanningState(int x, int y, int theta, Leg, double cell_size, int
    num_angle_bins, int max_hash_size)].  Its initialiser list names
    ivX, ivY, ivTheta, ivLeg and ivHashTag; ivId is not in it, so the
    member keeps whatever the storage held: [indeterminate]. *)
Definition PlanningState_int (vx vy vtheta : Z) (vleg : Leg)
           (cell_size : D) (num_angle_bins max_hash_size : Z)
           (indeterminate : Z) : option PlanningState :=
  tag <- calculateHashTag vx vy vtheta vleg max_hash_size ;;
  Some (mkPlanningState vx vy vtheta vleg indeterminate tag).

(** [PlanningState(const State& s, double cell_size, int num_angle_bins,
    int max_hash_size)]. *)
Definition PlanningState_State (s : State D) (cell_size : D)
           (num_angle_bins max_hash_size : Z) : option PlanningState :=
  let cx := state_2_cell (x s) cell_size in
  let cy := state_2_cell (y s) cell_size in
  let ct := angle_state_2_cell (theta s) num_angle_bins in
  tag <- calculateHashTag cx cy ct (leg s) max_hash_size ;;
  Some (mkPlanningState cx cy ct (leg s) (-1) tag).

(** The hash tag the constructors store, in terms of the members of the
    constructed state. *)
Definition hashTag_of_members (s : PlanningState) (max_hash_size : Z) : Z :=
  int_hash (s32 (shifted_sum (getX s) (getY s) (getTheta s) (getLeg s)))
  mod u32 max_hash_size.

(** The hash tag as the specification words it: the hashed members,
    shifted and summed, reduced modulo the table size with no step between
    the sum and the modulus. *)
Definition hashTag_as_claimed (s : PlanningState) (max_hash_size : Z) : Z :=
  shifted_sum (getX s) (getY s) (getTheta s) (getLeg s)
  mod u32 max_hash_size.

End PlanningStateDefs.

(** [PlanningState(const PlanningState& s)]. *)
Definition PlanningState_copy (s : PlanningState) : PlanningState :=
  mkPlanningState (getX s) (getY s) (getTheta s) (getLeg s) (getId s)
                  (getHashTag s).

(** [PlanningState::operator==]. *)
Definition operator_eq (s1 s2 : PlanningState) : bool :=
  if negb (ivHashTag s1 =? getHashTag s2) then false
  else (ivX s1 =? getX s2) && (ivY s1 =? getY s2)
       && (ivTheta s1 =? getTheta s2) && Leg_eqb (ivLeg s1) (getLeg s2).

(** [PlanningState::operator!=]. *)
Definition operator_neq (s1 s2 : PlanningState) : bool :=
  negb (operator_eq s1 s2).

(** ** Doubles *)

(** The operations on [double] the planner uses.  [d_of_int] is the
    conversion int -> double (and the literals 1.0, 2.0, ...); [d_eqb] is
    [==] and [d_leb] is [<=]. *)
Class DoubleOps (D : Type) : Type := {
  d_of_int : Z -> D;
  d_add : D -> D -> D;
  d_mul : D -> D -> D;
  d_div : D -> D -> D;
  d_neg : D -> D;
  d_abs : D -> D;
  d_sqrt : D -> D;
  d_eqb : D -> D -> bool;
  d_leb : D -> D -> bool
}.

(** [sin] and [cos] of <cmath>. *)
Class Trig (D : Type) : Type := {
  d_sin : D -> D;
  d_cos : D -> D
}.

(** ** Loops *)

(** [for (int i = lo; i < lo + n; ++i) body], threading the loop's
    variables through [body]; an aborting iteration aborts the loop. *)
Fixpoint for_from {S : Type} (n : nat) (i : Z)
         (body : Z -> S -> option S) (s : S) : option S :=
  match n with
  | O => Some s
  | Datatypes.S n' => s' <- body i s ;; for_from n' (i + 1) body s'
  end.

(** [for (int i = 0; i < hi; ++i) body]. *)
Definition for_upto {S : Type} (hi : Z) (body : Z -> S -> option S) (s : S)
  : option S :=
  for_from (Z.to_nat hi) 0 body s.

(** The same loop over an explicit list of index values. *)
Fixpoint ofold {S : Type} (body : Z -> S -> option S) (l : list Z) (s : S)
  : option S :=
  match l with
  | [] => Some s
  | i :: l' => s' <- body i s ;; ofold body l' s'
  end.

(** ** cv::Mat, as far as updateEnvironment uses it *)

(** A single-channel matrix: [pix i j] is the element of row [i], column
    [j]. *)
Record Mat : Type := mkMat {
  rows : Z;
  cols : Z;
  pix : Z -> Z -> Z
}.

Definition in_range (m : Mat) (i j : Z) : bool :=
  (0 <=? i) && (i <? rows m) && (0 <=? j) && (j <? cols m).

(** [m.at<uchar>(i, j)]: element access by row, then column.  An index
    outside the matrix is outside what [at] is defined for. *)
Definition at_ (m : Mat) (i j : Z) : option Z :=
  if in_range m i j then Some (pix m i j) else None.

(** [cv::bitwise_xor(a, b, dst)] on 8-bit elements; the operands must
    have the same size, or OpenCV raises an error. *)
Definition bitwise_xor (a b : Mat) : option Mat :=
  if (rows a =? rows b) && (cols a =? cols b)
  then Some (mkMat (rows a) (cols a)
                   (fun i j => Z.lxor (pix a i j) (pix b i j)))
  else None.

(** [cv::bitwise_not(a, dst)] on 8-bit elements. *)
Definition bitwise_not (a : Mat) : Mat :=
  mkMat (rows a) (cols a) (fun i j => Z.lxor 255 (pix a i j)).

(** The indices [0, 1, ..., n-1]. *)
Definition zrange (n : Z) : list Z :=
  map Z.of_nat (seq 0 (Z.to_nat n)).

(** The cells of a matrix, row by row. *)
Definition cells (m : Mat) : list (Z * Z) :=
  list_prod (zrange (rows m)) (zrange (cols m)).

(** The index pairs [(x, y)] in the order the loops of
    [updateEnvironment] form them: [y] runs over the rows outside, [x]
    over the columns inside. *)
Definition scan_order (m : Mat) : list (Z * Z) :=
  flat_map (fun vy => map (fun vx => (vx, vy)) (zrange (cols m)))
           (zrange (rows m)).

(** A pair with its components exchanged. *)
Definition swap (c : Z * Z) : Z * Z := (snd c, fst c).

(** The test of the loops, on the element of row [fst c], column
    [snd c]. *)
Definition flagged (m : Mat) (c : Z * Z) : bool :=
  pix m (fst c) (snd c) =? 255.

(** The cells of a mask that are set. *)
Definition flagged_cells (m : Mat) : list (Z * Z) :=
  filter (flagged m) (cells m).

(** The cells in which two bitmaps differ. *)
Definition raw_changed_cells (a b : Mat) : list (Z * Z) :=
  filter (fun c => negb (pix a (fst c) (snd c) =? pix b (fst c) (snd c)))
         (cells a).

Definition zero_cells (m : Mat) : list (Z * Z) :=
  filter (fun c => pix m (fst c) (snd c) =? 0) (cells m).

Definition sqdist (p q : Z * Z) : Z :=
  (fst p - fst q) * (fst p - fst q) + (snd p - snd q) * (snd p - snd q).

(** The least squared distance from [p] to a cell of [zs]; [None] when
    [zs] is empty. *)
Fixpoint min_sqdist (zs : list (Z * Z)) (p : Z * Z) : option Z :=
  match zs with
  | [] => None
  | q :: zs' =>
      match min_sqdist zs' p with
      | None => Some (sqdist p q)
      | Some d => Some (Z.min (sqdist p q) d)
      end
  end.


(** The result of [cv::distanceTransform(src, dst, CV_DIST_L2,
    CV_DIST_MASK_PRECISE)]: for each cell the Euclidean distance to the
    nearest zero cell of [src].  [dist2 i j] is the square of that
    distance, an integer; it is [None] when [src] has no zero cell, where
    the distance is beyond every radius. *)
Record DistMap : Type := mkDistMap {
  drows : Z;
  dcols : Z;
  dist2 : Z -> Z -> option Z
}.

Definition distanceTransform (src : Mat) : DistMap :=
  let zs := zero_cells src in
  mkDistMap (rows src) (cols src) (fun i j => min_sqdist zs (i, j)).

Section Threshold.
Context {D : Type} {O : DoubleOps D}.

(** [dm <= radius] as a matrix expression: 255 where the comparison
    holds, 0 elsewhere. *)
Definition compare_le (dm : DistMap) (radius : D) : Mat :=
  mkMat (drows dm) (dcols dm)
        (fun i j =>
           match dist2 dm i j with
           | Some d2 => if d_leb (d_sqrt (d_of_int d2)) radius
                        then 255 else 0
           | None => 0
           end).
End Threshold.

(** ** The collaborators of FootstepPlanner *)

(** What the planner reads of a [GridMap2D]. *)
Record GridMap2D (D : Type) : Type := mkGridMap2D {
  getResolution : D;
  size_height : Z;
  size_width : Z;
  binaryMap : Mat;
  mapToWorld : Z -> Z -> D * D
}.
Arguments mkGridMap2D {D} _ _ _ _ _.
Arguments getResolution {D} _.
Arguments size_height {D} _.
Arguments size_width {D} _.
Arguments binaryMap {D} _.
Arguments mapToWorld {D} _ _ _.

(** The methods of [FootstepPlannerEnvironment] the planner calls, on an
    environment state [Env].  [getState] is [None] where the C++ method
    returns false. *)
Class EnvironmentOps (D Env : Type) : Type := {
  env_reset : Env -> Env;
  env_setMap : Env -> GridMap2D D -> Env;
  env_setUp : Env -> State D -> State D -> State D -> State D -> Env;
  env_occupied : Env -> State D -> bool;
  env_getState : Env -> Z -> option (State D);
  startstateid : Env -> Z;
  goalstateid : Env -> Z;
  getSuccsOfGridCells : Env -> list (State D) -> list Z;
  getPredsOfGridCells : Env -> list (State D) -> list Z;
  cvMmScale : Z
}.

(** The SBPL search behind [ivPlannerPtr], on a search state [Search].
    [new_planner t fwd] is [new ARAPlanner(env, fwd)], [new ADPlanner(..)]
    or [new RSTARPlanner(..)] by the name [t].  [search_replan] may
    register states in the environment it was built on. *)
Class SearchOps (D Env Search : Type) : Type := {
  new_planner : string -> bool -> Search;
  set_start : Search -> Z -> Z * Search;
  set_goal : Search -> Z -> Z * Search;
  set_initialsolution_eps : Search -> D -> Search;
  set_search_mode : Search -> bool -> Search;
  search_replan : Search -> Env -> D -> (Z * list Z * Z) * (Search * Env);
  costs_changed : Search -> list Z -> Search
}.

(** What the planner does to the outside, in the order it happens. *)
Inductive Event : Type :=
| ROS_INFO (msg : string)
| ROS_ERROR (msg : string)
| ROS_DEBUG (msg : string)
| EnvReset
| EnvSetUp
| PlannerCreated (planner_type : string)
| SearchReplan
| CostsChanged (ids : list Z).

(** ** FootstepPlanner.cpp *)

(** The members the constructor reads from the parameter server and never
    writes again. *)
Record Config (D : Type) : Type := mkConfig {
  ivPlannerType : string;
  ivForwardSearch : bool;
  ivSearchUntilFirstSolution : bool;
  ivMaxSearchTime : D;
  ivInitialEpsilon : D;
  ivChangedCellsLimit : Z;
  ivNumAngleBins : Z;
  ivFootSeparation : D;
  ivOriginFootShiftX : D;
  ivOriginFootShiftY : D;
  ivFootsizeX : D;
  ivFootsizeY : D
}.
Arguments mkConfig {D} _ _ _ _ _ _ _ _ _ _ _ _.
Arguments ivPlannerType {D} _.
Arguments ivForwardSearch {D} _.
Arguments ivSearchUntilFirstSolution {D} _.
Arguments ivMaxSearchTime {D} _.
Arguments ivInitialEpsilon {D} _.
Arguments ivChangedCellsLimit {D} _.
Arguments ivNumAngleBins {D} _.
Arguments ivFootSeparation {D} _.
Arguments ivOriginFootShiftX {D} _.
Arguments ivOriginFootShiftY {D} _.
Arguments ivFootsizeX {D} _.
Arguments ivFootsizeY {D} _.

(** The members the planner's methods write, and the trace of what it did
    to its collaborators. *)
Record FootstepPlanner (D Env Search : Type) : Type := mkFootstepPlanner {
  cfg : Config D;
  ivMapPtr : option (GridMap2D D);
  ivPlannerEnvironmentPtr : Env;
  ivPlannerPtr : Search;
  ivPath : list (State D);
  ivStartFootLeft : State D;
  ivStartFootRight : State D;
  ivGoalFootLeft : State D;
  ivGoalFootRight : State D;
  ivStartPoseSetUp : bool;
  ivGoalPoseSetUp : bool;
  ivPlanExists : bool;
  ivPathCost : D;
  trace : list Event
}.
Arguments mkFootstepPlanner {D Env Search} _ _ _ _ _ _ _ _ _ _ _ _ _ _.
Arguments cfg {D Env Search} _.
Arguments ivMapPtr {D Env Search} _.
Arguments ivPlannerEnvironmentPtr {D Env Search} _.
Arguments ivPlannerPtr {D Env Search} _.
Arguments ivPath {D Env Search} _.
Arguments ivStartFootLeft {D Env Search} _.
Arguments ivStartFootRight {D Env Search} _.
Arguments ivGoalFootLeft {D Env Search} _.
Arguments ivGoalFootRight {D Env Search} _.
Arguments ivStartPoseSetUp {D Env Search} _.
Arguments ivGoalPoseSetUp {D Env Search} _.
Arguments ivPlanExists {D Env Search} _.
Arguments ivPathCost {D Env Search} _.
Arguments trace {D Env Search} _.

Section FootstepPlannerDefs.
Context {D Env Search : Type}.
Context {O : DoubleOps D} {T : Trig D} {H : Helper D}.
Context {E : EnvironmentOps D Env} {P : SearchOps D Env Search}.

Abbreviation Planner := (FootstepPlanner D Env Search).

(** *** Assignments to single members *)

Definition set_ivMapPtr (v : option (GridMap2D D)) (p : Planner) : Planner :=
  mkFootstepPlanner (cfg p) v (ivPlannerEnvironmentPtr p) (ivPlannerPtr p)
    (ivPath p) (ivStartFootLeft p) (ivStartFootRight p) (ivGoalFootLeft p)
    (ivGoalFootRight p) (ivStartPoseSetUp p) (ivGoalPoseSetUp p)
    (ivPlanExists p) (ivPathCost p) (trace p).

Definition set_env (v : Env) (p : Planner) : Planner :=
  mkFootstepPlanner (cfg p) (ivMapPtr p) v (ivPlannerPtr p)
    (ivPath p) (ivStartFootLeft p) (ivStartFootRight p) (ivGoalFootLeft p)
    (ivGoalFootRight p) (ivStartPoseSetUp p) (ivGoalPoseSetUp p)
    (ivPlanExists p) (ivPathCost p) (trace p).

Definition set_ivPlannerPtr (v : Search) (p : Planner) : Planner :=
  mkFootstepPlanner (cfg p) (ivMapPtr p) (ivPlannerEnvironmentPtr p) v
    (ivPath p) (ivStartFootLeft p) (ivStartFootRight p) (ivGoalFootLeft p)
    (ivGoalFootRight p) (ivStartPoseSetUp p) (ivGoalPoseSetUp p)
    (ivPlanExists p) (ivPathCost p) (trace p).

Definition set_ivPath (v : list (State D)) (p : Planner) : Planner :=
  mkFootstepPlanner (cfg p) (ivMapPtr p) (ivPlannerEnvironmentPtr p)
    (ivPlannerPtr p) v (ivStartFootLeft p) (ivStartFootRight p)
    (ivGoalFootLeft p) (ivGoalFootRight p) (ivStartPoseSetUp p)
    (ivGoalPoseSetUp p) (ivPlanExists p) (ivPathCost p) (trace p).

Definition set_start_feet (l r : State D) (p : Planner) : Planner :=
  mkFootstepPlanner (cfg p) (ivMapPtr p) (ivPlannerEnvironmentPtr p)
    (ivPlannerPtr p) (ivPath p) l r (ivGoalFootLeft p) (ivGoalFootRight p)
    true (ivGoalPoseSetUp p) (ivPlanExists p) (ivPathCost p) (trace p).

Definition set_goal_feet (l r : State D) (p : Planner) : Planner :=
  mkFootstepPlanner (cfg p) (ivMapPtr p) (ivPlannerEnvironmentPtr p)
    (ivPlannerPtr p) (ivPath p) (ivStartFootLeft p) (ivStartFootRight p)
    l r (ivStartPoseSetUp p) true (ivPlanExists p) (ivPathCost p)
    (trace p).

Definition set_ivPlanExists (v : bool) (p : Planner) : Planner :=
  mkFootstepPlanner (cfg p) (ivMapPtr p) (ivPlannerEnvironmentPtr p)
    (ivPlannerPtr p) (ivPath p) (ivStartFootLeft p) (ivStartFootRight p)
    (ivGoalFootLeft p) (ivGoalFootRight p) (ivStartPoseSetUp p)
    (ivGoalPoseSetUp p) v (ivPathCost p) (trace p).

Definition set_ivPathCost (v : D) (p : Planner) : Planner :=
  mkFootstepPlanner (cfg p) (ivMapPtr p) (ivPlannerEnvironmentPtr p)
    (ivPlannerPtr p) (ivPath p) (ivStartFootLeft p) (ivStartFootRight p)
    (ivGoalFootLeft p) (ivGoalFootRight p) (ivStartPoseSetUp p)
    (ivGoalPoseSetUp p) (ivPlanExists p) v (trace p).

(** Appends one event to the trace. *)
Definition emit (e : Event) (p : Planner) : Planner :=
  mkFootstepPlanner (cfg p) (ivMapPtr p) (ivPlannerEnvironmentPtr p)
    (ivPlannerPtr p) (ivPath p) (ivStartFootLeft p) (ivStartFootRight p)
    (ivGoalFootLeft p) (ivGoalFootRight p) (ivStartPoseSetUp p)
    (ivGoalPoseSetUp p) (ivPlanExists p) (ivPathCost p) (trace p ++ [e]).

(** [ivPlannerEnvironmentPtr->reset()]. *)
Definition reset_environment (p : Planner) : Planner :=
  emit EnvReset (set_env (env_reset (ivPlannerEnvironmentPtr p)) p).

(** *** FootstepPlanner::setupPlanner *)
Definition setupPlanner (p : Planner) : Planner :=
  let fwd := ivForwardSearch (cfg p) in
  if String.eqb (ivPlannerType (cfg p)) "ARAPlanner" then
    emit (PlannerCreated "ARAPlanner")
         (set_ivPlannerPtr (new_planner "ARAPlanner" fwd) p)
  else if String.eqb (ivPlannerType (cfg p)) "ADPlanner" then
    emit (PlannerCreated "ADPlanner")
         (set_ivPlannerPtr (new_planner "ADPlanner" fwd) p)
  else if String.eqb (ivPlannerType (cfg p)) "RSTARPlanner" then
    emit (PlannerCreated "RSTARPlanner")
         (set_ivPlannerPtr (new_planner "RSTARPlanner" fwd) p)
  else p.

(** *** FootstepPlanner::extractSolution *)

(** The loop over [state_ids]: [path] is [ivPath] so far.  The result is
    the function's return value and [ivPath] at that point. *)
Fixpoint extract_loop (env : Env) (state_ids : list Z)
         (path : list (State D)) : bool * list (State D) :=
  match state_ids with
  | [] => (true, path)
  | id :: rest =>
      match env_getState env id with
      | None => (false, [])
      | Some s => extract_loop env rest (path ++ [s])
      end
  end.

Definition extractSolution (state_ids : list Z) (p : Planner)
  : bool * Planner :=
  let p := set_ivPath [] p in
  let r := extract_loop (ivPlannerEnvironmentPtr p) state_ids (ivPath p) in
  (fst r, set_ivPath (snd r) p).

(** *** FootstepPlanner::run *)
Definition run (p : Planner) : bool * Planner :=
  let p := emit (ROS_DEBUG "Setting up environment") p in
  let p := emit EnvSetUp
             (set_env (env_setUp (ivPlannerEnvironmentPtr p)
                                 (ivStartFootLeft p) (ivStartFootRight p)
                                 (ivGoalFootLeft p) (ivGoalFootRight p)) p) in
  let p := emit (ROS_DEBUG "Setting up environment done") p in
  let env := ivPlannerEnvironmentPtr p in
  let '(r, s) := set_start (ivPlannerPtr p) (startstateid env) in
  let p := set_ivPlannerPtr s p in
  if r =? 0 then (false, emit (ROS_ERROR "Failed to set start state.") p)
  else
    let '(r, s) := set_goal (ivPlannerPtr p) (goalstateid env) in
    let p := set_ivPlannerPtr s p in
    if r =? 0 then (false, emit (ROS_ERROR "Failed to set goal state") p)
    else
      let s := set_initialsolution_eps (ivPlannerPtr p)
                                       (ivInitialEpsilon (cfg p)) in
      let s := set_search_mode s (ivSearchUntilFirstSolution (cfg p)) in
      let p := emit (ROS_INFO "Start planning") (set_ivPlannerPtr s p) in
      let '(ret, solution_state_ids, path_cost, (s, env)) :=
        search_replan (ivPlannerPtr p) (ivPlannerEnvironmentPtr p)
                      (ivMaxSearchTime (cfg p)) in
      let p := emit SearchReplan (set_env env (set_ivPlannerPtr s p)) in
      let p := set_ivPathCost
                 (d_div (d_of_int path_cost) (d_of_int (@cvMmScale D Env E))) p in
      if negb (ret =? 0) && (0 <? Z.of_nat (List.length solution_state_ids)) then
        let p := emit (ROS_INFO "Solution found") p in
        let '(ok, p) := extractSolution solution_state_ids p in
        let p := set_ivPlanExists ok p in
        if negb ok then (false, emit (ROS_ERROR "extracting path failed") p)
        else (true, emit (ROS_INFO "Expanded states, final eps, path cost") p)
      else (false, emit (ROS_ERROR "No solution found") p).

(** *** FootstepPlanner::plan() *)
Definition plan (p : Planner) : bool * Planner :=
  match ivMapPtr p with
  | None =>
      (false, emit (ROS_ERROR "FootstepPlanner has no map yet for planning") p)
  | Some _ =>
      if negb (ivGoalPoseSetUp p) || negb (ivStartPoseSetUp p) then
        (false,
         emit (ROS_ERROR "FootstepPlanner has no start or goal pose set") p)
      else run (setupPlanner (reset_environment p))
  end.

(** *** FootstepPlanner::replan *)
Definition replan (p : Planner) : bool * Planner :=
  match ivMapPtr p with
  | None =>
      (false, emit (ROS_ERROR "FootstepPlanner has no map yet for planning") p)
  | Some _ =>
      if negb (ivGoalPoseSetUp p) || negb (ivStartPoseSetUp p) then
        (false,
         emit (ROS_ERROR "FootstepPlanner has no start or goal pose set") p)
      else run p
  end.

(** *** FootstepPlanner::getFootPosition *)
Definition getFootPosition (c : Config D) (robot : State D) (side : Leg)
  : State D :=
  let shift_x := d_div (d_mul (d_neg (d_sin (theta robot)))
                              (ivFootSeparation c)) (d_of_int 2) in
  let shift_y := d_div (d_mul (d_cos (theta robot))
                              (ivFootSeparation c)) (d_of_int 2) in
  let sign := if Leg_eqb side LEFT then d_of_int 1 else d_of_int (-1) in
  mkState (d_add (x robot) (d_mul sign shift_x))
          (d_add (y robot) (d_mul sign shift_y))
          (theta robot)
          side.

(** *** FootstepPlanner::setGoal(float x, float y, float theta) *)
Definition setGoal (vx vy vtheta : D) (p : Planner) : bool * Planner :=
  match ivMapPtr p with
  | None =>
      (false, emit (ROS_ERROR "Distance map hasn't been initialized yet.") p)
  | Some _ =>
      let goal := mkState vx vy vtheta (leg State_default) in
      let leftFoot := getFootPosition (cfg p) goal LEFT in
      let rightFoot := getFootPosition (cfg p) goal RIGHT in
      if env_occupied (ivPlannerEnvironmentPtr p) leftFoot
         || env_occupied (ivPlannerEnvironmentPtr p) rightFoot
      then (false, emit (ROS_ERROR "Goal pose not accessible.") p)
      else (true, emit (ROS_INFO "Goal pose set")
                       (set_goal_feet leftFoot rightFoot p))
  end.

(** *** FootstepPlanner::setStart(const State&, const State&) *)
Definition setStart_feet (right_foot left_foot : State D) (p : Planner)
  : bool * Planner :=
  if env_occupied (ivPlannerEnvironmentPtr p) left_foot
     || env_occupied (ivPlannerEnvironmentPtr p) right_foot
  then (false, p)
  else (true, set_start_feet left_foot right_foot p).

(** *** FootstepPlanner::setStart(float x, float y, float theta) *)
Definition setStart (vx vy vtheta : D) (p : Planner) : bool * Planner :=
  match ivMapPtr p with
  | None =>
      (false, emit (ROS_ERROR "Distance map hasn't been initialized yet.") p)
  | Some _ =>
      let start := mkState vx vy vtheta (leg State_default) in
      let leftFoot := getFootPosition (cfg p) start LEFT in
      let rightFoot := getFootPosition (cfg p) start RIGHT in
      let '(success, p) := setStart_feet rightFoot leftFoot p in
      if success then (success, emit (ROS_INFO "Start pose set") p)
      else (success, emit (ROS_ERROR "Start pose not accessible.") p)
  end.

(** *** FootstepPlanner::plan(float, float, float, float, float, float) *)
Definition plan_poses (start_x start_y start_theta
                       goal_x goal_y goal_theta : D) (p : Planner)
  : bool * Planner :=
  let '(ok, p) := setStart start_x start_y start_theta p in
  if negb ok then (false, p)
  else
    let '(ok, p) := setGoal goal_x goal_y goal_theta p in
    if negb ok then (false, p) else plan p.

(** A call that fails on a precondition: it returns false, leaves every
    member of the planner as it was and adds one error message to the
    trace. *)
Definition only_reports_error (p : Planner) (r : bool * Planner) : Prop :=
  exists msg, r = (false, emit (ROS_ERROR msg) p).

End FootstepPlannerDefs.

Section UpdateEnvironmentDefs.
Context {D Env Search : Type}.
Context {O : DoubleOps D} {T : Trig D} {H : Helper D}.
Context {E : EnvironmentOps D Env} {P : SearchOps D Env Search}.

Abbreviation Planner := (FootstepPlanner D Env Search).

(** The variables the loops of [updateEnvironment] write:
    [num_changed_cells], [s] and [changed_states]. *)
Definition ScanState : Type := (Z * State D * list (State D))%type.

(** The body of the loop over the angle bins: sets [s.theta] and pushes
    [s]. *)
Definition push_state (num_angle_bins vtheta : Z)
           (st : State D * list (State D))
  : option (State D * list (State D)) :=
  let s := mkState (x (fst st)) (y (fst st))
                   (angle_cell_2_state vtheta num_angle_bins)
                   (leg (fst st)) in
  Some (s, snd st ++ [s]).

(** [for (int theta = 0; theta < ivNumAngleBins; ++theta)]. *)
Definition push_angle_bins (num_angle_bins : Z)
           (st : State D * list (State D))
  : option (State D * list (State D)) :=
  for_upto num_angle_bins (push_state num_angle_bins) st.

(** The states pushed for one flagged pair [c = (x, y)]: one per angle
    bin, at the world position of [(x, y)]. *)
Definition states_at (m : GridMap2D D) (num_angle_bins : Z) (c : Z * Z)
  : list (State D) :=
  map (fun vtheta =>
         mkState (fst (mapToWorld m (fst c) (snd c)))
                 (snd (mapToWorld m (fst c) (snd c)))
                 (angle_cell_2_state vtheta num_angle_bins)
                 (leg State_default))
      (zrange num_angle_bins).

(** The body of the loop over [x], at row index [vy] of the outer
    loop: the test is on [changed_cells.at<uchar>(x,y)]. *)
Definition scan_cell (m : GridMap2D D) (num_angle_bins : Z)
           (changed_cells : Mat) (vy vx : Z) (st : ScanState)
  : option ScanState :=
  v <- at_ changed_cells vx vy ;;
  if v =? 255 then
    let '(num_changed_cells, s, changed_states) := st in
    let num_changed_cells := add32 num_changed_cells 1 in
    let w := mapToWorld m vx vy in
    let s := mkState (fst w) (snd w) (theta s) (leg s) in
    r <- push_angle_bins num_angle_bins (s, changed_states) ;;
    Some (num_changed_cells, fst r, snd r)
  else Some st.

(** [for (y = 0; y < changed_cells.rows; ++y)
       for (x = 0; x < changed_cells.cols; ++x) ...]. *)
Definition scan_changed_cells (m : GridMap2D D) (num_angle_bins : Z)
           (changed_cells : Mat) : option ScanState :=
  for_upto (rows changed_cells)
    (fun vy st =>
       for_upto (cols changed_cells)
         (fun vx st => scan_cell m num_angle_bins changed_cells vy vx st)
         st)
    (0, State_default, []).

(** [max_foot_radius]; [pow(v, 2.0)] is [v * v]. *)
Definition max_foot_radius (c : Config D) (m : GridMap2D D) : D :=
  let a := d_add (d_abs (ivOriginFootShiftX c))
                 (d_div (ivFootsizeX c) (d_of_int 2)) in
  let b := d_add (d_abs (ivOriginFootShiftY c))
                 (d_div (ivFootsizeY c) (d_of_int 2)) in
  d_div (d_sqrt (d_add (d_mul a a) (d_mul b b))) (getResolution m).

(** The mask the loops run over: XOR of the two bitmaps, inverted,
    distance-transformed and thresholded at [max_foot_radius]. *)
Definition inflated_changes (c : Config D) (old_map m : GridMap2D D)
  : option Mat :=
  changed_cells <- bitwise_xor (binaryMap old_map) (binaryMap m) ;;
  let changed_cells := bitwise_not changed_cells in
  let changedDistMap := distanceTransform changed_cells in
  Some (compare_le changedDistMap (max_foot_radius c m)).

(** The condition of the outer [if] of [updateEnvironment]. *)
Definition change_detection_applies (c : Config D)
           (old_map m : GridMap2D D) : bool :=
  String.eqb (ivPlannerType c) "ADPlanner"
  && d_eqb (getResolution m) (getResolution old_map)
  && (size_height m =? size_height old_map)
  && (size_width m =? size_width old_map).

(** Both [// reset planner] blocks. *)
Definition reset_planner (p : Planner) : Planner :=
  let p := emit (ROS_INFO "Reset old information in new planning task") p in
  setupPlanner (reset_environment p).

(** *** FootstepPlanner::updateEnvironment *)
Definition updateEnvironment (old_map : GridMap2D D) (p : Planner)
  : option Planner :=
  m <- ivMapPtr p ;;
  if change_detection_applies (cfg p) old_map m then
    let p := emit (ROS_INFO "Received an updated map => change detection")
                  p in
    changed_cells <- inflated_changes (cfg p) old_map m ;;
    st <- scan_changed_cells m (ivNumAngleBins (cfg p)) changed_cells ;;
    let '(num_changed_cells, _, changed_states) := st in
    if num_changed_cells =? 0 then
      Some (emit (ROS_INFO "old map equals new map; no replanning necessary")
                 p)
    else
      let p := emit (ROS_INFO "changed map cells found") p in
      if num_changed_cells <=? ivChangedCellsLimit (cfg p) then
        let p := emit (ROS_INFO "Use old information in new planning taks")
                      p in
        let changed_states_ids :=
          if ivForwardSearch (cfg p)
          then getSuccsOfGridCells (ivPlannerEnvironmentPtr p) changed_states
          else getPredsOfGridCells (ivPlannerEnvironmentPtr p) changed_states
        in
        Some (emit (CostsChanged changed_states_ids)
                   (set_ivPlannerPtr
                      (costs_changed (ivPlannerPtr p) changed_states_ids) p))
      else Some (reset_planner p)
  else Some (reset_planner p).

(** *** FootstepPlanner::setMap *)
Definition setMap (grid_map : GridMap2D D) (p : Planner) : option Planner :=
  let old_map := ivMapPtr p in
  let p := set_ivMapPtr (Some grid_map) p in
  let p := set_env (env_setMap (ivPlannerEnvironmentPtr p) grid_map) p in
  match old_map with
  | Some old =>
      if ivPlanExists p then
        p <- updateEnvironment old p ;;
        Some (snd (run p))
      else Some p
  | None => Some p
  end.

(** The states [updateEnvironment] enumerates from a mask. *)
Definition changed_states_of (m : GridMap2D D) (num_angle_bins : Z)
           (mask : Mat) : list (State D) :=
  flat_map (states_at m num_angle_bins)
           (filter (flagged mask) (scan_order mask)).



(** The planner types the constructor accepts; it exits on any other. *)
Definition known_planner_type (c : Config D) : Prop :=
  ivPlannerType c = "ARAPlanner"%string
  \/ ivPlannerType c = "ADPlanner"%string
  \/ ivPlannerType c = "RSTARPlanner"%string.

(** The events a call added to the trace of [p] on its way to [p']. *)
Definition events_since (p p' : Planner) : list Event :=
  skipn (List.length (trace p)) (trace p').

End UpdateEnvironmentDefs.

(** ** Instances of the interfaces *)

(** *** Doubles as real numbers: arithmetic without rounding *)

#[export] Instance R_DoubleOps : DoubleOps R := {|
  d_of_int := IZR;
  d_add := Rplus;
  d_mul := Rmult;
  d_div := Rdiv;
  d_neg := Ropp;
  d_abs := Rabs;
  d_sqrt := sqrt;
  d_eqb := fun a b => if Req_dec_T a b then true else false;
  d_leb := fun a b => if Rle_dec a b then true else false
|}.

#[export] Instance R_Trig : Trig R := {|
  d_sin := sin;
  d_cos := cos
|}.

(** *** Doubles as the kernel's binary64 floats *)

Definition float_of_Z (z : Z) : float :=
  if z <? 0 then PrimFloat.opp (PrimFloat.of_uint63 (Uint63.of_Z (- z)))
  else PrimFloat.of_uint63 (Uint63.of_Z z).

#[export] Instance float_DoubleOps : DoubleOps float := {|
  d_of_int := float_of_Z;
  d_add := PrimFloat.add;
  d_mul := PrimFloat.mul;
  d_div := PrimFloat.div;
  d_neg := PrimFloat.opp;
  d_abs := PrimFloat.abs;
  d_sqrt := PrimFloat.sqrt;
  d_eqb := PrimFloat.eqb;
  d_leb := PrimFloat.leb
|}.

(** The integer part of a finite float, towards zero. *)
Definition float_trunc (f : float) : Z :=
  match Prim2SF f with
  | S754_finite s m e =>
      let v := if 0 <=? e then Z.pos m * 2 ^ e else Z.pos m / 2 ^ (- e) in
      if s then - v else v
  | _ => 0
  end.

(** [round] of <cmath>: to the nearest integer, halves away from zero. *)
Definition float_round (f : float) : Z :=
  if PrimFloat.ltb f 0%float then float_trunc (PrimFloat.sub f 0.5%float)
  else float_trunc (PrimFloat.add f 0.5%float).

Definition two_pi : float := 0x1.921fb54442d18p+2%float.

(** Modelled from the spec: [int_hash] of helper.h, which the spec calls
    an integer avalanche hash without giving its steps.  This is the
    shift-add-xor mix on a 32-bit [int] key that such helpers use; the
    theorems below hold for every [int_hash], and only the closed
    examples run this one. *)
Definition int_hash_mix (key : Z) : Z :=
  let key := s32 (key + Z.shiftl key 12) in
  let key := Z.lxor key (Z.shiftr key 22) in
  let key := s32 (key + Z.shiftl key 4) in
  let key := Z.lxor key (Z.shiftr key 9) in
  let key := s32 (key + Z.shiftl key 10) in
  let key := Z.lxor key (Z.shiftr key 2) in
  let key := s32 (key + Z.shiftl key 7) in
  let key := Z.lxor key (Z.shiftr key 15) in
  u32 key.

(** Modelled from the spec: the discretisation of helper.h,
    [cell = round(worldValue / cellSize)] and
    [angleBin = round(theta / (2 pi / numAngleBins)) mod numAngleBins],
    with the centre of a bin as its inverse; the enumerators of [Leg] in
    the order RIGHT, LEFT, NOLEG. *)
#[export] Instance float_Helper : Helper float := {|
  state_2_cell := fun v cell_size => float_round (PrimFloat.div v cell_size);
  angle_state_2_cell := fun v n =>
    float_round (PrimFloat.div v (PrimFloat.div two_pi (float_of_Z n))) mod n;
  angle_cell_2_state := fun bin n =>
    PrimFloat.mul (float_of_Z bin) (PrimFloat.div two_pi (float_of_Z n));
  int_hash := int_hash_mix;
  leg_code := fun l => match l with RIGHT => 0 | LEFT => 1 | NOLEG => 2 end;
  State_default := mkState 0%float 0%float 0%float NOLEG
|}.

(** [sin] and [cos] on the floats.  <cmath> is not part of the sources
    and the kernel's floats have no trigonometric functions: these are
    the Taylor polynomials of degree 17 and 16 in Horner form, every
    operation rounded to binary64.  At 0 they give 0 and 1, as every
    implementation of <cmath> does; elsewhere they stand for it within
    the error of the truncated series, and only closed examples run
    them. *)
Fixpoint horner (coeffs : list float) (v : float) : float :=
  match coeffs with
  | [] => 0%float
  | a :: rest => PrimFloat.add a (PrimFloat.mul v (horner rest v))
  end.

Definition zfact (n : Z) : Z :=
  fold_left Z.mul (map Z.of_nat (seq 1 (Z.to_nat n))) 1.

(** [(-1)^k / n!]. *)
Definition series_coeff (k n : Z) : float :=
  let c := PrimFloat.div 1%float (float_of_Z (zfact n)) in
  if Z.even k then c else PrimFloat.opp c.

Definition series_sin (t : float) : float :=
  PrimFloat.mul t
    (horner (map (fun k => series_coeff k (2 * k + 1))
                 (map Z.of_nat (seq 0 9)))
            (PrimFloat.mul t t)).

Definition series_cos (t : float) : float :=
  horner (map (fun k => series_coeff k (2 * k)) (map Z.of_nat (seq 0 9)))
         (PrimFloat.mul t t).

#[export] Instance series_Trig : Trig float := {|
  d_sin := series_sin;
  d_cos := series_cos
|}.

(** The value of a finite float as a multiple of [2^-1074], the least
    positive binary64 number: every finite double is an integer number
    of these units, so sums and differences of doubles are compared
    without rounding on the units. *)
Definition float_units (f : float) : Z :=
  match Prim2SF f with
  | S754_finite s m e => cond_Zopp s (Z.pos m) * 2 ^ (e + 1074)
  | _ => 0
  end.

(** *** A table environment and a recording search, for closed examples *)

(** The environment is the list of registered states, the id of a state
    being its position, and a flag saying whether footprints collide. *)
Record TableEnv (D : Type) : Type := mkTableEnv {
  blocked : bool;
  registered : list (State D)
}.
Arguments mkTableEnv {D} _ _.
Arguments blocked {D} _.
Arguments registered {D} _.

#[export] Instance table_Environment {D : Type}
  : EnvironmentOps D (TableEnv D) := {|
  env_reset := fun env => mkTableEnv (blocked env) [];
  env_setMap := fun env _ => env;
  env_setUp := fun env sl sr gl gr =>
    mkTableEnv (blocked env) (registered env ++ [sl; sr; gl; gr]);
  env_occupied := fun env _ => blocked env;
  env_getState := fun env id =>
    if id <? 0 then None else nth_error (registered env) (Z.to_nat id);
  startstateid := fun _ => 0;
  goalstateid := fun _ => 1;
  getSuccsOfGridCells := fun _ _ => [];
  getPredsOfGridCells := fun _ _ => [];
  cvMmScale := 1000
|}.

(** The search records the ids it was told have changed and finds no
    solution. *)
#[export] Instance recording_Search {D : Type}
  : SearchOps D (TableEnv D) (list Z) := {|
  new_planner := fun _ _ => [];
  set_start := fun s _ => (1, s);
  set_goal := fun s _ => (1, s);
  set_initialsolution_eps := fun s _ => s;
  set_search_mode := fun s _ => s;
  search_replan := fun s env _ => ((0, [], 0), (s, env));
  costs_changed := fun s ids => s ++ ids
|}.

(** [round] on the real numbers: to the nearest integer, halves away from
    zero. *)
Definition R_round (q : R) : Z :=
  if Rle_dec 0 q then Int_part (q + / 2) else - Int_part (- q + / 2).

(** Modelled from the spec: the discretisation of helper.h on the real
    numbers, [cell = round(worldValue / cellSize)] and
    [angleBin = round(theta / (2 pi / numAngleBins)) mod numAngleBins]. *)
#[export] Instance R_Helper : Helper R := {|
  state_2_cell := fun v cell_size => R_round (v / cell_size);
  angle_state_2_cell := fun v n => R_round (v / (2 * PI / IZR n)) mod n;
  angle_cell_2_state := fun bin n => (IZR bin * (2 * PI / IZR n))%R;
  int_hash := int_hash_mix;
  leg_code := fun l => match l with RIGHT => 0 | LEFT => 1 | NOLEG => 2 end;
  State_default := mkState 0%R 0%R 0%R NOLEG
|}.

(** ** Examples *)

#[local] Set Warnings "-inexact-float".

(** The default foot geometry, the ADPlanner searching backwards, four
    angle bins and a limit of changed cells of [limit]. *)
Definition example_config (limit : Z) : Config float :=
  mkConfig "ADPlanner" false false 7%float 3%float limit 4
           0.095%float 0.02%float 0%float 0.16%float 0.06%float.

(** A grid map of resolution 0.1 over the bitmap [b]; [size()] is the
    size of the bitmap and the world position of a cell is its centre. *)
Definition example_grid (b : Mat) : GridMap2D float :=
  mkGridMap2D 0.1%float (rows b) (cols b) b
    (fun mx my =>
       (PrimFloat.mul (PrimFloat.add (float_of_Z mx) 0.5%float) 0.1%float,
        PrimFloat.mul (PrimFloat.add (float_of_Z my) 0.5%float) 0.1%float)).

Definition example_foot : State float :=
  mkState 0.25%float 0.25%float 0%float LEFT.

(** A planner that has [b] as its map, one registered state and a plan of
    one step. *)
Definition example_planner (limit : Z) (b : Mat)
  : FootstepPlanner float (TableEnv float) (list Z) :=
  mkFootstepPlanner (example_config limit) (Some (example_grid b))
    (mkTableEnv false [example_foot]) [] [example_foot]
    example_foot example_foot example_foot example_foot
    true true true 0%float [].

(** Free 3x3 and 2x3 bitmaps (255 is free, 0 is occupied), and the same
    with one occupied cell. *)
Definition free3 : Mat := mkMat 3 3 (fun _ _ => 255).
Definition centre3 : Mat :=
  mkMat 3 3 (fun i j => if (i =? 1) && (j =? 1) then 0 else 255).
Definition free23 : Mat := mkMat 2 3 (fun _ _ => 255).
Definition corner23 : Mat :=
  mkMat 2 3 (fun i j => if (i =? 0) && (j =? 0) then 0 else 255).

(** A planner over the real numbers whose environment reports every
    footprint as occupied; [map] says whether it has a map. *)
Definition walled_planner (map : bool)
  : FootstepPlanner R (TableEnv R) (list Z) :=
  mkFootstepPlanner
    (mkConfig "ADPlanner" false false 7%R 3%R 5000 64 1%R 0%R 0%R 1%R 1%R)
    (if map
     then Some (mkGridMap2D 1%R 3 3 free3 (fun mx my => (IZR mx, IZR my)))
     else None)
    (mkTableEnv true []) [] []
    (mkState 0%R 0%R 0%R LEFT) (mkState 0%R 0%R 0%R RIGHT)
    (mkState 0%R 0%R 0%R LEFT) (mkState 0%R 0%R 0%R RIGHT)
    true false false 0%R [].

(** *** Single precision and decimal literals *)

(** Decimal literals and the conversion of a double to [float]:
    [d_decimal m e] is the double of the literal [m * 10^e], [d_float v]
    is [v] narrowed to single precision and read as a double again. *)
Class Literals (D : Type) : Type := {
  d_decimal : Z -> Z -> D;
  d_float : D -> D
}.

(** Over the real numbers nothing is rounded. *)
#[export] Instance R_Literals : Literals R := {|
  d_decimal := fun m e =>
    if 0 <=? e then IZR (m * 10 ^ e) else (IZR m / IZR (10 ^ (- e)))%R;
  d_float := fun v => v
|}.

(** Round to nearest even on binary32 (24 bits, emax 128). *)
Definition float_narrow (f : float) : float :=
  match Prim2SF f with
  | S754_finite s m e =>
      SF2Prim (binary_normalize 24 128 (cond_Zopp s (Z.pos m)) e s)
  | _ => f
  end.

#[export] Instance float_Literals : Literals float := {|
  d_decimal := fun m e =>
    if 0 <=? e then float_of_Z (m * 10 ^ e)
    else PrimFloat.div (float_of_Z m) (float_of_Z (10 ^ (- e)));
  d_float := float_narrow
|}.

(** ** FootstepPlanner.cpp: the callbacks and the planning service *)

(** [humanoid_nav_msgs::StepTarget]: a pose and one of the two leg
    constants of the message. *)
Inductive StepLeg : Type := step_right | step_left.

Record StepTarget (D : Type) : Type := mkStepTarget {
  pose_x : D;
  pose_y : D;
  pose_theta : D;
  step_leg : StepLeg
}.
Arguments mkStepTarget {D} _ _ _ _.
Arguments pose_x {D} _.
Arguments pose_y {D} _.
Arguments pose_theta {D} _.
Arguments step_leg {D} _.

(** [humanoid_nav_msgs::PlanFootsteps::Response]. *)
Record PlanFootstepsResponse (D : Type) : Type := mkResponse {
  resp_footsteps : list (StepTarget D);
  resp_costs : D;
  resp_result : bool
}.
Arguments mkResponse {D} _ _ _.
Arguments resp_footsteps {D} _.
Arguments resp_costs {D} _.
Arguments resp_result {D} _.

Section ServiceDefs.
Context {D Env Search : Type}.
Context {O : DoubleOps D} {T : Trig D} {L : Literals D} {H : Helper D}.
Context {E : EnvironmentOps D Env} {P : SearchOps D Env Search}.

Abbreviation Planner := (FootstepPlanner D Env Search).

(** What a call leaves alone when it does not touch the set-up: the
    configuration, the map, the four feet and the two pose flags. *)
Definition same_setup (p p' : Planner) : Prop :=
  cfg p' = cfg p /\ ivMapPtr p' = ivMapPtr p
  /\ ivStartFootLeft p' = ivStartFootLeft p
  /\ ivStartFootRight p' = ivStartFootRight p
  /\ ivGoalFootLeft p' = ivGoalFootLeft p
  /\ ivGoalFootRight p' = ivGoalFootRight p
  /\ ivStartPoseSetUp p' = ivStartPoseSetUp p
  /\ ivGoalPoseSetUp p' = ivGoalPoseSetUp p.

(** What a call leaves alone when it does not touch the plan: the path,
    the flag of its existence and its cost. *)
Definition same_plan (p p' : Planner) : Prop :=
  ivPath p' = ivPath p /\ ivPlanExists p' = ivPlanExists p
  /\ ivPathCost p' = ivPathCost p.

(** The events of a map update: messages that are no errors, the reset of
    the environment, the creation of a search and the notice of changed
    costs. *)
Definition update_event (e : Event) : Prop :=
  (exists msg, e = ROS_INFO msg) \/ e = EnvReset
  \/ (exists t, e = PlannerCreated t) \/ (exists ids, e = CostsChanged ids).

(** [ivMapPtr] as a condition: the pointer is not null. *)
Definition has_map (p : Planner) : bool :=
  match ivMapPtr p with
  | Some _ => true
  | None => false
  end.

(** *** FootstepPlanner::goalPoseCallback, on the position and the yaw of
    the pose received.  [setGoal(goal_pose)] hands the three doubles to
    the [float] parameters of [setGoal(float, float, float)]. *)
Definition goalPoseCallback (vx vy vtheta : D) (p : Planner)
  : option Planner :=
  let '(success, p) :=
    setGoal (d_float vx) (d_float vy) (d_float vtheta) p in
  if success then
    if ivStartPoseSetUp p then
      assert (has_map p) ;;; Some (snd (run p))
    else Some p
  else Some p.

(** *** FootstepPlanner::startPoseCallback, on the position and the yaw of
    the pose received, which become the [float] arguments of
    [setStart] *)
Definition startPoseCallback (vx vy vtheta : D) (p : Planner)
  : option Planner :=
  let '(success, p) :=
    setStart (d_float vx) (d_float vy) (d_float vtheta) p in
  if success then
    if ivGoalPoseSetUp p then
      assert (has_map p) ;;; Some (snd (run p))
    else Some p
  else Some p.

(** The format string of the error [planService] reports for a step
    without a leg. *)
Definition noleg_message : string :=
  "Footstep pose at (%f, %f, %f) is set to NOLEG!".

(** The loop of [planService] over the path: a step of the left or the
    right leg is pushed to the response, any other is reported and
    skipped. *)
Fixpoint footsteps_loop (path : list (State D))
         (footsteps : list (StepTarget D)) (p : Planner)
  : list (StepTarget D) * Planner :=
  match path with
  | [] => (footsteps, p)
  | st :: rest =>
      match leg st with
      | LEFT =>
          footsteps_loop rest
            (footsteps ++ [mkStepTarget (x st) (y st) (theta st) step_left]) p
      | RIGHT =>
          footsteps_loop rest
            (footsteps ++ [mkStepTarget (x st) (y st) (theta st) step_right])
            p
      | NOLEG =>
          footsteps_loop rest footsteps
            (emit (ROS_ERROR noleg_message) p)
      end
  end.

(** *** FootstepPlanner::planService, on the poses of the request and the
    response object it fills; the doubles of the request become the
    [float] arguments of [plan]; [getPathCosts()] is [ivPathCost] and the
    path iterators run over [ivPath]. *)
Definition planService (start_x start_y start_theta
                        goal_x goal_y goal_theta : D)
           (resp : PlanFootstepsResponse D) (p : Planner)
  : bool * PlanFootstepsResponse D * Planner :=
  let '(result, p) :=
    plan_poses (d_float start_x) (d_float start_y) (d_float start_theta)
               (d_float goal_x) (d_float goal_y) (d_float goal_theta) p in
  let costs := ivPathCost p in
  let r := footsteps_loop (ivPath p) (resp_footsteps resp) p in
  (result, mkResponse (fst r) costs result, snd r).

End ServiceDefs.

(** *** A search that replays a script, for closed examples *)

(** The search accepts start and goal when [script_accepts], and returns
    the scripted result on every [replan]; it records the ids it was told
    have changed. *)
Record Script : Type := mkScript {
  script_accepts : bool;
  script_ret : Z;
  script_ids : list Z;
  script_cost : Z;
  script_told : list Z
}.

#[export] Instance scripted_Search {D : Type}
  : SearchOps D (TableEnv D) Script := {|
  new_planner := fun _ _ => mkScript true 0 [] 0 [];
  set_start := fun s _ => (if script_accepts s then 1 else 0, s);
  set_goal := fun s _ => (if script_accepts s then 1 else 0, s);
  set_initialsolution_eps := fun s _ => s;
  set_search_mode := fun s _ => s;
  search_replan := fun s env _ =>
    ((script_ret s, script_ids s, script_cost s), (s, env));
  costs_changed := fun s ids =>
    mkScript (script_accepts s) (script_ret s) (script_ids s)
             (script_cost s) (script_told s ++ ids)
|}.

(** A planner over the floats with the scripted search: map [b], both
    poses set, the feet registered as states 0 to 3 by [setUp]. *)
Definition scripted_planner (b : Mat) (s : Script)
  : FootstepPlanner float (TableEnv float) Script :=
  mkFootstepPlanner (example_config 5000) (Some (example_grid b))
    (mkTableEnv false []) s [example_foot]
    example_foot example_foot example_foot example_foot
    true true true 0%float [].


Section PoseDefs.
Context {D : Type} {O : DoubleOps D} {T : Trig D} {H : Helper D}.

(** The two feet [setStart] and [setGoal] test and store for a pose: the
    left and the right foot of a default-constructed [State] with the
    pose assigned. *)
Definition feet_of (c : Config D) (vx vy vtheta : D) : State D * State D :=
  let pose := mkState vx vy vtheta (leg State_default) in
  (getFootPosition c pose LEFT, getFootPosition c pose RIGHT).

(** The entry of the response for one step of the path: none for a step
    that is neither left nor right. *)
Definition step_of (st : State D) : list (StepTarget D) :=
  match leg st with
  | LEFT => [mkStepTarget (x st) (y st) (theta st) step_left]
  | RIGHT => [mkStepTarget (x st) (y st) (theta st) step_right]
  | NOLEG => []
  end.

(** The steps of a path that are neither left nor right. *)
Definition noleg_steps (path : list (State D)) : list (State D) :=
  filter (fun st => match leg st with NOLEG => true | _ => false end) path.

End PoseDefs.


(** A planner over the real numbers with a map, an environment in which
    no footprint is occupied and no pose set. *)
Definition open_planner : FootstepPlanner R (TableEnv R) (list Z) :=
  mkFootstepPlanner
    (mkConfig "ADPlanner" false false 7%R 3%R 5000 64 1%R 0%R 0%R 1%R 1%R)
    (Some (mkGridMap2D 1%R 3 3 free3 (fun mx my => (IZR mx, IZR my))))
    (mkTableEnv false []) [] []
    (mkState 0%R 0%R 0%R LEFT) (mkState 0%R 0%R 0%R RIGHT)
    (mkState 0%R 0%R 0%R LEFT) (mkState 0%R 0%R 0%R RIGHT)
    false false false 0%R [].


(** ** FootstepPlanner.cpp: the footstep markers *)

Inductive MarkerType : Type := ARROW | CUBE.
Inductive MarkerAction : Type := ADD | DELETE.

(** What the planner writes of a [visualization_msgs::Marker]: frame,
    namespace, id, type, action, position, yaw of the orientation ([None]
    while the orientation has not been written), scale and colour
    (r, g, b, a).  The time stamps are left out. *)
Record Marker (D : Type) : Type := mkMarker {
  mk_frame_id : string;
  mk_ns : string;
  mk_id : Z;
  mk_type : MarkerType;
  mk_action : MarkerAction;
  mk_x : D;
  mk_y : D;
  mk_yaw : option D;
  mk_scale : D * D * D;
  mk_color : D * D * D * D
}.
Arguments mkMarker {D} _ _ _ _ _ _ _ _ _ _.
Arguments mk_frame_id {D} _.
Arguments mk_ns {D} _.
Arguments mk_id {D} _.
Arguments mk_type {D} _.
Arguments mk_action {D} _.
Arguments mk_x {D} _.
Arguments mk_y {D} _.
Arguments mk_yaw {D} _.
Arguments mk_scale {D} _.
Arguments mk_color {D} _.

(** The members of the planner the marker methods read and write besides
    those of [FootstepPlanner]. *)
Record Visualisation (D : Type) : Type := mkVisualisation {
  ivLastMarkerMsgSize : Z;
  ivMarkerNamespace : string;
  ivFootsizeZ : D
}.
Arguments mkVisualisation {D} _ _ _.
Arguments ivLastMarkerMsgSize {D} _.
Arguments ivMarkerNamespace {D} _.
Arguments ivFootsizeZ {D} _.

(** [GridMap2D::getFrameID] and the value of a default-constructed
    marker. *)
Class MarkerOps (D : Type) : Type := {
  getFrameID : GridMap2D D -> string;
  Marker_default : Marker D
}.

Section MarkerDefs.
Context {D Env Search : Type}.
Context {O : DoubleOps D} {T : Trig D} {L : Literals D} {M : MarkerOps D}.

Abbreviation Planner := (FootstepPlanner D Env Search).

(** [marker.header.frame_id = f]. *)
Definition with_frame (f : string) (mk : Marker D) : Marker D :=
  mkMarker f (mk_ns mk) (mk_id mk) (mk_type mk) (mk_action mk)
           (mk_x mk) (mk_y mk) (mk_yaw mk) (mk_scale mk) (mk_color mk).

(** [marker.id = id]. *)
Definition with_id (id : Z) (mk : Marker D) : Marker D :=
  mkMarker (mk_frame_id mk) (mk_ns mk) id (mk_type mk) (mk_action mk)
           (mk_x mk) (mk_y mk) (mk_yaw mk) (mk_scale mk) (mk_color mk).

(** [marker.ns = ns; marker.id = id; marker.action = DELETE]. *)
Definition as_delete (ns : string) (id : Z) (mk : Marker D) : Marker D :=
  mkMarker (mk_frame_id mk) ns id (mk_type mk) DELETE
           (mk_x mk) (mk_y mk) (mk_yaw mk) (mk_scale mk) (mk_color mk).

(** *** FootstepPlanner::footstepToMarker.  [cos_theta], [sin_theta] and
    the two shifts are [float] variables, the products and sums are
    computed on doubles; [a - b] is [a + (-b)].  A null [ivMapPtr] is
    dereferenced for the frame. *)
Definition footstepToMarker (vis : Visualisation D) (p : Planner)
           (footstep : State D) (marker : Marker D) : option (Marker D) :=
  m <- ivMapPtr p ;;
  let cos_theta := d_float (d_cos (theta footstep)) in
  let sin_theta := d_float (d_sin (theta footstep)) in
  let sx := ivOriginFootShiftX (cfg p) in
  let sy := ivOriginFootShiftY (cfg p) in
  let x_shift :=
    d_float (d_add (d_mul cos_theta sx) (d_neg (d_mul sin_theta sy))) in
  let y_shift :=
    if Leg_eqb (leg footstep) LEFT
    then d_float (d_add (d_mul sin_theta sx) (d_mul cos_theta sy))
    else d_float (d_add (d_mul sin_theta sx) (d_neg (d_mul cos_theta sy))) in
  let color :=
    if Leg_eqb (leg footstep) RIGHT
    then (d_of_int 0, d_of_int 1, d_of_int 0, d_float (d_decimal 4 (-1)))
    else (d_of_int 1, d_of_int 0, d_of_int 0, d_float (d_decimal 4 (-1))) in
  Some (mkMarker (getFrameID m) (ivMarkerNamespace vis) (mk_id marker)
                 CUBE ADD
                 (d_add (x footstep) x_shift) (d_add (y footstep) y_shift)
                 (Some (theta footstep))
                 (ivFootsizeX (cfg p), ivFootsizeY (cfg p), ivFootsizeZ vis)
                 color).

(** The variables of [broadcastFootstepPathVis]: [marker],
    [markers_counter] and [markers]. *)
Definition MarkerState : Type := (Marker D * Z * list (Marker D))%type.

(** [footstepToMarker(s, &marker); marker.id = markers_counter++;
    markers.push_back(marker)].  Incrementing the [int] counter beyond
    INT_MAX is undefined. *)
Definition push_footstep (vis : Visualisation D) (p : Planner)
           (s : State D) (st : MarkerState) : option MarkerState :=
  let '(marker, markers_counter, markers) := st in
  mk <- footstepToMarker vis p s marker ;;
  assert (markers_counter + 1 <? 2 ^ 31) ;;;
  let mk := with_id markers_counter mk in
  Some (mk, markers_counter + 1, markers ++ [mk]).

(** The loop over the path. *)
Fixpoint push_path (vis : Visualisation D) (p : Planner)
         (path : list (State D)) (st : MarkerState) : option MarkerState :=
  match path with
  | [] => Some st
  | s :: rest => st' <- push_footstep vis p s st ;; push_path vis p rest st'
  end.

(** One round of the loop over [j]: a DELETE marker of id [j]. *)
Definition push_delete (vis : Visualisation D) (j : Z) (st : MarkerState)
  : option MarkerState :=
  let '(marker, markers_counter, markers) := st in
  let mk := as_delete (ivMarkerNamespace vis) j marker in
  Some (mk, markers_counter, markers ++ [mk]).

(** *** FootstepPlanner::broadcastFootstepPathVis.  The result holds the
    array handed to the publisher, if any; [markers.size()] is converted
    to the [int] member. *)
Definition broadcastFootstepPathVis (vis : Visualisation D) (p : Planner)
  : option (option (list (Marker D)) * Visualisation D * Planner) :=
  match ivPath p with
  | [] =>
      Some (None, vis, emit (ROS_INFO "no path has been extracted yet") p)
  | front :: _ =>
      m <- ivMapPtr p ;;
      let marker := with_frame (getFrameID m) Marker_default in
      st <- push_footstep vis p
              (if Leg_eqb (leg front) LEFT then ivStartFootRight p
               else ivStartFootLeft p)
              (marker, 0, []) ;;
      st <- push_path vis p (ivPath p) st ;;
      let markers_counter := snd (fst st) in
      st <- (if markers_counter <? ivLastMarkerMsgSize vis then
               for_from (Z.to_nat (ivLastMarkerMsgSize vis - markers_counter))
                        markers_counter (push_delete vis) st
             else Some st) ;;
      let back := last (ivPath p) front in
      st <- push_footstep vis p
              (if Leg_eqb (leg back) LEFT then ivGoalFootRight p
               else ivGoalFootLeft p)
              st ;;
      let markers := snd st in
      Some (Some markers,
            mkVisualisation (s32 (Z.of_nat (List.length markers)))
                            (ivMarkerNamespace vis) (ivFootsizeZ vis),
            p)
  end.

(** *** FootstepPlanner::clearFootstepPathVis.  [num_footsteps] is
    unsigned; the frame is read from the map before anything else. *)
Definition clearFootstepPathVis (vis : Visualisation D) (p : Planner)
           (num_footsteps : Z) : option (list (Marker D)) :=
  m <- ivMapPtr p ;;
  let marker := with_frame (getFrameID m) Marker_default in
  let num_footsteps :=
    if num_footsteps <? 1 then u32 (ivLastMarkerMsgSize vis)
    else num_footsteps in
  st <- for_from (Z.to_nat num_footsteps) 0
          (fun i st =>
             let '(marker, markers) := st in
             let mk := as_delete (ivMarkerNamespace vis) (s32 i) marker in
             Some (mk, markers ++ [mk]))
          (marker, []) ;;
  Some (snd st).

End MarkerDefs.

(** A map frame and the default marker of the message type: type 0,
    action 0, everything else zero or empty. *)
#[export] Instance map_MarkerOps {D : Type} {O : DoubleOps D}
  : MarkerOps D := {|
  getFrameID := fun _ => "map"%string;
  Marker_default :=
    mkMarker "" "" 0 ARROW ADD (d_of_int 0) (d_of_int 0) None
             (d_of_int 0, d_of_int 0, d_of_int 0)
             (d_of_int 0, d_of_int 0, d_of_int 0, d_of_int 0)
|}.

(** [open_planner] with a path of two steps and an origin shift of the
    feet. *)
Definition walked_planner : FootstepPlanner R (TableEnv R) (list Z) :=
  mkFootstepPlanner
    (mkConfig "ADPlanner" false false 7%R 3%R 5000 64 1%R 2%R 1%R 1%R 1%R)
    (Some (mkGridMap2D 1%R 3 3 free3 (fun mx my => (IZR mx, IZR my))))
    (mkTableEnv false []) []
    [mkState 1%R 0%R 0%R RIGHT; mkState 2%R 1%R 0%R LEFT]
    (mkState 0%R 1%R 0%R LEFT) (mkState 0%R 0%R 0%R RIGHT)
    (mkState 3%R 1%R 0%R LEFT) (mkState 3%R 0%R 0%R RIGHT)
    true true true 2%R [].


(** * Properties *)

(** ** Machine integers and option *)

Lemma u32_range (z : Z) : 0 <= u32 z < 2 ^ 32.
Proof. unfold u32. apply Z.mod_pos_bound. lia. Qed.


Lemma add32_u32_l (a b : Z) : add32 (u32 a) b = u32 (a + b).
Proof. unfold add32, u32. apply Zplus_mod_idemp_l. Qed.

Lemma Leg_eqb_eq (a b : Leg) : Leg_eqb a b = true <-> a = b.
Proof. destruct a, b; simpl; split; intros E; congruence. Qed.

Lemma obind_Some {A B : Type} (o : option A) (k : A -> option B) (b : B) :
  obind o k = Some b <-> exists a, o = Some a /\ k a = Some b.
Proof.
  destruct o as [a|]; simpl; split.
  - intros E. exists a. split; [reflexivity | exact E].
  - intros [a' [Ea Ek]]. injection Ea as ->. exact Ek.
  - discriminate.
  - intros [a' [Ea _]]. discriminate.
Qed.

(** ** PlanningState *)

(** C1.  [s1 == s2] holds exactly when the hash tags and the four
    discrete members agree; states with different hash tags compare
    unequal without a look at the members; and [!=] is the negation of
    [==]. *)
Theorem operator_eq_iff (s1 s2 : PlanningState) :
  (operator_eq s1 s2 = true <->
     getHashTag s1 = getHashTag s2 /\ getX s1 = getX s2 /\
     getY s1 = getY s2 /\ getTheta s1 = getTheta s2 /\
     getLeg s1 = getLeg s2)
  /\ (getHashTag s1 <> getHashTag s2 ->
      operator_eq s1 s2 = false /\ operator_neq s1 s2 = true)
  /\ operator_neq s1 s2 = negb (operator_eq s1 s2).
Proof.
  unfold operator_neq, operator_eq, getHashTag, getX, getY, getTheta, getLeg.
  split; [split|split].
  - destruct (Z.eqb_spec (ivHashTag s1) (ivHashTag s2)) as [Eh|Nh];
      simpl; [|discriminate].
    intros E.
    apply andb_prop in E; destruct E as [E El].
    apply andb_prop in E; destruct E as [E Et].
    apply andb_prop in E; destruct E as [Ex Ey].
    apply Z.eqb_eq in Ex, Ey, Et. apply Leg_eqb_eq in El.
    repeat split; assumption.
  - intros (Eh & Ex & Ey & Et & El).
    rewrite Eh, Ex, Ey, Et, El, !Z.eqb_refl. simpl.
    now apply Leg_eqb_eq.
  - intros Nh. apply Z.eqb_neq in Nh. rewrite Nh. simpl. split; reflexivity.
  - reflexivity.
Qed.

(** The equation of C1 at two states that collide on the hash tag. *)
Lemma operator_eq_iff_witness :
  operator_eq (mkPlanningState 1 2 3 LEFT (-1) 9)
              (mkPlanningState 1 2 4 LEFT (-1) 9) = false
  /\ operator_neq (mkPlanningState 1 2 3 LEFT (-1) 9)
                  (mkPlanningState 1 2 3 RIGHT 5 8) = true.
Proof.
  split.
  - reflexivity.
  - apply (proj1 (proj2 (operator_eq_iff
                            (mkPlanningState 1 2 3 LEFT (-1) 9)
                            (mkPlanningState 1 2 3 RIGHT 5 8)))).
    simpl. lia.
Defined.

Section PlanningStateFacts.
Context {D : Type} {H : Helper D}.

Lemma calculateHashTag_total (vx vy vtheta : Z) (vleg : Leg) (m : Z) :
  u32 m <> 0 ->
  calculateHashTag vx vy vtheta vleg m
  = Some (int_hash (s32 (shifted_sum vx vy vtheta vleg)) mod u32 m).
Proof.
  intros Hm. unfold calculateHashTag.
  destruct (Z.eqb_spec (u32 m) 0) as [E|_]; [contradiction|reflexivity].
Qed.

Lemma calculateHashTag_range (vx vy vtheta : Z) (vleg : Leg) (m tag : Z) :
  calculateHashTag vx vy vtheta vleg m = Some tag -> 0 <= tag < u32 m.
Proof.
  unfold calculateHashTag.
  destruct (Z.eqb_spec (u32 m) 0) as [E|N]; [discriminate|].
  intros [= <-]. apply Z.mod_pos_bound.
  pose proof (u32_range m). lia.
Qed.

(** C5, amended.  For a table size that is not zero, the integer-field
    and the State-based constructor return a state whose hash tag is
    [int_hash] of the shifted sum of the hashed members, modulo the table
    size: the sum goes through one more [int_hash] before the modulus. *)
Theorem hashTag_of_constructed (max_hash_size : Z) :
  u32 max_hash_size <> 0 ->
  (forall vx vy vtheta vleg cell_size num_angle_bins indet,
      exists s,
        PlanningState_int vx vy vtheta vleg cell_size num_angle_bins
                          max_hash_size indet = Some s
        /\ getX s = vx /\ getY s = vy /\ getTheta s = vtheta
        /\ getLeg s = vleg
        /\ getHashTag s = hashTag_of_members s max_hash_size)
  /\ (forall st cell_size num_angle_bins,
         exists s,
           PlanningState_State st cell_size num_angle_bins max_hash_size
           = Some s
           /\ getX s = state_2_cell (x st) cell_size
           /\ getY s = state_2_cell (y st) cell_size
           /\ getTheta s = angle_state_2_cell (theta st) num_angle_bins
           /\ getLeg s = leg st
           /\ getHashTag s = hashTag_of_members s max_hash_size).
Proof.
  intros Hm. split.
  - intros. unfold PlanningState_int.
    rewrite calculateHashTag_total by exact Hm. simpl.
    eexists. split; [reflexivity|]. repeat split.
  - intros. unfold PlanningState_State.
    rewrite calculateHashTag_total by exact Hm. simpl.
    eexists. split; [reflexivity|]. repeat split.
Qed.

(** The State-based constructor sets the id to -1. *)
Lemma PlanningState_State_id (st : State D) (cell_size : D)
      (num_angle_bins max_hash_size : Z) (s : PlanningState) :
  PlanningState_State st cell_size num_angle_bins max_hash_size = Some s ->
  getId s = -1.
Proof.
  unfold PlanningState_State. intros E.
  apply obind_Some in E. destruct E as [tag [_ E]].
  injection E as <-. reflexivity.
Qed.

(** The copy constructor copies every member, the id among them. *)
Lemma PlanningState_copy_eq (s : PlanningState) : PlanningState_copy s = s.
Proof. destruct s. reflexivity. Qed.

(** The integer-field constructor leaves in the id what its storage
    held. *)
Lemma PlanningState_int_id (vx vy vtheta : Z) (vleg : Leg) (cell_size : D)
      (num_angle_bins max_hash_size indet : Z) (s : PlanningState) :
  PlanningState_int vx vy vtheta vleg cell_size num_angle_bins
                    max_hash_size indet = Some s ->
  getId s = indet.
Proof.
  unfold PlanningState_int. intros E.
  apply obind_Some in E. destruct E as [tag [_ E]].
  injection E as <-. reflexivity.
Qed.

(** C10.  The constructor from raw doubles never returns: whatever its
    arguments, it ends in the failed assertion (or, for a table size of
    zero, in the modulus before it).  The State-based and the
    integer-field constructor return a state for every table size
    that is not zero. *)
Theorem PlanningState_double_aborts :
  (forall vx vy vtheta vleg cell_size num_angle_bins max_hash_size,
      PlanningState_double vx vy vtheta vleg cell_size num_angle_bins
                           max_hash_size = None)
  /\ (forall max_hash_size,
         u32 max_hash_size <> 0 ->
         (forall st cell_size num_angle_bins,
             PlanningState_State st cell_size num_angle_bins max_hash_size
             <> None)
         /\ (forall vx vy vtheta vleg cell_size num_angle_bins indet,
                PlanningState_int vx vy vtheta vleg cell_size
                                  num_angle_bins max_hash_size indet
                <> None)).
Proof.
  split.
  - intros. unfold PlanningState_double.
    destruct (calculateHashTag _ _ _ _ _); reflexivity.
  - intros m Hm. split; intros.
    + unfold PlanningState_State.
      rewrite calculateHashTag_total by exact Hm. discriminate.
    + unfold PlanningState_int.
      rewrite calculateHashTag_total by exact Hm. discriminate.
Qed.

End PlanningStateFacts.

(** The amended C5 at the table size 65536 of the default configuration. *)
Lemma hashTag_of_constructed_witness :
  exists s,
    PlanningState_int (H := float_Helper) 103 12 65 LEFT 0x1p-6%float 64
                      65536 (-1) = Some s
    /\ getHashTag s = 58419.
Proof.
  destruct (proj1 (hashTag_of_constructed (H := float_Helper) 65536
                     ltac:(vm_compute; discriminate))
                  103 12 65 LEFT 0x1p-6%float 64 (-1))
    as [s (Es & Ex & Ey & Et & El & Eh)].
  exists s. split; [exact Es|].
  rewrite Eh. unfold hashTag_of_members. rewrite Ex, Ey, Et, El.
  vm_compute. reflexivity.
Defined.

(** C5 as stated fails: at the state (103, 12, 65, LEFT) and table size
    65536 the stored tag is 58419, the shifted sum modulo the table size
    is 32022. *)
Lemma hashTag_is_not_the_plain_sum :
  exists s,
    PlanningState_int (H := float_Helper) 103 12 65 LEFT 0x1p-6%float 64
                      65536 (-1) = Some s
    /\ getHashTag s <> hashTag_as_claimed (H := float_Helper) s 65536.
Proof.
  eexists. split; [vm_compute; reflexivity|].
  vm_compute. discriminate.
Qed.

(** C6 at a failing input: the integer-field constructor returns a state
    whose id is what the storage held before, 7 here, and not -1. *)
Theorem PlanningState_int_id_not_initialised :
  exists s,
    PlanningState_int (H := float_Helper) 103 12 65 LEFT 0x1p-6%float 64
                      65536 7 = Some s
    /\ getId s = 7 /\ getId s <> -1.
Proof.
  eexists. split; [vm_compute; reflexivity|].
  split; [reflexivity|]. simpl. lia.
Qed.

(** C10 at concrete arguments. *)
Lemma PlanningState_double_aborts_witness :
  PlanningState_double (H := float_Helper) 0x1p-1%float 0x1p-2%float
                       0%float LEFT 0x1p-6%float 64 65536 = None
  /\ PlanningState_int (H := float_Helper) 103 12 65 LEFT 0x1p-6%float 64
                       65536 (-1) <> None.
Proof.
  split.
  - apply (proj1 (PlanningState_double_aborts (H := float_Helper))).
  - apply (proj2 (PlanningState_double_aborts (H := float_Helper)) 65536).
    vm_compute. discriminate.
Defined.

(** ** FootstepPlanner: extractSolution, plan, replan, setGoal *)

(** Reduces the members of a planner written as a chain of assignments. *)
Ltac members :=
  cbn [fst snd negb cfg ivMapPtr ivPlannerEnvironmentPtr ivPlannerPtr ivPath
       ivStartFootLeft ivStartFootRight ivGoalFootLeft ivGoalFootRight
       ivStartPoseSetUp ivGoalPoseSetUp ivPlanExists ivPathCost trace
       emit set_env set_ivPlannerPtr set_ivPathCost set_ivPath
       set_ivPlanExists set_ivMapPtr set_start_feet set_goal_feet].

Section FootstepPlannerFacts.
Context {D Env Search : Type}.
Context {O : DoubleOps D} {T : Trig D} {H : Helper D}.
Context {E : EnvironmentOps D Env} {P : SearchOps D Env Search}.

Abbreviation Planner := (FootstepPlanner D Env Search).

Lemma extract_loop_unresolved (env : Env) (state_ids : list Z) :
  (exists id, In id state_ids /\ env_getState env id = None) ->
  forall path, extract_loop env state_ids path = (false, []).
Proof.
  induction state_ids as [|id rest IH]; intros [bad [Hin Hbad]] path.
  - destruct Hin.
  - simpl. destruct (env_getState env id) as [s|] eqn:Eid; [|reflexivity].
    apply IH. exists bad. split; [|exact Hbad].
    destruct Hin as [<-|Hin]; [congruence|exact Hin].
Qed.

Lemma extract_loop_resolved (env : Env) (state_ids : list Z) :
  (forall id, In id state_ids -> env_getState env id <> None) ->
  forall path,
  exists states,
    extract_loop env state_ids path = (true, path ++ states)
    /\ map Some states = map (env_getState env) state_ids.
Proof.
  induction state_ids as [|id rest IH]; intros Hall path.
  - exists []. simpl. rewrite app_nil_r. split; reflexivity.
  - simpl. destruct (env_getState env id) as [s|] eqn:Eid.
    + destruct (IH (fun i Hi => Hall i (or_intror Hi)) (path ++ [s]))
        as [states [Eloop Emap]].
      exists (s :: states). rewrite Eloop, <- app_assoc. simpl.
      rewrite Emap. split; reflexivity.
    + exfalso. apply (Hall id); [left; reflexivity|exact Eid].
Qed.

(** C2, amended.  When an id of the solution does not resolve to a pose,
    [extractSolution] returns false and leaves the stored path empty:
    the path extracted before is discarded, every other member is as it
    was. *)
Theorem extractSolution_unresolved_id (state_ids : list Z) (p : Planner) :
  (exists id, In id state_ids
              /\ env_getState (ivPlannerEnvironmentPtr p) id = None) ->
  extractSolution state_ids p = (false, set_ivPath [] p)
  /\ ivPath (snd (extractSolution state_ids p)) = [].
Proof.
  intros Hbad. unfold extractSolution. simpl.
  rewrite (extract_loop_unresolved _ _ Hbad). simpl. split; reflexivity.
Qed.

(** The members of the foot [getFootPosition] returns, for every
    arithmetic on doubles: orientation and side are copied, the position is
    the robot's plus the signed shift. *)
Lemma getFootPosition_members (c : Config D) (robot : State D) (side : Leg) :
  let half_sep_times v :=
    d_div (d_mul v (ivFootSeparation c)) (d_of_int 2) in
  let sign := if Leg_eqb side LEFT then d_of_int 1 else d_of_int (-1) in
  theta (getFootPosition c robot side) = theta robot
  /\ leg (getFootPosition c robot side) = side
  /\ x (getFootPosition c robot side)
     = d_add (x robot)
             (d_mul sign (half_sep_times (d_neg (d_sin (theta robot)))))
  /\ y (getFootPosition c robot side)
     = d_add (y robot) (d_mul sign (half_sep_times (d_cos (theta robot)))).
Proof. repeat split. Qed.

(** The cases of [run], by the results of the calls to the search: the
    planner after each return. *)
Lemma run_cases (p : Planner) :
  let env1 := env_setUp (ivPlannerEnvironmentPtr p)
                        (ivStartFootLeft p) (ivStartFootRight p)
                        (ivGoalFootLeft p) (ivGoalFootRight p) in
  let p1 := emit (ROS_DEBUG "Setting up environment done")
              (emit EnvSetUp
                 (set_env env1
                    (emit (ROS_DEBUG "Setting up environment") p))) in
  forall r1 s1,
    set_start (ivPlannerPtr p) (startstateid env1) = (r1, s1) ->
    let p2 := set_ivPlannerPtr s1 p1 in
    (r1 = 0 ->
     run p = (false, emit (ROS_ERROR "Failed to set start state.") p2))
    /\ (r1 <> 0 ->
        forall r2 s2,
          set_goal s1 (goalstateid env1) = (r2, s2) ->
          let p3 := set_ivPlannerPtr s2 p2 in
          (r2 = 0 ->
           run p = (false, emit (ROS_ERROR "Failed to set goal state") p3))
          /\ (r2 <> 0 ->
              forall ret ids path_cost s3 env2,
                search_replan
                  (set_search_mode
                     (set_initialsolution_eps s2 (ivInitialEpsilon (cfg p)))
                     (ivSearchUntilFirstSolution (cfg p)))
                  env1 (ivMaxSearchTime (cfg p))
                = ((ret, ids, path_cost), (s3, env2)) ->
                let p5 :=
                  set_ivPathCost
                    (d_div (d_of_int path_cost)
                           (d_of_int (@cvMmScale D Env E)))
                    (emit SearchReplan
                       (set_env env2
                          (set_ivPlannerPtr s3
                             (emit (ROS_INFO "Start planning")
                                   (set_ivPlannerPtr
                                      (set_search_mode
                                         (set_initialsolution_eps
                                            s2 (ivInitialEpsilon (cfg p)))
                                         (ivSearchUntilFirstSolution (cfg p)))
                                      p3))))) in
                run p =
                if negb (ret =? 0) && (0 <? Z.of_nat (List.length ids)) then
                  let r := extract_loop env2 ids [] in
                  let p6 :=
                    set_ivPlanExists (fst r)
                      (set_ivPath (snd r)
                         (set_ivPath []
                            (emit (ROS_INFO "Solution found") p5))) in
                  if negb (fst r)
                  then (false, emit (ROS_ERROR "extracting path failed") p6)
                  else (true,
                        emit (ROS_INFO
                                "Expanded states, final eps, path cost") p6)
                else (false, emit (ROS_ERROR "No solution found") p5))).
Proof.
  intros env1 p1 r1 s1 E1 p2.
  unfold run. cbv zeta.
  change (set_start _ _) with (set_start (ivPlannerPtr p) (startstateid env1)).
  rewrite E1. split.
  { intros ->. reflexivity. }
  intros R1. apply Z.eqb_neq in R1. rewrite R1.
  intros r2 s2 E2.
  change (set_goal _ _) with (set_goal s1 (goalstateid env1)).
  rewrite E2. split.
  { intros ->. reflexivity. }
  intros R2. apply Z.eqb_neq in R2. rewrite R2.
  intros ret ids path_cost s3 env2 E3.
  change (search_replan _ _ _)
    with (search_replan
            (set_search_mode
               (set_initialsolution_eps s2 (ivInitialEpsilon (cfg p)))
               (ivSearchUntilFirstSolution (cfg p)))
            env1 (ivMaxSearchTime (cfg p))).
  rewrite E3.
  destruct (negb (ret =? 0) && (0 <? Z.of_nat (List.length ids)));
    [|reflexivity].
  unfold extractSolution. cbv zeta. cbv beta iota.
  reflexivity.
Qed.

(** [run] on a planner with a map and a solution with an id that does
    not resolve: it returns false after the search, with the plan marked
    as not existing, the stored path empty and the failure of the
    extraction as the last message. *)
Lemma run_unresolved_id (p : Planner) (r1 r2 ret path_cost : Z)
      (s1 s2 s3 : Search) (env2 : Env) (solution_state_ids : list Z) :
  let env1 := env_setUp (ivPlannerEnvironmentPtr p)
                        (ivStartFootLeft p) (ivStartFootRight p)
                        (ivGoalFootLeft p) (ivGoalFootRight p) in
  has_map p = true ->
  set_start (ivPlannerPtr p) (startstateid env1) = (r1, s1) ->
  r1 <> 0 ->
  set_goal s1 (goalstateid env1) = (r2, s2) ->
  r2 <> 0 ->
  search_replan
    (set_search_mode (set_initialsolution_eps s2 (ivInitialEpsilon (cfg p)))
                     (ivSearchUntilFirstSolution (cfg p)))
    env1 (ivMaxSearchTime (cfg p))
  = ((ret, solution_state_ids, path_cost), (s3, env2)) ->
  ret <> 0 ->
  (exists id, In id solution_state_ids /\ env_getState env2 id = None) ->
  fst (run p) = false
  /\ ivPath (snd (run p)) = []
  /\ ivPlanExists (snd (run p)) = false
  /\ last (trace (snd (run p))) EnvReset
     = ROS_ERROR "extracting path failed".
Proof.
  intros env1 _ E1 Hr1 E2 Hr2 E3 Hret Hbad.
  assert (Hlen : (0 <? Z.of_nat (List.length solution_state_ids)) = true).
  { destruct Hbad as [id [Hin _]].
    destruct solution_state_ids; [destruct Hin|]. reflexivity. }
  rewrite (proj2 (proj2 (run_cases p r1 s1 E1) Hr1 r2 s2 E2) Hr2
                 _ _ _ _ _ E3).
  destruct (Z.eqb_spec ret 0) as [|_]; [contradiction|].
  rewrite Hlen. cbn [negb andb]. cbv zeta.
  rewrite (extract_loop_unresolved _ _ Hbad).
  members. rewrite last_last. repeat split.
Qed.

Lemma only_reports_error_no_search (p : Planner) (r : bool * Planner) :
  only_reports_error p r ->
  fst r = false
  /\ (exists msg, trace (snd r) = trace p ++ [ROS_ERROR msg])
  /\ ivPlannerPtr (snd r) = ivPlannerPtr p
  /\ ivPlannerEnvironmentPtr (snd r) = ivPlannerEnvironmentPtr p
  /\ ivPath (snd r) = ivPath p
  /\ ivMapPtr (snd r) = ivMapPtr p
  /\ (In SearchReplan (trace (snd r)) -> In SearchReplan (trace p)).
Proof.
  intros [msg ->]. simpl. repeat split.
  - exists msg. reflexivity.
  - intros Hin. apply in_app_or in Hin. destruct Hin as [Hin|Hin].
    + exact Hin.
    + destruct Hin as [Hin|[]]. discriminate.
Qed.

(** C4.  [plan()] and [replan()] with no map, or with the start or the
    goal pose not set, and [setGoal] with the left or the right goal foot
    on an occupied footprint, return false; the planner is left as it
    was but for one error message in the trace, so no search was
    started and a later call finds the state it would have found
    before. *)
Theorem precondition_failures_only_report (p : Planner) :
  (ivMapPtr p = None \/ ivStartPoseSetUp p = false
   \/ ivGoalPoseSetUp p = false ->
   only_reports_error p (plan p) /\ only_reports_error p (replan p))
  /\ (forall vx vy vtheta,
         let goal := mkState vx vy vtheta (leg State_default) in
         env_occupied (ivPlannerEnvironmentPtr p)
                      (getFootPosition (cfg p) goal LEFT) = true
         \/ env_occupied (ivPlannerEnvironmentPtr p)
                         (getFootPosition (cfg p) goal RIGHT) = true ->
         only_reports_error p (setGoal vx vy vtheta p)).
Proof.
  split.
  - intros Hpre. unfold only_reports_error, plan, replan.
    destruct (ivMapPtr p) as [m|] eqn:Em.
    + assert (Hb : negb (ivGoalPoseSetUp p) || negb (ivStartPoseSetUp p)
                   = true).
      { destruct Hpre as [Hm|[Hs|Hg]].
        - discriminate.
        - rewrite Hs. apply orb_true_r.
        - rewrite Hg. reflexivity. }
      rewrite Hb. split; eexists; reflexivity.
    + split; eexists; reflexivity.
  - intros vx vy vtheta goal Hocc. unfold only_reports_error, setGoal.
    destruct (ivMapPtr p) as [m|].
    + fold goal.
      assert (Hb : env_occupied (ivPlannerEnvironmentPtr p)
                                (getFootPosition (cfg p) goal LEFT)
                   || env_occupied (ivPlannerEnvironmentPtr p)
                                   (getFootPosition (cfg p) goal RIGHT)
                   = true).
      { destruct Hocc as [-> | ->]; [reflexivity|apply orb_true_r]. }
      rewrite Hb. eexists; reflexivity.
    + eexists; reflexivity.
Qed.

End FootstepPlannerFacts.

(** ** FootstepPlanner: updateEnvironment *)

Section UpdateEnvironmentFacts.
Context {D Env Search : Type}.
Context {O : DoubleOps D} {T : Trig D} {H : Helper D}.
Context {E : EnvironmentOps D Env} {P : SearchOps D Env Search}.

Abbreviation Planner := (FootstepPlanner D Env Search).

Lemma skipn_length_app {A : Type} (l l' : list A) :
  skipn (List.length l) (l ++ l') = l'.
Proof. induction l as [|a l IH]; simpl; [reflexivity|exact IH]. Qed.

Lemma setupPlanner_known (p : Planner) :
  known_planner_type (cfg p) ->
  setupPlanner p
  = emit (PlannerCreated (ivPlannerType (cfg p)))
         (set_ivPlannerPtr
            (new_planner (ivPlannerType (cfg p)) (ivForwardSearch (cfg p)))
            p).
Proof.
  unfold setupPlanner. intros [K|[K|K]]; rewrite K; reflexivity.
Qed.

Lemma setupPlanner_trace (p : Planner) :
  exists created,
    trace (setupPlanner p) = trace p ++ created
    /\ (forall e, In e created -> exists t, e = PlannerCreated t).
Proof.
  unfold setupPlanner.
  destruct (String.eqb _ "ARAPlanner");
    [|destruct (String.eqb _ "ADPlanner");
      [|destruct (String.eqb _ "RSTARPlanner")]].
  4: { exists []. rewrite app_nil_r. split; [reflexivity|intros e []]. }
  all: eexists [_]; split; [reflexivity|];
    intros e [<-|[]]; eexists; reflexivity.
Qed.

Lemma setupPlanner_env (p : Planner) :
  ivPlannerEnvironmentPtr (setupPlanner p) = ivPlannerEnvironmentPtr p.
Proof.
  unfold setupPlanner.
  repeat match goal with |- context [if ?b then _ else _] => destruct b end;
    reflexivity.
Qed.

Lemma change_detection_applies_iff (c : Config D) (old_map m : GridMap2D D) :
  change_detection_applies c old_map m = true <->
  ivPlannerType c = "ADPlanner"%string
  /\ d_eqb (getResolution m) (getResolution old_map) = true
  /\ size_height m = size_height old_map
  /\ size_width m = size_width old_map.
Proof.
  unfold change_detection_applies.
  rewrite !andb_true_iff, String.eqb_eq, !Z.eqb_eq. tauto.
Qed.

(** C8.  With [m] the new map: the change detection applies exactly
    when the planner is the ADPlanner and resolution, height and width
    of the new map equal the old map's.  When it does not apply, the
    update returns normally with the environment reset and the search
    built anew, and the trace gains the reset message, the reset and the
    creation of the search, no error message among them.  Whenever the
    trace gains the message of the change detection, it applied. *)
Theorem updateEnvironment_resets_unless_compatible
        (old_map m : GridMap2D D) (p : Planner) :
  ivMapPtr p = Some m ->
  known_planner_type (cfg p) ->
  (change_detection_applies (cfg p) old_map m = true <->
     ivPlannerType (cfg p) = "ADPlanner"%string
     /\ d_eqb (getResolution m) (getResolution old_map) = true
     /\ size_height m = size_height old_map
     /\ size_width m = size_width old_map)
  /\ (change_detection_applies (cfg p) old_map m = false ->
      exists p',
        updateEnvironment old_map p = Some p'
        /\ ivPlannerEnvironmentPtr p' = env_reset (ivPlannerEnvironmentPtr p)
        /\ ivPlannerPtr p'
           = new_planner (ivPlannerType (cfg p)) (ivForwardSearch (cfg p))
        /\ ivPath p' = ivPath p
        /\ events_since p p'
           = [ROS_INFO "Reset old information in new planning task";
              EnvReset; PlannerCreated (ivPlannerType (cfg p))])
  /\ (forall p',
         updateEnvironment old_map p = Some p' ->
         In (ROS_INFO "Received an updated map => change detection")
            (events_since p p') ->
         change_detection_applies (cfg p) old_map m = true).
Proof.
  intros Em Hk. split; [apply change_detection_applies_iff|].
  assert (Hreset : change_detection_applies (cfg p) old_map m = false ->
                   updateEnvironment old_map p = Some (reset_planner p)).
  { intros Hno. unfold updateEnvironment. rewrite Em. simpl.
    rewrite Hno. reflexivity. }
  assert (Hev : events_since p (reset_planner p)
                = [ROS_INFO "Reset old information in new planning task";
                   EnvReset; PlannerCreated (ivPlannerType (cfg p))]).
  { unfold events_since, reset_planner.
    rewrite setupPlanner_known by exact Hk. simpl.
    rewrite <- !app_assoc. apply skipn_length_app. }
  split.
  - intros Hno. exists (reset_planner p).
    split; [exact (Hreset Hno)|].
    split; [|split; [|split; [|exact Hev]]];
      unfold reset_planner; rewrite setupPlanner_known by exact Hk;
      reflexivity.
  - intros p' Eu Hin.
    destruct (change_detection_applies (cfg p) old_map m) eqn:Ea;
      [reflexivity|].
    rewrite (Hreset eq_refl) in Eu. injection Eu as <-.
    rewrite Hev in Hin. simpl in Hin.
    destruct Hin as [Hin|[Hin|[Hin|[]]]]; discriminate.
Qed.

End UpdateEnvironmentFacts.

(** ** The loops of updateEnvironment *)

Lemma for_from_ofold {S : Type} (body : Z -> S -> option S) (n : nat) :
  forall (k : nat) (s : S),
    for_from n (Z.of_nat k) body s = ofold body (map Z.of_nat (seq k n)) s.
Proof.
  induction n as [|n IH]; intros k s; simpl; [reflexivity|].
  destruct (body (Z.of_nat k) s) as [s'|]; simpl; [|reflexivity].
  replace (Z.of_nat k + 1) with (Z.of_nat (Datatypes.S k)) by lia.
  apply IH.
Qed.

Lemma for_upto_ofold {S : Type} (body : Z -> S -> option S) (hi : Z) (s : S) :
  for_upto hi body s = ofold body (zrange hi) s.
Proof. unfold for_upto, zrange. apply (for_from_ofold body _ 0%nat). Qed.

Lemma in_zrange (n i : Z) : In i (zrange n) <-> 0 <= i < n.
Proof.
  unfold zrange. rewrite in_map_iff. split.
  - intros [k [<- Hk]]. apply in_seq in Hk. lia.
  - intros Hi. exists (Z.to_nat i). split; [lia|]. apply in_seq. lia.
Qed.

Lemma NoDup_zrange (n : Z) : NoDup (zrange n).
Proof.
  unfold zrange. apply Finite.Injective_map_NoDup.
  - intros a b Hab. lia.
  - apply seq_NoDup.
Qed.

Lemma length_zrange (n : Z) : List.length (zrange n) = Z.to_nat n.
Proof. unfold zrange. rewrite length_map. apply length_seq. Qed.

Section ScanFacts.
Context {D : Type} {H : Helper D}.

Lemma push_angle_bins_ofold (num_angle_bins : Z) (l : list Z) :
  forall (s : State D) (cs : list (State D)),
  exists s',
    ofold (push_state num_angle_bins) l (s, cs)
    = Some (s', cs ++ map (fun vtheta =>
                             mkState (x s) (y s)
                                     (angle_cell_2_state vtheta num_angle_bins)
                                     (leg s)) l)
    /\ leg s' = leg s.
Proof.
  induction l as [|a l IH]; intros s cs.
  - exists s. simpl. rewrite app_nil_r. split; reflexivity.
  - pose (s1 := mkState (x s) (y s)
                        (angle_cell_2_state a num_angle_bins) (leg s)).
    destruct (IH s1 (cs ++ [s1])) as [s' [Es' El]].
    exists s'.
    change (ofold (push_state num_angle_bins) (a :: l) (s, cs))
      with (ofold (push_state num_angle_bins) l (s1, cs ++ [s1])).
    rewrite Es', <- app_assoc. split; [reflexivity|exact El].
Qed.

(** One cell inside the mask: a flagged cell adds one to the count and
    its states to the list, any other cell changes nothing. *)
Lemma scan_cell_in_range (m : GridMap2D D) (num_angle_bins : Z)
      (mask : Mat) (vy vx num : Z) (s : State D) (cs : list (State D)) :
  in_range mask vx vy = true ->
  leg s = leg State_default ->
  exists s',
    scan_cell m num_angle_bins mask vy vx (num, s, cs)
    = Some (if flagged mask (vx, vy) then add32 num 1 else num, s',
            cs ++ (if flagged mask (vx, vy)
                   then states_at m num_angle_bins (vx, vy) else []))
    /\ leg s' = leg State_default.
Proof.
  intros Hin Hleg. unfold scan_cell, at_, flagged. rewrite Hin. simpl.
  destruct (pix mask vx vy =? 255).
  - unfold push_angle_bins. rewrite for_upto_ofold.
    destruct (push_angle_bins_ofold num_angle_bins (zrange num_angle_bins)
                (mkState (fst (mapToWorld m vx vy))
                         (snd (mapToWorld m vx vy)) (theta s) (leg s)) cs)
      as [s' [Es' El]].
    exists s'. rewrite Es'. simpl in *. unfold states_at. simpl.
    rewrite Hleg in *. split; [reflexivity|exact El].
  - exists s. rewrite app_nil_r. split; [reflexivity|exact Hleg].
Qed.

(** The loop over [x] at a fixed [vy], over index values inside the
    mask. *)
Lemma scan_row (m : GridMap2D D) (num_angle_bins : Z) (mask : Mat)
      (vy : Z) (xs : list Z) :
  (forall vx, In vx xs -> in_range mask vx vy = true) ->
  forall (c : Z) (s : State D) (cs : list (State D)),
    leg s = leg State_default ->
    exists s',
      ofold (scan_cell m num_angle_bins mask vy) xs (u32 c, s, cs)
      = Some (u32 (c + Z.of_nat
                         (List.length
                            (filter (flagged mask)
                                    (map (fun vx => (vx, vy)) xs)))),
              s',
              cs ++ flat_map (states_at m num_angle_bins)
                             (filter (flagged mask)
                                     (map (fun vx => (vx, vy)) xs)))
      /\ leg s' = leg State_default.
Proof.
  induction xs as [|vx xs IH]; intros Hin c s cs Hleg.
  - exists s. simpl. rewrite Z.add_0_r, app_nil_r.
    split; [reflexivity|exact Hleg].
  - destruct (scan_cell_in_range m num_angle_bins mask vy vx (u32 c) s cs
                (Hin vx (or_introl eq_refl)) Hleg) as [s1 [E1 L1]].
    simpl ofold. rewrite E1. simpl obind.
    assert (Hin' : forall v, In v xs -> in_range mask v vy = true)
      by (intros v Hv; apply Hin; right; exact Hv).
    simpl map. simpl filter.
    destruct (flagged mask (vx, vy)).
    + rewrite add32_u32_l.
      destruct (IH Hin' (c + 1) s1
                   (cs ++ states_at m num_angle_bins (vx, vy)) L1)
        as [s' [E' L']].
      exists s'. rewrite E'. split; [|exact L'].
      cbn [List.length flat_map].
      rewrite Nat2Z.inj_succ, <- Z.add_succ_comm, <- Z.add_1_r, <- app_assoc.
      reflexivity.
    + rewrite app_nil_r.
      destruct (IH Hin' c s1 cs L1) as [s' [E' L']].
      exists s'. rewrite E'. split; [reflexivity|exact L'].
Qed.

(** The loop over [y], over row index values [ys], each row scanned
    over the index values [xs]. *)
Lemma scan_rows (m : GridMap2D D) (num_angle_bins : Z) (mask : Mat)
      (xs ys : list Z) :
  (forall vx vy, In vx xs -> In vy ys -> in_range mask vx vy = true) ->
  forall (c : Z) (s : State D) (cs : list (State D)),
    leg s = leg State_default ->
    exists s',
      ofold (fun vy st => ofold (scan_cell m num_angle_bins mask vy) xs st)
            ys (u32 c, s, cs)
      = Some (u32 (c + Z.of_nat
                         (List.length
                            (filter (flagged mask)
                               (flat_map (fun vy =>
                                            map (fun vx => (vx, vy)) xs)
                                         ys)))),
              s',
              cs ++ flat_map (states_at m num_angle_bins)
                      (filter (flagged mask)
                         (flat_map (fun vy => map (fun vx => (vx, vy)) xs)
                                   ys)))
      /\ leg s' = leg State_default.
Proof.
  induction ys as [|vy ys IH]; intros Hin c s cs Hleg.
  - exists s. simpl. rewrite Z.add_0_r, app_nil_r.
    split; [reflexivity|exact Hleg].
  - destruct (scan_row m num_angle_bins mask vy xs
                (fun vx Hx => Hin vx vy Hx (or_introl eq_refl)) c s cs Hleg)
      as [s1 [E1 L1]].
    simpl ofold. rewrite E1. simpl obind.
    edestruct (IH (fun vx v Hx Hv => Hin vx v Hx (or_intror Hv)))
      as [s' [E' L']]; [exact L1|].
    exists s'. rewrite E'. split; [|exact L'].
    cbn [flat_map]. rewrite filter_app, length_app, flat_map_app.
    rewrite <- app_assoc, Nat2Z.inj_add, Z.add_assoc. reflexivity.
Qed.

Lemma scan_changed_cells_ofold (m : GridMap2D D) (num_angle_bins : Z)
      (mask : Mat) :
  scan_changed_cells m num_angle_bins mask
  = ofold (fun vy st =>
             ofold (scan_cell m num_angle_bins mask vy)
                   (zrange (cols mask)) st)
          (zrange (rows mask)) (0, State_default, []).
Proof.
  unfold scan_changed_cells. rewrite for_upto_ofold.
  assert (Hbody : forall ys (st : ScanState),
             ofold (fun vy st =>
                      for_upto (cols mask)
                        (fun vx st =>
                           scan_cell m num_angle_bins mask vy vx st) st)
                   ys st
             = ofold (fun vy st =>
                        ofold (scan_cell m num_angle_bins mask vy)
                              (zrange (cols mask)) st)
                     ys st).
  { induction ys as [|vy ys IH]; intros st; simpl; [reflexivity|].
    rewrite for_upto_ofold.
    destruct (ofold _ (zrange (cols mask)) st); simpl;
      [apply IH|reflexivity]. }
  apply Hbody.
Qed.

Lemma scan_cell_out_of_range (m : GridMap2D D) (num_angle_bins : Z)
      (mask : Mat) (vy vx : Z) (st : ScanState) :
  in_range mask vx vy = false ->
  scan_cell m num_angle_bins mask vy vx st = None.
Proof. intros Hout. unfold scan_cell, at_. now rewrite Hout. Qed.

(** On a square mask the loops of [updateEnvironment] return: the count
    is the number of flagged pairs of the scan, reduced to an unsigned
    int, and the states are those of the flagged pairs in scan order. *)
Lemma scan_changed_cells_square (m : GridMap2D D) (num_angle_bins : Z)
      (mask : Mat) :
  rows mask = cols mask ->
  exists s',
    scan_changed_cells m num_angle_bins mask
    = Some (u32 (Z.of_nat (List.length
                             (filter (flagged mask) (scan_order mask)))),
            s',
            flat_map (states_at m num_angle_bins)
                     (filter (flagged mask) (scan_order mask))).
Proof.
  intros Hsq. rewrite scan_changed_cells_ofold.
  destruct (scan_rows m num_angle_bins mask (zrange (cols mask))
              (zrange (rows mask))) with (c := 0) (s := State_default)
                                         (cs := @nil (State D))
    as [s' [E' _]].
  - intros vx vy Hx Hy. apply in_zrange in Hx, Hy.
    unfold in_range.
    repeat (apply andb_true_intro; split); try apply Z.leb_le;
      try apply Z.ltb_lt; lia.
  - reflexivity.
  - exists s'. change (u32 0) with 0 in E'. exact E'.
Qed.

End ScanFacts.

(** ** The cells of a mask and the order of the scan *)

Lemma filter_nil_iff {A : Type} (f : A -> bool) (l : list A) :
  filter f l = [] <-> (forall a, In a l -> f a = false).
Proof.
  induction l as [|a l IH]; simpl.
  - split; [intros _ b []|reflexivity].
  - destruct (f a) eqn:Ea; split.
    + discriminate.
    + intros Hall. rewrite (Hall a (or_introl eq_refl)) in Ea. discriminate.
    + intros Hn b [<-|Hb]; [exact Ea|]. now apply IH.
    + intros Hall. apply IH. intros b Hb. apply Hall. now right.
Qed.


Lemma Permutation_filter_same {A : Type} (f : A -> bool) (l l' : list A) :
  Permutation l l' -> Permutation (filter f l) (filter f l').
Proof.
  induction 1 as [|a l l' _ IH|a b l|l l' l'' _ IH1 _ IH2]; simpl.
  - constructor.
  - destruct (f a); [constructor|]; exact IH.
  - destruct (f a), (f b); try reflexivity. constructor.
  - etransitivity; eassumption.
Qed.

Lemma NoDup_list_prod {A B : Type} (l : list A) (l' : list B) :
  NoDup l -> NoDup l' -> NoDup (list_prod l l').
Proof.
  intros Hl Hl'. induction Hl as [|a l Ha Hl IH]; simpl; [constructor|].
  apply NoDup_app.
  - apply Finite.Injective_map_NoDup; [|exact Hl'].
    intros b b' Hb. now injection Hb.
  - exact IH.
  - intros [a' b] Hin Hin'. apply in_map_iff in Hin.
    destruct Hin as [b' [[= <- <-] _]].
    apply in_prod_iff in Hin'. tauto.
Qed.

Lemma in_cells (m : Mat) (i j : Z) :
  In (i, j) (cells m) <-> (0 <= i < rows m /\ 0 <= j < cols m).
Proof. unfold cells. rewrite in_prod_iff, !in_zrange. reflexivity. Qed.

Lemma in_cells_in_range (m : Mat) (c : Z * Z) :
  In c (cells m) <-> in_range m (fst c) (snd c) = true.
Proof.
  destruct c as [i j]. rewrite in_cells. unfold in_range. simpl.
  rewrite !andb_true_iff, !Z.leb_le, !Z.ltb_lt. tauto.
Qed.


Lemma scan_order_swap (m : Mat) : scan_order m = map swap (cells m).
Proof.
  unfold scan_order, cells.
  induction (zrange (rows m)) as [|vy l IH]; simpl; [reflexivity|].
  rewrite map_app, map_map, IH. reflexivity.
Qed.

(** On a square matrix the scan forms every cell once. *)
Lemma scan_order_square (m : Mat) :
  rows m = cols m -> Permutation (scan_order m) (cells m).
Proof.
  intros Hsq. rewrite scan_order_swap.
  assert (Hnd : NoDup (cells m))
    by (apply NoDup_list_prod; apply NoDup_zrange).
  apply NoDup_Permutation.
  - apply Finite.Injective_map_NoDup; [|exact Hnd].
    intros [a b] [a' b'] Hs. unfold swap in Hs. simpl in Hs. congruence.
  - exact Hnd.
  - intros [i j]. rewrite in_map_iff, in_cells. split.
    + intros [[a b] [Hs Hin]]. apply in_cells in Hin.
      unfold swap in Hs. simpl in Hs. injection Hs as <- <-. lia.
    + intros Hij. exists (j, i). split; [reflexivity|]. apply in_cells. lia.
Qed.

Lemma flagged_scan_square (m : Mat) :
  rows m = cols m ->
  Permutation (filter (flagged m) (scan_order m)) (flagged_cells m).
Proof.
  intros Hsq. apply Permutation_filter_same, scan_order_square, Hsq.
Qed.


(** ** The inflated mask *)

Section InflateFacts.
Context {D : Type} {O : DoubleOps D}.

Lemma inflated_changes_same_size (c : Config D) (old_map m : GridMap2D D) :
  rows (binaryMap old_map) = rows (binaryMap m) ->
  cols (binaryMap old_map) = cols (binaryMap m) ->
  exists mask,
    inflated_changes c old_map m = Some mask
    /\ rows mask = rows (binaryMap old_map)
    /\ cols mask = cols (binaryMap old_map).
Proof.
  intros Hr Hc. unfold inflated_changes, bitwise_xor.
  rewrite Hr, Hc, !Z.eqb_refl. simpl.
  eexists. split; [reflexivity|]. split; reflexivity.
Qed.

(** Bitmaps that differ in no cell leave the inflated mask empty. *)
Lemma inflated_changes_no_change (c : Config D) (old_map m : GridMap2D D)
      (mask : Mat) :
  inflated_changes c old_map m = Some mask ->
  raw_changed_cells (binaryMap old_map) (binaryMap m) = [] ->
  forall i j, pix mask i j = 0.
Proof.
  unfold inflated_changes, bitwise_xor. intros Ei Hraw.
  destruct ((rows (binaryMap old_map) =? rows (binaryMap m))
            && (cols (binaryMap old_map) =? cols (binaryMap m)));
    [|discriminate].
  simpl in Ei. injection Ei as <-. intros i j. simpl.
  replace (zero_cells _) with (@nil (Z * Z)); [reflexivity|].
  symmetry. unfold zero_cells. apply filter_nil_iff. intros a Ha.
  unfold bitwise_not, cells in *. simpl in *.
  unfold raw_changed_cells, cells in Hraw.
  rewrite filter_nil_iff in Hraw. specialize (Hraw a Ha).
  apply negb_false_iff, Z.eqb_eq in Hraw. rewrite Hraw, Z.lxor_nilpotent.
  reflexivity.
Qed.

Lemma flagged_cells_no_change (c : Config D) (old_map m : GridMap2D D)
      (mask : Mat) :
  inflated_changes c old_map m = Some mask ->
  raw_changed_cells (binaryMap old_map) (binaryMap m) = [] ->
  flagged_cells mask = [].
Proof.
  intros Ei Hraw. unfold flagged_cells. apply filter_nil_iff.
  intros a _. unfold flagged.
  now rewrite (inflated_changes_no_change c old_map m mask Ei Hraw).
Qed.

End InflateFacts.

Section UpdateDecision.
Context {D Env Search : Type}.
Context {O : DoubleOps D} {T : Trig D} {H : Helper D}.
Context {E : EnvironmentOps D Env} {P : SearchOps D Env Search}.

Abbreviation Planner := (FootstepPlanner D Env Search).



End UpdateDecision.

(** ** Closed examples *)

(** C2 as stated fails: the planner holds a plan of one step, the
    solution [5] names an id the environment does not know, and after
    [extractSolution] the stored path is empty. *)
Lemma extractSolution_discards_prior_plan :
  env_getState (ivPlannerEnvironmentPtr (example_planner 2 free3)) 5 = None
  /\ ivPath (example_planner 2 free3) = [example_foot]
  /\ fst (extractSolution [5] (example_planner 2 free3)) = false
  /\ ivPath (snd (extractSolution [5] (example_planner 2 free3)))
     <> ivPath (example_planner 2 free3).
Proof.
  repeat split; try reflexivity. simpl. discriminate.
Qed.

(** The amended C2 on the same planner and a solution whose second id is
    unknown. *)
Lemma extractSolution_unresolved_id_witness :
  extractSolution [0; 5] (example_planner 2 free3)
  = (false, set_ivPath [] (example_planner 2 free3)).
Proof.
  apply (extractSolution_unresolved_id [0; 5] (example_planner 2 free3)).
  exists 5. split; [simpl; tauto|reflexivity].
Defined.



(** C8 with the ARAPlanner in place of the ADPlanner. *)
Lemma updateEnvironment_resets_unless_compatible_witness :
  exists p',
    updateEnvironment (example_grid free3)
      (mkFootstepPlanner
         (mkConfig "ARAPlanner" false false 7%float 3%float 5000 4
                   0.095%float 0.02%float 0%float 0.16%float 0.06%float)
         (Some (example_grid centre3))
         (mkTableEnv false [example_foot]) [] [example_foot]
         example_foot example_foot example_foot example_foot
         true true true 0%float [])
    = Some p'
    /\ registered (ivPlannerEnvironmentPtr p') = [].
Proof.
  destruct (proj1 (proj2 (updateEnvironment_resets_unless_compatible
              (O := float_DoubleOps) (H := float_Helper)
              (E := table_Environment) (P := recording_Search)
              (example_grid free3) (example_grid centre3)
              (mkFootstepPlanner
                 (mkConfig "ARAPlanner" false false 7%float 3%float 5000 4
                    0.095%float 0.02%float 0%float 0.16%float 0.06%float)
                 (Some (example_grid centre3))
                 (mkTableEnv false [example_foot]) [] [example_foot]
                 example_foot example_foot example_foot example_foot
                 true true true 0%float [])
              eq_refl (or_introl eq_refl))) ltac:(vm_compute; reflexivity))
    as [p' (Eu & Eenv & _)].
  exists p'. split; [exact Eu|]. rewrite Eenv. reflexivity.
Defined.

(** ** getFootPosition *)

(** *** Multiplication by 1 and by -1 on binary64 *)

Lemma binary_round_aux_opp (prec emax : Z) (s : bool) (mx ex : Z)
      (lx : location) :
  binary_round_aux prec emax (negb s) mx ex lx
  = SFopp (binary_round_aux prec emax s mx ex lx).
Proof.
  unfold binary_round_aux.
  destruct (shr_fexp prec emax mx ex lx) as [mrs' e'].
  destruct (shr_fexp prec emax _ e' loc_Exact) as [mrs'' e''].
  destruct (shr_m mrs''); [reflexivity| |reflexivity].
  destruct (e'' <=? emax - prec); reflexivity.
Qed.

Lemma digits2_pos_shift52 (m : positive) :
  Z.pos (digits2_pos (Pos.iter xO m 52)) = Z.pos (digits2_pos m) + 52.
Proof. cbn. lia. Qed.

(** [1.0 * s] is [s], for every double [s]: the product of the mantissas
    is the mantissa of [s] shifted by 52 bits, which rounds to it
    exactly. *)
Lemma float_mul_one (s : float) : PrimFloat.mul 1%float s = s.
Proof.
  apply Prim2SF_inj. rewrite mul_spec.
  change (Prim2SF 1%float) with (S754_finite false 4503599627370496 (-52)).
  pose proof (Prim2SF_valid s) as Hv.
  destruct (Prim2SF s) as [sz|si| |sy m e]; try reflexivity.
  unfold SF64mul, SFmul. cbn [xorb].
  unfold valid_binary, bounded, canonical_mantissa in Hv.
  apply andb_prop in Hv. destruct Hv as [Hc Hb].
  apply Z.eqb_eq in Hc. apply Z.leb_le in Hb.
  change (4503599627370496 * m)%positive with (Pos.iter xO m 52).
  unfold binary_round_aux, shr_fexp, Zdigits2.
  rewrite digits2_pos_shift52.
  replace (Z.pos (digits2_pos m) + 52 + (-52 + e))
    with (Z.pos (digits2_pos m) + e) by lia.
  rewrite Hc.
  replace (e - (-52 + e)) with 52 by lia.
  cbn [shr_record_of_loc shr].
  change (@SpecFloat.iter_pos shr_record shr_1 52%positive
            {| shr_m := Z.pos (Pos.iter xO m 52);
               shr_r := false; shr_s := false |})
    with {| shr_m := Z.pos m; shr_r := false; shr_s := false |}.
  cbn [shr_m loc_of_shr_record round_nearest_even Zdigits2
       shr_record_of_loc].
  replace (-52 + e + 52) with e by lia.
  rewrite Hc, Z.sub_diag. cbn [shr shr_m].
  replace (e <=? emax - prec) with true; [reflexivity|].
  symmetry. apply Z.leb_le. exact Hb.
Qed.

(** [-1.0 * s] is [-s], for every double [s]. *)
Lemma float_mul_minus_one (s : float) :
  PrimFloat.mul (-1)%float s = PrimFloat.opp s.
Proof.
  rewrite <- (float_mul_one s) at 2.
  apply Prim2SF_inj. rewrite opp_spec, !mul_spec.
  change (Prim2SF (-1)%float) with (S754_finite true 4503599627370496 (-52)).
  change (Prim2SF 1%float) with (S754_finite false 4503599627370496 (-52)).
  destruct (Prim2SF s) as [sz|si| |sy m e]; try reflexivity.
  unfold SF64mul, SFmul.
  change (xorb true sy) with (negb (xorb false sy)).
  apply binary_round_aux_opp.
Qed.

Section FootGeometry.
Local Open Scope R_scope.

Lemma sqrt_of_scaled_unit (a b s : R) :
  a * a + b * b = 1 ->
  sqrt ((a * s) * (a * s) + (b * s) * (b * s)) = Rabs s.
Proof.
  intros Hab.
  replace ((a * s) * (a * s) + (b * s) * (b * s))
    with ((a * a + b * b) * (s * s)) by ring.
  rewrite Hab, Rmult_1_l. apply sqrt_Rsqr_abs.
Qed.

(** C9, amended.  On every arithmetic the foot has the orientation of
    the robot and the side asked for, and a side other than LEFT is
    placed as RIGHT is.  On binary64, whatever [sin] and [cos] return,
    the left foot is the robot position plus the shift
    [((-sin theta) * separation) / 2, (cos theta * separation) / 2] and the
    right foot the robot position plus the negated shift, each operation
    rounded to a double: the multiplications by the sign 1.0 and -1.0 are
    exact.  In exact real arithmetic the robot position is the midpoint
    of the two feet and they are [|separation|] apart. *)
Theorem getFootPosition_geometry :
  (forall (D : Type) (O : DoubleOps D) (T : Trig D)
          (c : Config D) (robot : State D) (side : Leg),
      theta (getFootPosition c robot side) = theta robot
      /\ leg (getFootPosition c robot side) = side
      /\ (side <> LEFT ->
          x (getFootPosition c robot side)
          = x (getFootPosition c robot RIGHT)
          /\ y (getFootPosition c robot side)
             = y (getFootPosition c robot RIGHT)))
  /\ (forall (T : Trig float) (c : Config float) (robot : State float),
         let shift_x :=
           PrimFloat.div
             (PrimFloat.mul (PrimFloat.opp (d_sin (theta robot)))
                            (ivFootSeparation c)) 2%float in
         let shift_y :=
           PrimFloat.div
             (PrimFloat.mul (d_cos (theta robot)) (ivFootSeparation c))
             2%float in
         x (getFootPosition c robot LEFT) = PrimFloat.add (x robot) shift_x
         /\ y (getFootPosition c robot LEFT)
            = PrimFloat.add (y robot) shift_y
         /\ x (getFootPosition c robot RIGHT)
            = PrimFloat.add (x robot) (PrimFloat.opp shift_x)
         /\ y (getFootPosition c robot RIGHT)
            = PrimFloat.add (y robot) (PrimFloat.opp shift_y))
  /\ (forall (c : Config R) (robot : State R),
         x (getFootPosition c robot LEFT)
         = x robot + - sin (theta robot) * (ivFootSeparation c / 2)
         /\ y (getFootPosition c robot LEFT)
            = y robot + cos (theta robot) * (ivFootSeparation c / 2)
         /\ x (getFootPosition c robot RIGHT)
            = x robot - - sin (theta robot) * (ivFootSeparation c / 2)
         /\ y (getFootPosition c robot RIGHT)
            = y robot - cos (theta robot) * (ivFootSeparation c / 2)
         /\ (x (getFootPosition c robot LEFT)
             + x (getFootPosition c robot RIGHT)) / 2 = x robot
         /\ (y (getFootPosition c robot LEFT)
             + y (getFootPosition c robot RIGHT)) / 2 = y robot
         /\ sqrt ((x (getFootPosition c robot LEFT)
                   - x (getFootPosition c robot RIGHT))
                  * (x (getFootPosition c robot LEFT)
                     - x (getFootPosition c robot RIGHT))
                  + (y (getFootPosition c robot LEFT)
                     - y (getFootPosition c robot RIGHT))
                    * (y (getFootPosition c robot LEFT)
                       - y (getFootPosition c robot RIGHT)))
            = Rabs (ivFootSeparation c)).
Proof.
  split; [|split].
  - intros D O T c robot side.
    split; [reflexivity|]. split; [reflexivity|].
    intros Hside. destruct side; [split; reflexivity|congruence|].
    split; reflexivity.
  - intros T c robot. unfold getFootPosition.
    cbn [x y Leg_eqb d_of_int d_add d_mul d_div d_neg float_DoubleOps].
    change (float_of_Z 1) with 1%float.
    change (float_of_Z (-1)) with (-1)%float.
    change (float_of_Z 2) with 2%float.
    rewrite !float_mul_one, !float_mul_minus_one.
    repeat split.
  - intros c robot. unfold getFootPosition. simpl.
    repeat (split; [field|]).
    replace (_ * _ + _ * _)
      with ((- sin (theta robot) * ivFootSeparation c)
            * (- sin (theta robot) * ivFootSeparation c)
            + (cos (theta robot) * ivFootSeparation c)
              * (cos (theta robot) * ivFootSeparation c)) by field.
    apply sqrt_of_scaled_unit.
    pose proof (sin2_cos2 (theta robot)) as Hsc. unfold Rsqr in Hsc.
    lra.
Qed.

End FootGeometry.

(** C9 as first stated fails on binary64.  The robot stands at
    (0.3, 0.1) heading along the x axis ([sin 0 = 0], [cos 0 = 1]), the
    feet are to be 0.095 apart.  Both feet get the robot's x, but on the
    values the code returns, compared without rounding, the sum of the
    two y coordinates is not twice the robot's y and the square of the
    distance of the feet is not the square of the separation. *)
Lemma getFootPosition_inexact_on_binary64 :
  let c := example_config 5 in
  let robot := mkState 0.3%float 0.1%float 0%float NOLEG in
  let l := getFootPosition (T := series_Trig) c robot LEFT in
  let r := getFootPosition (T := series_Trig) c robot RIGHT in
  float_units (x l) = float_units (x robot)
  /\ float_units (x r) = float_units (x robot)
  /\ float_units (y l) + float_units (y r) <> 2 * float_units (y robot)
  /\ (float_units (x l) - float_units (x r)) ^ 2
     + (float_units (y l) - float_units (y r)) ^ 2
     <> float_units (ivFootSeparation c) ^ 2.
Proof.
  cbv zeta. split; [vm_compute; reflexivity|].
  split; [vm_compute; reflexivity|].
  split; intros Heq; vm_compute in Heq; discriminate Heq.
Qed.

(** C4 on a planner without a map, and on one whose goal feet collide. *)
Lemma precondition_failures_only_report_witness :
  fst (plan (walled_planner false)) = false
  /\ fst (setGoal 1%R 0%R 0%R (walled_planner true)) = false.
Proof.
  split.
  - destruct (proj1 (precondition_failures_only_report (walled_planner false))
                    (or_introl eq_refl)) as [[msg E] _].
    rewrite E. reflexivity.
  - destruct (proj2 (precondition_failures_only_report
                       (O := R_DoubleOps) (T := R_Trig) (H := R_Helper)
                       (E := table_Environment) (P := recording_Search)
                       (walled_planner true))
                    1%R 0%R 0%R ltac:(left; reflexivity)) as [msg E].
    rewrite E. reflexivity.
Defined.

(** ** The scan off the square *)

Lemma ofold_app {S : Type} (body : Z -> S -> option S) (l1 l2 : list Z) :
  forall s : S,
    ofold body (l1 ++ l2) s = s' <- ofold body l1 s ;; ofold body l2 s'.
Proof.
  induction l1 as [|i l1 IH]; intros s; simpl; [reflexivity|].
  destruct (body i s) as [s1|]; simpl; [apply IH|reflexivity].
Qed.

Lemma zrange_split (n k : Z) :
  0 <= k < n -> exists rest, zrange n = zrange k ++ k :: rest.
Proof.
  intros Hk. unfold zrange.
  replace (Z.to_nat n) with (Z.to_nat k + Datatypes.S (Z.to_nat (n - k - 1)))%nat
    by lia.
  rewrite seq_app, map_app. simpl.
  rewrite Z2Nat.id by lia. eexists. reflexivity.
Qed.

Section ScanOffSquare.
Context {D : Type} {H : Helper D}.

(** On a mask with rows and columns that is not square, the loops of
    [updateEnvironment] index outside the mask: [at<uchar>(x, y)] takes
    [x], which runs up to the number of columns, as the row. *)
Lemma scan_changed_cells_not_square (m : GridMap2D D) (num_angle_bins : Z)
      (mask : Mat) :
  0 < rows mask -> 0 < cols mask -> rows mask <> cols mask ->
  scan_changed_cells m num_angle_bins mask = None.
Proof.
  intros Hr Hc Hne. rewrite scan_changed_cells_ofold.
  destruct (Z.lt_total (rows mask) (cols mask)) as [Hlt|[Heq|Hgt]];
    [|contradiction|].
  - (* fewer rows than columns: row 0 of the scan reaches x = rows *)
    destruct (zrange_split (rows mask) 0 ltac:(lia)) as [ys Eys].
    destruct (zrange_split (cols mask) (rows mask) ltac:(lia)) as [xs Exs].
    rewrite Eys. change (zrange 0) with (@nil Z). cbn [app ofold].
    rewrite Exs, ofold_app.
    destruct (scan_row m num_angle_bins mask 0 (zrange (rows mask)))
      with (c := 0) (s := State_default) (cs := @nil (State D))
      as [s1 [E1 _]].
    + intros vx Hx. apply in_zrange in Hx. unfold in_range.
      repeat (apply andb_true_intro; split); try apply Z.leb_le;
        try apply Z.ltb_lt; lia.
    + reflexivity.
    + change (u32 0) with 0 in E1. rewrite E1. cbn [obind ofold].
      rewrite scan_cell_out_of_range; [reflexivity|].
      unfold in_range. rewrite Z.ltb_irrefl, andb_false_r. reflexivity.
  - (* fewer columns than rows: the scan reaches y = cols *)
    destruct (zrange_split (rows mask) (cols mask) ltac:(lia)) as [ys Eys].
    destruct (zrange_split (cols mask) 0 ltac:(lia)) as [xs Exs].
    rewrite Eys, ofold_app.
    destruct (scan_rows m num_angle_bins mask (zrange (cols mask))
                        (zrange (cols mask)))
      with (c := 0) (s := State_default) (cs := @nil (State D))
      as [s1 [E1 _]].
    + intros vx vy Hx Hy. apply in_zrange in Hx, Hy. unfold in_range.
      repeat (apply andb_true_intro; split); try apply Z.leb_le;
        try apply Z.ltb_lt; lia.
    + reflexivity.
    + change (u32 0) with 0 in E1. rewrite E1. cbn [obind ofold].
      rewrite Exs. change (zrange 0) with (@nil Z). cbn [app ofold].
      rewrite scan_cell_out_of_range; [reflexivity|].
      unfold in_range. rewrite Z.ltb_irrefl, andb_false_r. reflexivity.
Qed.

End ScanOffSquare.

(** ** The enumerated states *)

Lemma length_flat_map_const {A B : Type} (f : A -> list B) (k : nat)
      (l : list A) :
  (forall a, List.length (f a) = k) ->
  List.length (flat_map f l) = (k * List.length l)%nat.
Proof.
  intros Hk. induction l as [|a l IH]; simpl; [lia|].
  rewrite length_app, Hk, IH. lia.
Qed.

Lemma raw_changed_cells_same (a b : Mat) :
  (forall i j, pix a i j = pix b i j) -> raw_changed_cells a b = [].
Proof.
  intros Hsame. unfold raw_changed_cells. apply filter_nil_iff.
  intros c _. now rewrite Hsame, Z.eqb_refl.
Qed.


Section EnumerationFacts.
Context {D : Type} {O : DoubleOps D} {H : Helper D}.

(** On square bitmaps of one size: the loops of [updateEnvironment]
    return, with [numAngleBins] states for each set cell of the inflated
    mask and none besides, and with no state at all when the bitmaps
    agree in every cell. *)
Theorem changed_states_on_square_bitmaps
        (old_map m : GridMap2D D) (c : Config D) (n : Z) :
  rows (binaryMap old_map) = n -> cols (binaryMap old_map) = n ->
  rows (binaryMap m) = n -> cols (binaryMap m) = n ->
  exists mask k s',
    inflated_changes c old_map m = Some mask
    /\ scan_changed_cells m (ivNumAngleBins c) mask
       = Some (k, s', changed_states_of m (ivNumAngleBins c) mask)
    /\ List.length (changed_states_of m (ivNumAngleBins c) mask)
       = (Z.to_nat (ivNumAngleBins c)
          * List.length (flagged_cells mask))%nat
    /\ (forall s,
           In s (changed_states_of m (ivNumAngleBins c) mask) <->
           exists cell, In cell (flagged_cells mask)
                        /\ In s (states_at m (ivNumAngleBins c) cell))
    /\ ((forall i j, pix (binaryMap old_map) i j = pix (binaryMap m) i j) ->
        changed_states_of m (ivNumAngleBins c) mask = []).
Proof.
  intros Hro Hco Hrm Hcm.
  destruct (inflated_changes_same_size c old_map m) as [mask [Ei [Hr Hc]]];
    [congruence|congruence|].
  assert (Hsq : rows mask = cols mask) by congruence.
  destruct (scan_changed_cells_square m (ivNumAngleBins c) mask Hsq)
    as [s' Es].
  pose proof (flagged_scan_square mask Hsq) as Hperm.
  exists mask. eexists. exists s'. split; [exact Ei|]. split; [exact Es|].
  unfold changed_states_of. split; [|split].
  - rewrite (length_flat_map_const _ (Z.to_nat (ivNumAngleBins c))).
    + now rewrite (Permutation_length Hperm).
    + intros cell. unfold states_at. now rewrite length_map, length_zrange.
  - intros s. rewrite in_flat_map. split; intros [cell [Hc1 Hc2]];
      exists cell; (split; [|exact Hc2]).
    + exact (Permutation_in _ Hperm Hc1).
    + exact (Permutation_in _ (Permutation_sym Hperm) Hc1).
  - intros Hsame.
    pose proof (flagged_cells_no_change c old_map m mask Ei
                  (raw_changed_cells_same _ _ Hsame)) as Hnone.
    rewrite Hnone in Hperm. apply Permutation_sym, Permutation_nil in Hperm.
    now rewrite Hperm.
Qed.


End EnumerationFacts.

(** C7 at a failing input.  For the free 2x3 bitmap and the same bitmap
    with its corner cell occupied, the inflated mask has set cells, and
    the loops run out of the mask at [at<uchar>(2, 0)] before they have
    gone through row 0: no changed states come back, and none come back
    for two equal 2x3 bitmaps either. *)
Theorem changed_states_on_2x3_bitmaps :
  (exists mask,
      inflated_changes (example_config 5000) (example_grid free23)
                       (example_grid corner23) = Some mask
      /\ rows mask = 2 /\ cols mask = 3
      /\ List.length (flagged_cells mask) = 3%nat
      /\ at_ mask 2 0 = None
      /\ scan_changed_cells (H := float_Helper) (example_grid corner23) 4 mask
         = None)
  /\ updateEnvironment (example_grid free23) (example_planner 5000 corner23)
     = None
  /\ updateEnvironment (example_grid free23) (example_planner 5000 free23)
     = None.
Proof.
  split; [|split].
  - eexists. split; [reflexivity|]. vm_compute. repeat split.
  - vm_compute. reflexivity.
  - vm_compute. reflexivity.
Qed.

(** The enumeration on the 3x3 bitmaps: five set cells, four angle bins,
    twenty states. *)
Lemma changed_states_on_square_bitmaps_witness :
  exists mask k s',
    scan_changed_cells (H := float_Helper) (example_grid centre3) 4 mask
    = Some (k, s', changed_states_of (example_grid centre3) 4 mask)
    /\ List.length (changed_states_of (H := float_Helper)
                                      (example_grid centre3) 4 mask)
       = (4 * List.length (flagged_cells mask))%nat.
Proof.
  destruct (changed_states_on_square_bitmaps
              (O := float_DoubleOps) (H := float_Helper)
              (example_grid free3) (example_grid centre3)
              (example_config 5) 3 eq_refl eq_refl eq_refl eq_refl)
    as [mask [k [s' (_ & Es & El & _)]]].
  exists mask, k, s'. split; [exact Es|exact El].
Defined.

(** * Further properties of the two files *)

(** ** PlanningState: equality, hash tags and the constructors *)

Lemma operator_eq_members (s1 s2 : PlanningState) :
  operator_eq s1 s2 = true <->
  ivHashTag s1 = ivHashTag s2 /\ ivX s1 = ivX s2 /\ ivY s1 = ivY s2
  /\ ivTheta s1 = ivTheta s2 /\ ivLeg s1 = ivLeg s2.
Proof.
  unfold operator_eq, getHashTag, getX, getY, getTheta, getLeg.
  destruct (Z.eqb_spec (ivHashTag s1) (ivHashTag s2)) as [Eh|Nh]; simpl.
  - rewrite !andb_true_iff, !Z.eqb_eq, Leg_eqb_eq. tauto.
  - split; [discriminate|]. intros [Eh _]. contradiction.
Qed.

(** [==] is an equivalence on planning states, and it does not look at
    the id: two states with the same hash tag and the same four members
    are equal whatever their ids. *)
Theorem operator_eq_equivalence :
  (forall s, operator_eq s s = true)
  /\ (forall s1 s2, operator_eq s1 s2 = operator_eq s2 s1)
  /\ (forall s1 s2 s3,
         operator_eq s1 s2 = true -> operator_eq s2 s3 = true ->
         operator_eq s1 s3 = true)
  /\ (forall vx vy vtheta vleg tag id1 id2,
         operator_eq (mkPlanningState vx vy vtheta vleg id1 tag)
                     (mkPlanningState vx vy vtheta vleg id2 tag) = true).
Proof.
  split; [|split; [|split]].
  - intros s. apply operator_eq_members. repeat split.
  - intros s1 s2.
    destruct (operator_eq s1 s2) eqn:E12, (operator_eq s2 s1) eqn:E21;
      try reflexivity.
    + apply operator_eq_members in E12.
      assert (operator_eq s2 s1 = true) as E
          by (apply operator_eq_members; intuition congruence).
      congruence.
    + apply operator_eq_members in E21.
      assert (operator_eq s1 s2 = true) as E
          by (apply operator_eq_members; intuition congruence).
      congruence.
  - intros s1 s2 s3 E12 E23.
    apply operator_eq_members in E12, E23.
    apply operator_eq_members. intuition congruence.
  - intros. apply operator_eq_members. simpl. repeat split.
Qed.

Section ConstructorFacts.
Context {D : Type} {H : Helper D}.

Lemma PlanningState_int_Some (vx vy vtheta : Z) (vleg : Leg) (cell_size : D)
      (num_angle_bins max_hash_size indet : Z) (s : PlanningState) :
  PlanningState_int vx vy vtheta vleg cell_size num_angle_bins max_hash_size
                    indet = Some s ->
  u32 max_hash_size <> 0
  /\ s = mkPlanningState vx vy vtheta vleg indet
           (int_hash (s32 (shifted_sum vx vy vtheta vleg))
            mod u32 max_hash_size).
Proof.
  unfold PlanningState_int, calculateHashTag.
  destruct (Z.eqb_spec (u32 max_hash_size) 0) as [E|N]; simpl;
    [discriminate|].
  intros [= <-]. split; [exact N|reflexivity].
Qed.

Lemma PlanningState_State_Some (st : State D) (cell_size : D)
      (num_angle_bins max_hash_size : Z) (s : PlanningState) :
  PlanningState_State st cell_size num_angle_bins max_hash_size = Some s ->
  PlanningState_int (state_2_cell (x st) cell_size)
                    (state_2_cell (y st) cell_size)
                    (angle_state_2_cell (theta st) num_angle_bins) (leg st)
                    cell_size num_angle_bins max_hash_size (-1) = Some s.
Proof.
  unfold PlanningState_State, PlanningState_int. intros E. exact E.
Qed.

(** Equality of two states built by the integer-field constructor for
    one table size. *)
Lemma int_states_equal_iff
      (x1 y1 t1 x2 y2 t2 : Z) (l1 l2 : Leg) (cell_size : D)
      (num_angle_bins max_hash_size id1 id2 : Z) (s1 s2 : PlanningState) :
  PlanningState_int x1 y1 t1 l1 cell_size num_angle_bins max_hash_size id1
  = Some s1 ->
  PlanningState_int x2 y2 t2 l2 cell_size num_angle_bins max_hash_size id2
  = Some s2 ->
  (operator_eq s1 s2 = true <-> x1 = x2 /\ y1 = y2 /\ t1 = t2 /\ l1 = l2).
Proof.
  intros E1 E2.
  apply PlanningState_int_Some in E1, E2.
  destruct E1 as [Hm ->], E2 as [_ ->].
  rewrite operator_eq_members. simpl. split.
  - tauto.
  - intros (-> & -> & -> & ->). repeat split.
Qed.

(** States of one table size: two states built by the integer-field
    constructor with the same [max_hash_size] are equal exactly when
    their four members are, so the comparison of the hash tags never
    separates states with the same members; and the hash tag of each is a
    bucket index below the table size. *)
Theorem constructed_states_equal_iff_members
        (x1 y1 t1 x2 y2 t2 : Z) (l1 l2 : Leg) (cell_size : D)
        (num_angle_bins max_hash_size id1 id2 : Z) (s1 s2 : PlanningState) :
  PlanningState_int x1 y1 t1 l1 cell_size num_angle_bins max_hash_size id1
  = Some s1 ->
  PlanningState_int x2 y2 t2 l2 cell_size num_angle_bins max_hash_size id2
  = Some s2 ->
  (operator_eq s1 s2 = true <-> x1 = x2 /\ y1 = y2 /\ t1 = t2 /\ l1 = l2)
  /\ 0 <= getHashTag s1 < u32 max_hash_size
  /\ 0 <= getHashTag s2 < u32 max_hash_size.
Proof.
  intros E1 E2.
  split; [exact (int_states_equal_iff _ _ _ _ _ _ _ _ _ _ _ _ _ _ _ E1 E2)|].
  apply PlanningState_int_Some in E1, E2.
  destruct E1 as [Hm ->], E2 as [_ ->].
  assert (Hpos : 0 < u32 max_hash_size)
    by (pose proof (u32_range max_hash_size); lia).
  split; apply Z.mod_pos_bound; exact Hpos.
Qed.

Lemma PlanningState_State_as_int (st : State D) (cell_size : D)
      (num_angle_bins max_hash_size : Z) :
  PlanningState_State st cell_size num_angle_bins max_hash_size
  = PlanningState_int (state_2_cell (x st) cell_size)
                      (state_2_cell (y st) cell_size)
                      (angle_state_2_cell (theta st) num_angle_bins) (leg st)
                      cell_size num_angle_bins max_hash_size (-1).
Proof. reflexivity. Qed.

(** Two poses give the same planning state exactly when they fall into
    the same cell and angle bin with the same leg: the states the
    State-based constructor builds from them (one cell size, number of
    bins and table size) are equal under [==] iff the discretised members
    agree, and both carry the id -1. *)
Theorem PlanningState_State_equal_iff_same_cell
        (st1 st2 : State D) (cell_size : D)
        (num_angle_bins max_hash_size : Z) (s1 s2 : PlanningState) :
  PlanningState_State st1 cell_size num_angle_bins max_hash_size = Some s1 ->
  PlanningState_State st2 cell_size num_angle_bins max_hash_size = Some s2 ->
  (operator_eq s1 s2 = true <->
   state_2_cell (x st1) cell_size = state_2_cell (x st2) cell_size
   /\ state_2_cell (y st1) cell_size = state_2_cell (y st2) cell_size
   /\ angle_state_2_cell (theta st1) num_angle_bins
      = angle_state_2_cell (theta st2) num_angle_bins
   /\ leg st1 = leg st2)
  /\ getId s1 = -1 /\ getId s2 = -1.
Proof.
  rewrite !PlanningState_State_as_int. intros E1 E2.
  split.
  - exact (int_states_equal_iff _ _ _ _ _ _ _ _ _ _ _ _ _ _ _ E1 E2).
  - apply PlanningState_int_Some in E1, E2.
    destruct E1 as [_ ->], E2 as [_ ->]. split; reflexivity.
Qed.

End ConstructorFacts.

(** Two poses one centimetre apart at a cell size of 1/64, and the same
    pose with the other leg. *)
Lemma PlanningState_State_equal_iff_same_cell_witness :
  exists s1 s2,
    PlanningState_State (H := float_Helper)
      (mkState 0x1p-1%float 0x1p-2%float 0%float LEFT) 0x1p-6%float 64 65536
    = Some s1
    /\ PlanningState_State (H := float_Helper)
         (mkState 0x1p-1%float 0x1p-2%float 0%float RIGHT) 0x1p-6%float 64
         65536
       = Some s2
    /\ operator_eq s1 s2 = false /\ getId s1 = -1.
Proof.
  eexists. eexists. split; [vm_compute; reflexivity|].
  split; [vm_compute; reflexivity|].
  pose proof (PlanningState_State_equal_iff_same_cell
                (H := float_Helper)
                (mkState 0x1p-1%float 0x1p-2%float 0%float LEFT)
                (mkState 0x1p-1%float 0x1p-2%float 0%float RIGHT)
                0x1p-6%float 64 65536 _ _ eq_refl eq_refl)
    as [Hiff [Hid _]].
  split; [|exact Hid].
  destruct (operator_eq _ _) eqn:E; [|reflexivity].
  destruct (proj1 Hiff eq_refl) as (_ & _ & _ & El). discriminate.
Defined.

(** Two states of the table size 65536 with different angle bins. *)
Lemma constructed_states_equal_iff_members_witness :
  exists s1 s2,
    PlanningState_int (H := float_Helper) 103 12 65 LEFT 0x1p-6%float 64
                      65536 3 = Some s1
    /\ PlanningState_int (H := float_Helper) 103 12 1 LEFT 0x1p-6%float 64
                         65536 4 = Some s2
    /\ operator_eq s1 s2 = false
    /\ 0 <= getHashTag s1 < 65536.
Proof.
  eexists. eexists. split; [vm_compute; reflexivity|].
  split; [vm_compute; reflexivity|].
  pose proof (constructed_states_equal_iff_members
                (H := float_Helper) 103 12 65 103 12 1 LEFT LEFT
                0x1p-6%float 64 65536 3 4 _ _ eq_refl eq_refl)
    as [Hiff [Hr _]].
  split; [|exact Hr].
  destruct (operator_eq _ _) eqn:E; [|reflexivity].
  destruct (proj1 Hiff eq_refl) as (_ & _ & Et & _). discriminate.
Defined.

(** ** FootstepPlanner::run *)

Lemma events_since_app {D Env Search : Type}
      (p p' : FootstepPlanner D Env Search) (evs : list Event) :
  trace p' = trace p ++ evs -> events_since p p' = evs.
Proof.
  intros Ht. unfold events_since. rewrite Ht. apply skipn_length_app.
Qed.

(** Rewrites the events a call added into the list the trace was
    extended by. *)
Ltac events_of_trace :=
  erewrite events_since_app by (cbn; rewrite <- ?app_assoc; reflexivity).

(** Splits [run] into its cases with [run_cases]: the start id rejected,
    the goal id rejected, the search run. *)
Ltac run_by_cases p :=
  let r1 := fresh "r1" in let s1 := fresh "s1" in let E1 := fresh "E1" in
  let r2 := fresh "r2" in let s2 := fresh "s2" in let E2 := fresh "E2" in
  let C0 := fresh "C0" in let C1 := fresh "C1" in
  let C2 := fresh "C2" in let C3 := fresh "C3" in
  let R1 := fresh "R1" in let R2 := fresh "R2" in
  let E3 := fresh "E3" in
  destruct (set_start (ivPlannerPtr p)
              (startstateid
                 (env_setUp (ivPlannerEnvironmentPtr p)
                            (ivStartFootLeft p) (ivStartFootRight p)
                            (ivGoalFootLeft p) (ivGoalFootRight p))))
    as [r1 s1] eqn:E1;
  destruct (set_goal s1
              (goalstateid
                 (env_setUp (ivPlannerEnvironmentPtr p)
                            (ivStartFootLeft p) (ivStartFootRight p)
                            (ivGoalFootLeft p) (ivGoalFootRight p))))
    as [r2 s2] eqn:E2;
  destruct (search_replan
              (set_search_mode
                 (set_initialsolution_eps s2 (ivInitialEpsilon (cfg p)))
                 (ivSearchUntilFirstSolution (cfg p)))
              (env_setUp (ivPlannerEnvironmentPtr p)
                         (ivStartFootLeft p) (ivStartFootRight p)
                         (ivGoalFootLeft p) (ivGoalFootRight p))
              (ivMaxSearchTime (cfg p)))
    as [[[? ?] ?] [? ?]] eqn:E3;
  destruct (run_cases p r1 s1 E1) as [C0 C1];
  destruct (Z.eq_dec r1 0) as [R1|R1];
  [ rewrite (C0 R1); clear C0 C1 E2 E3
  | destruct (C1 R1 r2 s2 E2) as [C2 C3];
    destruct (Z.eq_dec r2 0) as [R2|R2];
    [ rewrite (C2 R2); clear C0 C1 C2 C3 E3
    | rewrite (C3 R2 _ _ _ _ _ E3); clear C0 C1 C2 C3 ] ].

Section RunFacts.
Context {D Env Search : Type}.
Context {O : DoubleOps D} {T : Trig D} {H : Helper D}.
Context {E : EnvironmentOps D Env} {P : SearchOps D Env Search}.

Abbreviation Planner := (FootstepPlanner D Env Search).

Lemma classic_resolves (env : Env) (state_ids : list Z) :
  (forall id, In id state_ids -> env_getState env id <> None)
  \/ (exists id, In id state_ids /\ env_getState env id = None).
Proof.
  induction state_ids as [|id rest IH].
  - left. intros id [].
  - destruct (env_getState env id) as [st|] eqn:Eid.
    + destruct IH as [Hall|[bad [Hin Hbad]]].
      * left. intros i [<-|Hi]; [congruence|now apply Hall].
      * right. exists bad. split; [now right|exact Hbad].
    + right. exists id. split; [now left|exact Eid].
Qed.

Lemma extractSolution_snd (state_ids : list Z) (p : Planner) :
  snd (extractSolution state_ids p)
  = set_ivPath (snd (extract_loop (ivPlannerEnvironmentPtr p) state_ids []))
               p.
Proof. reflexivity. Qed.

(** The configuration, the map, the feet and the pose flags after
    [run]. *)
Lemma run_same_setup (p : Planner) : same_setup p (snd (run p)).
Proof.
  unfold same_setup.
  run_by_cases p.
  - repeat split.
  - repeat split.
  - destruct (negb (z =? 0) && (0 <? Z.of_nat (List.length l))).
    + cbv zeta. destruct (extract_loop e l []) as [ok path].
      destruct ok; repeat split.
    + repeat split.
Qed.

Lemma run_trace_begins (p : Planner) :
  exists evs,
    trace (snd (run p))
    = trace p ++ ROS_DEBUG "Setting up environment" :: EnvSetUp :: evs.
Proof.
  run_by_cases p.
  - members. rewrite <- !app_assoc. eexists. reflexivity.
  - members. rewrite <- !app_assoc. eexists. reflexivity.
  - destruct (negb (z =? 0) && (0 <? Z.of_nat (List.length l))).
    + cbv zeta. destruct (extract_loop e l []) as [ok path].
      destruct ok; members; rewrite <- !app_assoc; eexists; reflexivity.
    + members. rewrite <- !app_assoc. eexists. reflexivity.
Qed.

(** [run], on a planner with a map, only writes the environment, the
    search, the plan and the trace:
    the configuration, the map, the feet and the pose flags come back as
    they were, and the trace is extended, never rewritten: what is added
    begins with the set-up of the environment. *)
Theorem run_keeps_setup (p : Planner) :
  has_map p = true ->
  same_setup p (snd (run p))
  /\ exists evs,
      trace (snd (run p))
      = trace p ++ ROS_DEBUG "Setting up environment" :: EnvSetUp :: evs.
Proof.
  intros _. split; [apply run_same_setup|apply run_trace_begins].
Qed.

(** When the search rejects the start id or the goal id, [run] returns
    false without running the search: the environment has been set up with
    the four feet, the plan (path, flag and cost) is the one before, and the
    last message is an error. *)
Theorem run_without_search (p : Planner) (r1 : Z) (s1 : Search) :
  let env1 := env_setUp (ivPlannerEnvironmentPtr p)
                        (ivStartFootLeft p) (ivStartFootRight p)
                        (ivGoalFootLeft p) (ivGoalFootRight p) in
  set_start (ivPlannerPtr p) (startstateid env1) = (r1, s1) ->
  r1 = 0 \/ fst (set_goal s1 (goalstateid env1)) = 0 ->
  fst (run p) = false
  /\ same_plan p (snd (run p))
  /\ ivPlannerEnvironmentPtr (snd (run p)) = env1
  /\ ~ In SearchReplan (events_since p (snd (run p)))
  /\ exists msg, last (trace (snd (run p))) EnvReset = ROS_ERROR msg.
Proof.
  intros env1 E1 Hrej. unfold same_plan.
  destruct (run_cases p r1 s1 E1) as [C0 C1].
  destruct (Z.eq_dec r1 0) as [R1|R1].
  - rewrite (C0 R1). repeat split.
    + erewrite events_since_app
        by (members; rewrite <- ?app_assoc; reflexivity).
      cbn. intuition discriminate.
    + eexists. members. rewrite last_last. reflexivity.
  - destruct Hrej as [Hrej|Hrej]; [contradiction|].
    destruct (set_goal s1 (goalstateid env1)) as [r2 s2] eqn:E2.
    cbn [fst] in Hrej.
    rewrite (proj1 (C1 R1 r2 s2 E2) Hrej). repeat split.
    + erewrite events_since_app
        by (members; rewrite <- ?app_assoc; reflexivity).
      cbn. intuition discriminate.
    + eexists. members. rewrite last_last. reflexivity.
Qed.

(** When the search runs and returns no solution (a zero return value or
    an empty list of ids), [run] returns false with the path and the flag
    of the plan as they were, so an earlier plan stays in place; the path
    cost is the one the failed search reported. *)
Theorem run_no_solution (p : Planner) (r1 r2 ret path_cost : Z)
        (s1 s2 s3 : Search) (env2 : Env) (solution_state_ids : list Z) :
  let env1 := env_setUp (ivPlannerEnvironmentPtr p)
                        (ivStartFootLeft p) (ivStartFootRight p)
                        (ivGoalFootLeft p) (ivGoalFootRight p) in
  set_start (ivPlannerPtr p) (startstateid env1) = (r1, s1) ->
  r1 <> 0 ->
  set_goal s1 (goalstateid env1) = (r2, s2) ->
  r2 <> 0 ->
  search_replan
    (set_search_mode (set_initialsolution_eps s2 (ivInitialEpsilon (cfg p)))
                     (ivSearchUntilFirstSolution (cfg p)))
    env1 (ivMaxSearchTime (cfg p))
  = ((ret, solution_state_ids, path_cost), (s3, env2)) ->
  ret = 0 \/ solution_state_ids = [] ->
  fst (run p) = false
  /\ ivPath (snd (run p)) = ivPath p
  /\ ivPlanExists (snd (run p)) = ivPlanExists p
  /\ ivPathCost (snd (run p))
     = d_div (d_of_int path_cost) (d_of_int (@cvMmScale D Env E))
  /\ ivPlannerEnvironmentPtr (snd (run p)) = env2
  /\ ivPlannerPtr (snd (run p)) = s3
  /\ events_since p (snd (run p))
     = [ROS_DEBUG "Setting up environment"; EnvSetUp;
        ROS_DEBUG "Setting up environment done"; ROS_INFO "Start planning";
        SearchReplan; ROS_ERROR "No solution found"].
Proof.
  intros env1 E1 Hr1 E2 Hr2 E3 Hnone.
  rewrite (proj2 (proj2 (run_cases p r1 s1 E1) Hr1 r2 s2 E2) Hr2
                 _ _ _ _ _ E3).
  assert (Hc : negb (ret =? 0)
               && (0 <? Z.of_nat (List.length solution_state_ids)) = false).
  { destruct Hnone as [-> | ->]; [reflexivity|apply andb_false_r]. }
  rewrite Hc. repeat split.
  erewrite events_since_app
    by (members; rewrite <- ?app_assoc; reflexivity).
  reflexivity.
Qed.

(** On a planner with a map (every caller of [run] checks or asserts
    the map, and the markers published after a success read it), [run]
    returns true exactly when the search accepts start and goal,
    returns a non-zero value with a non-empty solution, and every id of
    the solution resolves to a pose in the environment the search left.
    Then the stored path is the poses of the ids in the order of the
    solution, the plan is marked as existing and the cost is the search's
    cost over the cost scale of the environment. *)
Theorem run_succeeds_iff (p : Planner) (r1 r2 ret path_cost : Z)
        (s1 s2 s3 : Search) (env2 : Env) (solution_state_ids : list Z) :
  let env1 := env_setUp (ivPlannerEnvironmentPtr p)
                        (ivStartFootLeft p) (ivStartFootRight p)
                        (ivGoalFootLeft p) (ivGoalFootRight p) in
  has_map p = true ->
  set_start (ivPlannerPtr p) (startstateid env1) = (r1, s1) ->
  set_goal s1 (goalstateid env1) = (r2, s2) ->
  search_replan
    (set_search_mode (set_initialsolution_eps s2 (ivInitialEpsilon (cfg p)))
                     (ivSearchUntilFirstSolution (cfg p)))
    env1 (ivMaxSearchTime (cfg p))
  = ((ret, solution_state_ids, path_cost), (s3, env2)) ->
  (fst (run p) = true <->
   r1 <> 0 /\ r2 <> 0 /\ ret <> 0 /\ solution_state_ids <> []
   /\ forall id, In id solution_state_ids -> env_getState env2 id <> None)
  /\ (fst (run p) = true ->
      map Some (ivPath (snd (run p)))
      = map (env_getState env2) solution_state_ids
      /\ ivPlanExists (snd (run p)) = true
      /\ ivPathCost (snd (run p))
         = d_div (d_of_int path_cost) (d_of_int (@cvMmScale D Env E))
      /\ ivPlannerEnvironmentPtr (snd (run p)) = env2).
Proof.
  intros env1 _ E1 E2 E3.
  destruct (run_cases p r1 s1 E1) as [C0 C1].
  destruct (Z.eq_dec r1 0) as [R1|R1].
  { rewrite (C0 R1). cbn [fst]. split; [|discriminate].
    split; [discriminate|]. tauto. }
  destruct (C1 R1 r2 s2 E2) as [C2 C3].
  destruct (Z.eq_dec r2 0) as [R2|R2].
  { rewrite (C2 R2). cbn [fst]. split; [|discriminate].
    split; [discriminate|]. tauto. }
  rewrite (C3 R2 _ _ _ _ _ E3). clear C0 C1 C2 C3.
  destruct (Z.eqb_spec ret 0) as [R3|R3].
  { cbn [negb andb fst]. split; [|discriminate].
    split; [discriminate|]. tauto. }
  destruct solution_state_ids as [|id0 ids].
  { cbn [negb andb fst List.length Z.of_nat Z.ltb Z.compare].
    split; [|discriminate]. split; [discriminate|]. tauto. }
  change (negb false && (0 <? Z.of_nat (List.length (id0 :: ids))))
    with true.
  cbv zeta.
  destruct (classic_resolves env2 (id0 :: ids)) as [Hall|Hbad].
  - destruct (extract_loop_resolved env2 (id0 :: ids) Hall [])
      as [states [El Em]].
    rewrite El. members. split.
    + split; [intros _|reflexivity].
      repeat split; try assumption. discriminate.
    + intros _. repeat split. exact Em.
  - rewrite (extract_loop_unresolved _ _ Hbad). members.
    split; [|discriminate]. split; [discriminate|].
    intros (_ & _ & _ & _ & Hall). destruct Hbad as [id [Hin Hnone]].
    exfalso. exact (Hall id Hin Hnone).
Qed.

End RunFacts.

(** [run] on the scripted search that rejects the start. *)
Lemma run_without_search_witness :
  fst (run (scripted_planner free3 (mkScript false 1 [0] 50 []))) = false.
Proof.
  apply (run_without_search
           (O := float_DoubleOps) (E := table_Environment)
           (P := scripted_Search)
           (scripted_planner free3 (mkScript false 1 [0] 50 []))
           0 (mkScript false 1 [0] 50 []) ltac:(reflexivity)
           ltac:(left; reflexivity)).
Defined.

(** [run] on the scripted search that returns no ids: the step stored
    before is still the path. *)
Lemma run_no_solution_witness :
  ivPath (snd (run (scripted_planner free3 (mkScript true 1 [] 50 []))))
  = [example_foot].
Proof.
  apply (run_no_solution
           (O := float_DoubleOps) (E := table_Environment)
           (P := scripted_Search)
           (scripted_planner free3 (mkScript true 1 [] 50 []))
           1 1 1 50 (mkScript true 1 [] 50 []) (mkScript true 1 [] 50 [])
           (mkScript true 1 [] 50 [])
           (mkTableEnv false
              [example_foot; example_foot; example_foot; example_foot])
           [] ltac:(reflexivity) ltac:(discriminate) ltac:(reflexivity)
           ltac:(discriminate)
           ltac:(reflexivity) ltac:(right; reflexivity)).
Defined.

(** [run] on the scripted search that returns the ids 0 and 3, which
    [setUp] has registered. *)
Lemma run_succeeds_iff_witness :
  fst (run (scripted_planner free3 (mkScript true 1 [0; 3] 50 []))) = true.
Proof.
  apply (proj1 (run_succeeds_iff
           (O := float_DoubleOps) (E := table_Environment)
           (P := scripted_Search)
           (scripted_planner free3 (mkScript true 1 [0; 3] 50 []))
           1 1 1 50 (mkScript true 1 [0; 3] 50 [])
           (mkScript true 1 [0; 3] 50 []) (mkScript true 1 [0; 3] 50 [])
           (mkTableEnv false
              [example_foot; example_foot; example_foot; example_foot])
           [0; 3] ltac:(reflexivity) ltac:(reflexivity) ltac:(reflexivity)
           ltac:(reflexivity))).
  repeat split; try discriminate.
  intros id [<-|[<-|[]]]; discriminate.
Defined.

(** [run] on the scripted planner leaves the pose flags as they were. *)
Lemma run_keeps_setup_witness :
  ivStartPoseSetUp
    (snd (run (scripted_planner free3 (mkScript true 1 [0; 3] 50 []))))
  = true.
Proof.
  destruct (run_keeps_setup
              (O := float_DoubleOps) (E := table_Environment)
              (P := scripted_Search)
              (scripted_planner free3 (mkScript true 1 [0; 3] 50 []))
              ltac:(reflexivity))
    as [(_ & _ & _ & _ & _ & _ & Hs & _) _].
  exact Hs.
Defined.

(** [run] on the scripted search that returns the unknown id 9. *)
Lemma run_unresolved_id_witness :
  ivPath (snd (run (scripted_planner free3 (mkScript true 1 [9] 50 [])))) = [].
Proof.
  apply (run_unresolved_id
           (O := float_DoubleOps) (E := table_Environment)
           (P := scripted_Search)
           (scripted_planner free3 (mkScript true 1 [9] 50 []))
           1 1 1 50 (mkScript true 1 [9] 50 [])
           (mkScript true 1 [9] 50 []) (mkScript true 1 [9] 50 [])
           (mkTableEnv false
              [example_foot; example_foot; example_foot; example_foot])
           [9] ltac:(reflexivity) ltac:(reflexivity) ltac:(discriminate)
           ltac:(reflexivity) ltac:(discriminate) ltac:(reflexivity)
           ltac:(discriminate)).
  exists 9. split; [now left|reflexivity].
Defined.

(** ** extractSolution, setStart, setGoal and plan on poses *)

Section PoseFacts.
Context {D Env Search : Type}.
Context {O : DoubleOps D} {T : Trig D} {H : Helper D}.
Context {E : EnvironmentOps D Env} {P : SearchOps D Env Search}.

Abbreviation Planner := (FootstepPlanner D Env Search).

(** When every id of the solution resolves, [extractSolution] returns true
    and the stored path is the poses of the ids, one for each id and in
    their order, whatever path was stored before; nothing but the path is
    written. *)
Theorem extractSolution_resolved (state_ids : list Z) (p : Planner) :
  (forall id, In id state_ids ->
              env_getState (ivPlannerEnvironmentPtr p) id <> None) ->
  fst (extractSolution state_ids p) = true
  /\ map Some (ivPath (snd (extractSolution state_ids p)))
     = map (env_getState (ivPlannerEnvironmentPtr p)) state_ids
  /\ List.length (ivPath (snd (extractSolution state_ids p)))
     = List.length state_ids
  /\ snd (extractSolution state_ids p)
     = set_ivPath (ivPath (snd (extractSolution state_ids p))) p.
Proof.
  intros Hall. unfold extractSolution. cbn.
  destruct (extract_loop_resolved (ivPlannerEnvironmentPtr p) state_ids
              Hall []) as [states [El Em]].
  rewrite El. cbn. repeat split.
  - exact Em.
  - rewrite <- (length_map Some states), Em. apply length_map.
Qed.

(** With a map, [setStart] succeeds exactly when neither foot of the pose
    is occupied.  Then the start feet are the two feet of the pose and the
    start is marked as set; on failure the earlier start stays as it was.
    Either way the goal, the plan, the environment and the search are
    untouched. *)
Theorem setStart_iff_feet_free (vx vy vtheta : D) (p : Planner)
        (m : GridMap2D D) :
  ivMapPtr p = Some m ->
  let l := fst (feet_of (cfg p) vx vy vtheta) in
  let r := snd (feet_of (cfg p) vx vy vtheta) in
  (fst (setStart vx vy vtheta p) = true <->
   env_occupied (ivPlannerEnvironmentPtr p) l = false
   /\ env_occupied (ivPlannerEnvironmentPtr p) r = false)
  /\ (fst (setStart vx vy vtheta p) = true ->
      snd (setStart vx vy vtheta p)
      = emit (ROS_INFO "Start pose set") (set_start_feet l r p))
  /\ (fst (setStart vx vy vtheta p) = false ->
      snd (setStart vx vy vtheta p)
      = emit (ROS_ERROR "Start pose not accessible.") p).
Proof.
  intros Em l r. unfold setStart, setStart_feet. rewrite Em.
  fold (feet_of (cfg p) vx vy vtheta). unfold feet_of in l, r.
  cbn in l, r. fold l r.
  destruct (env_occupied (ivPlannerEnvironmentPtr p) l) eqn:El;
    destruct (env_occupied (ivPlannerEnvironmentPtr p) r) eqn:Er; cbn;
    (split; [split; [try discriminate; tauto|intros [? ?]; congruence]|]);
    (split; [try discriminate; reflexivity|try discriminate; reflexivity]).
Qed.

(** With a map and both goal feet free, [setGoal] returns true, stores
    the two feet of the pose as the goal and marks the goal as set; the
    start, the plan, the environment and the search are untouched. *)
Theorem setGoal_feet_free (vx vy vtheta : D) (p : Planner)
        (m : GridMap2D D) :
  ivMapPtr p = Some m ->
  let l := fst (feet_of (cfg p) vx vy vtheta) in
  let r := snd (feet_of (cfg p) vx vy vtheta) in
  env_occupied (ivPlannerEnvironmentPtr p) l = false ->
  env_occupied (ivPlannerEnvironmentPtr p) r = false ->
  setGoal vx vy vtheta p
  = (true, emit (ROS_INFO "Goal pose set") (set_goal_feet l r p))
  /\ ivGoalPoseSetUp (snd (setGoal vx vy vtheta p)) = true
  /\ ivStartPoseSetUp (snd (setGoal vx vy vtheta p)) = ivStartPoseSetUp p
  /\ ivStartFootLeft (snd (setGoal vx vy vtheta p)) = ivStartFootLeft p
  /\ ivStartFootRight (snd (setGoal vx vy vtheta p)) = ivStartFootRight p
  /\ same_plan p (snd (setGoal vx vy vtheta p)).
Proof.
  intros Em l r Hl Hr. unfold setGoal. rewrite Em.
  unfold feet_of in l, r. cbn in l, r. fold l r. rewrite Hl, Hr. cbn.
  unfold same_plan. repeat split.
Qed.

End PoseFacts.

(** ** plan on poses, setupPlanner, setMap and the callbacks *)

Section DriverFacts.
Context {D Env Search : Type}.
Context {O : DoubleOps D} {T : Trig D} {H : Helper D}.
Context {E : EnvironmentOps D Env} {P : SearchOps D Env Search}.

Abbreviation Planner := (FootstepPlanner D Env Search).

(** [plan(start, goal)] sets the start, then the goal, then plans, and
    stops at the first that fails.  Without a map, or with a start foot
    occupied, nothing but the trace changes and the goal is not looked at.
    With the start free and a goal foot occupied the call fails with the
    new start stored and the goal as it was.  With all four feet free it
    is [run] on a reset environment and a new search, for the planner that
    has both poses stored. *)
Theorem plan_poses_stops_at_first_failure
        (sx sy st gx gy gt : D) (p : Planner) :
  let sl := fst (feet_of (cfg p) sx sy st) in
  let sr := snd (feet_of (cfg p) sx sy st) in
  let gl := fst (feet_of (cfg p) gx gy gt) in
  let gr := snd (feet_of (cfg p) gx gy gt) in
  let occ := env_occupied (ivPlannerEnvironmentPtr p) in
  let started := emit (ROS_INFO "Start pose set") (set_start_feet sl sr p) in
  (has_map p = false ->
   plan_poses sx sy st gx gy gt p
   = (false,
      emit (ROS_ERROR "Distance map hasn't been initialized yet.") p))
  /\ (has_map p = true -> occ sl || occ sr = true ->
      plan_poses sx sy st gx gy gt p
      = (false, emit (ROS_ERROR "Start pose not accessible.") p))
  /\ (has_map p = true -> occ sl || occ sr = false ->
      occ gl || occ gr = true ->
      plan_poses sx sy st gx gy gt p
      = (false, emit (ROS_ERROR "Goal pose not accessible.") started))
  /\ (has_map p = true -> occ sl || occ sr = false ->
      occ gl || occ gr = false ->
      plan_poses sx sy st gx gy gt p
      = run (setupPlanner
               (reset_environment
                  (emit (ROS_INFO "Goal pose set")
                        (set_goal_feet gl gr started))))).
Proof.
  intros sl sr gl gr occ started.
  unfold plan_poses, setStart, setStart_feet, setGoal, plan, has_map.
  unfold feet_of in sl, sr, gl, gr. cbn in sl, sr, gl, gr.
  destruct (ivMapPtr p) as [m|] eqn:Em; cbn.
  - fold sl sr. fold occ.
    split; [discriminate|].
    split; [intros _ Hs; rewrite Hs; reflexivity|].
    split; intros _ Hs; rewrite Hs; cbn; rewrite Em; fold gl gr; fold occ;
      intros Hg; rewrite Hg; cbn; [reflexivity|].
    rewrite Em. reflexivity.
  - split; [reflexivity|]. repeat split; discriminate.
Qed.

Lemma setupPlanner_frame (p : Planner) :
  same_setup p (setupPlanner p) /\ same_plan p (setupPlanner p)
  /\ ivPlannerEnvironmentPtr (setupPlanner p) = ivPlannerEnvironmentPtr p.
Proof.
  unfold setupPlanner, same_setup, same_plan.
  repeat match goal with |- context [if ?b then _ else _] => destruct b end;
    cbn; repeat split.
Qed.

(** [setupPlanner] builds a search of the configured type, searching in
    the configured direction, when the type is one of ARAPlanner,
    ADPlanner and RSTARPlanner; for any other type it does nothing at all
    and the search in place stays.  It never touches the environment or
    the plan. *)
Theorem setupPlanner_by_type (p : Planner) :
  (known_planner_type (cfg p) ->
   ivPlannerPtr (setupPlanner p)
   = new_planner (ivPlannerType (cfg p)) (ivForwardSearch (cfg p))
   /\ events_since p (setupPlanner p)
      = [PlannerCreated (ivPlannerType (cfg p))])
  /\ (~ known_planner_type (cfg p) -> setupPlanner p = p)
  /\ ivPlannerEnvironmentPtr (setupPlanner p) = ivPlannerEnvironmentPtr p
  /\ same_plan p (setupPlanner p).
Proof.
  split; [|split; [|split]].
  - intros Hk. rewrite (setupPlanner_known p Hk). cbn. split; [reflexivity|].
    events_of_trace. reflexivity.
  - intros Hn. unfold setupPlanner, known_planner_type in *.
    destruct (String.eqb_spec (ivPlannerType (cfg p)) "ARAPlanner");
      [tauto|].
    destruct (String.eqb_spec (ivPlannerType (cfg p)) "ADPlanner");
      [tauto|].
    destruct (String.eqb_spec (ivPlannerType (cfg p)) "RSTARPlanner");
      [tauto|reflexivity].
  - apply setupPlanner_frame.
  - apply setupPlanner_frame.
Qed.

End DriverFacts.

(** ** updateEnvironment, setMap, the callbacks and the service *)

Section MapFacts.
Context {D Env Search : Type}.
Context {O : DoubleOps D} {T : Trig D} {H : Helper D}.
Context {E : EnvironmentOps D Env} {P : SearchOps D Env Search}.

Abbreviation Planner := (FootstepPlanner D Env Search).

Ltac update_events :=
  repeat (apply Forall_cons;
          [first [ left; eexists; reflexivity
                 | right; left; reflexivity
                 | right; right; left; eexists; reflexivity
                 | right; right; right; eexists; reflexivity ]|]);
  try apply Forall_nil.

Lemma reset_planner_frame (p : Planner) :
  same_setup p (reset_planner p) /\ same_plan p (reset_planner p)
  /\ exists evs, trace (reset_planner p) = trace p ++ evs
                 /\ Forall update_event evs.
Proof.
  unfold reset_planner.
  destruct (setupPlanner_frame
              (reset_environment
                 (emit (ROS_INFO "Reset old information in new planning task")
                       p))) as (Hs & Hp & _).
  destruct (setupPlanner_trace
              (reset_environment
                 (emit (ROS_INFO "Reset old information in new planning task")
                       p))) as [created [Et Hc]].
  split; [exact Hs|]. split; [exact Hp|].
  rewrite Et. cbn. rewrite <- !app_assoc. eexists. split; [reflexivity|].
  cbn. update_events.
  apply Forall_forall. intros e He. destruct (Hc e He) as [t ->].
  right. right. left. eexists. reflexivity.
Qed.

(** The frame of [updateEnvironment]. *)
Lemma updateEnvironment_frame (old_map : GridMap2D D)
        (p p' : Planner) :
  updateEnvironment old_map p = Some p' ->
  same_setup p p' /\ same_plan p p'
  /\ exists evs, trace p' = trace p ++ evs /\ Forall update_event evs.
Proof.
  unfold updateEnvironment. destruct (ivMapPtr p) as [m|]; [|discriminate].
  cbn [obind]. destruct (change_detection_applies (cfg p) old_map m).
  - destruct (inflated_changes _ old_map m) as [mask|]; [|discriminate].
    cbn [obind].
    destruct (scan_changed_cells m _ mask) as [[[n s] cs]|]; [|discriminate].
    cbn [obind].
    destruct (n =? 0).
    + intros [= <-]. unfold same_setup, same_plan. cbn.
      split; [repeat split|]. split; [repeat split|].
      rewrite <- !app_assoc. eexists. split; [reflexivity|].
      cbn. update_events.
    + destruct (n <=? _).
      * intros [= <-]. unfold same_setup, same_plan. cbn.
        split; [repeat split|]. split; [repeat split|].
        rewrite <- !app_assoc. eexists. split; [reflexivity|].
        cbn. update_events.
      * intros [= <-].
        destruct (reset_planner_frame
                    (emit (ROS_INFO "changed map cells found")
                       (emit (ROS_INFO
                                "Received an updated map => change detection")
                             p))) as (Hs & Hp & evs & Et & Hev).
        split; [exact Hs|]. split; [exact Hp|].
        rewrite Et. cbn. rewrite <- !app_assoc. eexists.
        split; [reflexivity|].
        cbn. update_events. exact Hev.
  - intros [= <-]. apply reset_planner_frame.
Qed.

Lemma update_event_not_setUp (evs : list Event) :
  Forall update_event evs -> ~ In EnvSetUp evs.
Proof.
  intros Hall Hin. rewrite Forall_forall in Hall.
  destruct (Hall _ Hin) as [[? Hc]|[Hc|[[? Hc]|[? Hc]]]]; discriminate.
Qed.

(** Whenever [updateEnvironment] returns, it has written only the
    environment, the search and the trace: the configuration, the map,
    the feet, the pose flags and the plan with its path are as before.  It
    has run no search and reported no error: the events it added are
    messages, the reset, the creation of a search or the notice of changed
    costs. *)
Theorem updateEnvironment_keeps_plan (old_map : GridMap2D D)
        (p p' : Planner) :
  updateEnvironment old_map p = Some p' ->
  same_setup p p' /\ same_plan p p'
  /\ Forall update_event (events_since p p')
  /\ ~ In EnvSetUp (events_since p p')
  /\ ~ In SearchReplan (events_since p p')
  /\ forall msg, ~ In (ROS_ERROR msg) (events_since p p').
Proof.
  intros Hu.
  destruct (updateEnvironment_frame _ _ _ Hu) as (Hs & Hp & evs & Et & Hev).
  rewrite (events_since_app p p' evs Et).
  split; [exact Hs|]. split; [exact Hp|]. split; [exact Hev|].
  split; [apply update_event_not_setUp; exact Hev|].
  rewrite Forall_forall in Hev.
  split; [|intros msg]; intros Hin;
    destruct (Hev _ Hin) as [[? Hc]|[Hc|[[? Hc]|[? Hc]]]]; discriminate.
Qed.

(** Whenever [setMap] returns, the new map is the planner's map and the
    configuration, the feet and the pose flags are as before.  It sets up
    the environment for a search ([run]) exactly when there was a map
    before and a plan existed; in every other case only the map and the
    environment's map are written. *)
Theorem setMap_replans_iff_plan_existed (grid_map : GridMap2D D)
        (p p' : Planner) :
  setMap grid_map p = Some p' ->
  ivMapPtr p' = Some grid_map
  /\ cfg p' = cfg p
  /\ ivStartPoseSetUp p' = ivStartPoseSetUp p
  /\ ivGoalPoseSetUp p' = ivGoalPoseSetUp p
  /\ (In EnvSetUp (events_since p p') <->
      has_map p = true /\ ivPlanExists p = true)
  /\ (has_map p = false \/ ivPlanExists p = false ->
      p' = set_env (env_setMap (ivPlannerEnvironmentPtr p) grid_map)
                   (set_ivMapPtr (Some grid_map) p)).
Proof.
  unfold setMap, has_map. cbv zeta.
  cbn [ivPlanExists set_env set_ivMapPtr ivPlannerEnvironmentPtr].
  assert (Hplain :
            forall q : Planner,
              q = set_env (env_setMap (ivPlannerEnvironmentPtr p) grid_map)
                          (set_ivMapPtr (Some grid_map) p) ->
              ~ In EnvSetUp (events_since p q)).
  { intros q ->. erewrite events_since_app
      by (cbn; symmetry; apply app_nil_r). intros []. }
  destruct (ivMapPtr p) as [old|] eqn:Eold.
  - destruct (ivPlanExists p) eqn:Epl.
    + match goal with
      | |- context [updateEnvironment old ?q] =>
          destruct (updateEnvironment old q) as [p1|] eqn:Eu; [|discriminate]
      end.
      cbn [obind]. intros [= <-].
      destruct (updateEnvironment_frame _ _ _ Eu)
        as (Hs & _ & evs & Et & Hev).
      pose proof (run_same_setup p1) as Hr.
      destruct (run_trace_begins p1) as [evs' Et'].
      unfold same_setup in Hs, Hr. cbn in Hs, Et.
      destruct Hs as (Hc & Hm & _ & _ & _ & _ & Hss & Hgs).
      destruct Hr as (Hc' & Hm' & _ & _ & _ & _ & Hss' & Hgs').
      split; [congruence|]. split; [congruence|]. split; [congruence|].
      split; [congruence|]. split; [split|].
      * intros _. split; reflexivity.
      * intros _.
        rewrite (events_since_app p _ (evs ++ ROS_DEBUG
                   "Setting up environment" :: EnvSetUp :: evs')).
        -- apply in_or_app. right. right. left. reflexivity.
        -- rewrite Et', Et, <- app_assoc. reflexivity.
      * intros [Hx|Hx]; discriminate.
    + intros [= <-]. cbn.
      split; [reflexivity|]. split; [reflexivity|]. split; [reflexivity|].
      split; [reflexivity|]. split; [split|reflexivity].
      * intros Hf. exfalso. revert Hf. apply Hplain. reflexivity.
      * intros [_ Hx]. discriminate.
  - intros [= <-]. cbn.
    split; [reflexivity|]. split; [reflexivity|]. split; [reflexivity|].
    split; [reflexivity|]. split; [split|reflexivity].
    + intros Hf. exfalso. revert Hf. apply Hplain. reflexivity.
    + intros [Hx _]. discriminate.
Qed.

End MapFacts.

Section ServiceFacts.
Context {D Env Search : Type}.
Context {O : DoubleOps D} {T : Trig D} {L : Literals D} {H : Helper D}.
Context {E : EnvironmentOps D Env} {P : SearchOps D Env Search}.

Abbreviation Planner := (FootstepPlanner D Env Search).

(** The callbacks for a goal and for a start pose always return: where
    they reach [assert(ivMapPtr)], the pose has just been set, which needs
    a map.  The goal callback goes on to [run] exactly when [setGoal]
    succeeded and a start is set, the start callback exactly when
    [setStart] succeeded and a goal is set. *)
Theorem pose_callbacks_never_abort (vx vy vtheta : D) (p : Planner) :
  (exists p',
      goalPoseCallback vx vy vtheta p = Some p'
      /\ (In EnvSetUp (events_since p p') <->
          fst (setGoal (d_float vx) (d_float vy) (d_float vtheta) p) = true
          /\ ivStartPoseSetUp p = true))
  /\ (exists p',
         startPoseCallback vx vy vtheta p = Some p'
         /\ (In EnvSetUp (events_since p p') <->
             fst (setStart (d_float vx) (d_float vy) (d_float vtheta) p)
             = true
             /\ ivGoalPoseSetUp p = true)).
Proof.
  assert (Hrun : forall (q : Planner) (e : Event),
             trace q = trace p ++ [e] ->
             In EnvSetUp (events_since p (snd (run q)))).
  { intros q e Hq. destruct (run_trace_begins q) as [evs Et].
    rewrite (events_since_app p _ ([e] ++ ROS_DEBUG
               "Setting up environment" :: EnvSetUp :: evs)).
    - right. right. left. reflexivity.
    - rewrite Et, Hq, <- app_assoc. reflexivity. }
  assert (Hone : forall (q : Planner) (e : Event),
             trace q = trace p ++ [e] -> e <> EnvSetUp ->
             ~ In EnvSetUp (events_since p q)).
  { intros q e Hq Hne. rewrite (events_since_app p q [e] Hq).
    intros [Hin|[]]. congruence. }
  split.
  - unfold goalPoseCallback, setGoal, has_map.
    destruct (ivMapPtr p) as [m|] eqn:Em.
    + destruct (env_occupied _ _ || env_occupied _ _).
      * eexists. split; [reflexivity|]. cbn. split.
        -- intros Hf. exfalso. revert Hf.
           eapply Hone; [reflexivity|discriminate].
        -- intros [Hx _]. discriminate.
      * cbn. destruct (ivStartPoseSetUp p) eqn:Es.
        -- rewrite Em. cbn. eexists. split; [reflexivity|].
           split; [intros _; split; reflexivity|].
           intros _. eapply Hrun. reflexivity.
        -- eexists. split; [reflexivity|]. split.
           ++ intros Hf. exfalso. revert Hf.
              eapply Hone; [reflexivity|discriminate].
           ++ intros [_ Hx]. discriminate.
    + eexists. split; [reflexivity|]. cbn. split.
      * intros Hf. exfalso. revert Hf.
        eapply Hone; [reflexivity|discriminate].
      * intros [Hx _]. discriminate.
  - unfold startPoseCallback, setStart, setStart_feet, has_map.
    destruct (ivMapPtr p) as [m|] eqn:Em.
    + destruct (env_occupied _ _ || env_occupied _ _).
      * eexists. split; [reflexivity|]. cbn. split.
        -- intros Hf. exfalso. revert Hf.
           eapply Hone; [reflexivity|discriminate].
        -- intros [Hx _]. discriminate.
      * cbn. destruct (ivGoalPoseSetUp p) eqn:Es.
        -- rewrite Em. cbn. eexists. split; [reflexivity|].
           split; [intros _; split; reflexivity|].
           intros _. eapply Hrun. reflexivity.
        -- eexists. split; [reflexivity|]. split.
           ++ intros Hf. exfalso. revert Hf.
              eapply Hone; [reflexivity|discriminate].
           ++ intros [_ Hx]. discriminate.
    + eexists. split; [reflexivity|]. cbn. split.
      * intros Hf. exfalso. revert Hf.
        eapply Hone; [reflexivity|discriminate].
      * intros [Hx _]. discriminate.
Qed.

Lemma footsteps_loop_spec (path : list (State D)) :
  forall (footsteps : list (StepTarget D)) (p : Planner),
    fst (footsteps_loop path footsteps p)
    = footsteps ++ flat_map step_of path
    /\ same_setup p (snd (footsteps_loop path footsteps p))
    /\ same_plan p (snd (footsteps_loop path footsteps p))
    /\ trace (snd (footsteps_loop path footsteps p))
       = trace p ++ map (fun _ => ROS_ERROR noleg_message)
                        (noleg_steps path).
Proof.
  induction path as [|st rest IH]; intros footsteps p.
  - cbn. rewrite !app_nil_r. unfold same_setup, same_plan. repeat split.
  - cbn [footsteps_loop flat_map noleg_steps filter]. unfold step_of at 1.
    destruct (leg st).
    + destruct (IH (footsteps ++ [mkStepTarget (x st) (y st) (theta st)
                                               step_right]) p)
        as (Hf & Hs & Hp & Ht).
      rewrite Hf, <- app_assoc.
      split; [reflexivity|]. split; [exact Hs|]. split; [exact Hp|exact Ht].
    + destruct (IH (footsteps ++ [mkStepTarget (x st) (y st) (theta st)
                                               step_left]) p)
        as (Hf & Hs & Hp & Ht).
      rewrite Hf, <- app_assoc.
      split; [reflexivity|]. split; [exact Hs|]. split; [exact Hp|exact Ht].
    + destruct (IH footsteps
                   (emit (ROS_ERROR noleg_message) p))
        as (Hf & Hs & Hp & Ht).
      rewrite Hf. split; [reflexivity|]. split; [exact Hs|].
      split; [exact Hp|]. rewrite Ht. cbn. rewrite <- app_assoc.
      reflexivity.
Qed.

Lemma steps_partition (path : list (State D)) :
  (List.length (flat_map step_of path) + List.length (noleg_steps path)
   = List.length path)%nat.
Proof.
  induction path as [|st rest IH]; [reflexivity|].
  cbn [flat_map noleg_steps filter]. unfold step_of at 1.
  rewrite length_app.
  destruct (leg st); cbn [List.length app]; unfold noleg_steps in IH; lia.
Qed.

(** The service plans with the poses of the request, narrowed to single
    precision, and answers with what
    the planner holds afterwards, whether the planning succeeded or not:
    the result flag is the return value of the planning, the costs are the
    stored path cost, and the footsteps are appended to those the response
    brought, one for each left or right step of the stored path in its
    order, with pose and leg.  A step without a leg is left out and
    reported, so steps sent and steps reported add up to the path. *)
Theorem planService_response (sx sy st gx gy gt : D)
        (resp : PlanFootstepsResponse D) (p : Planner) :
  let planned :=
    plan_poses (d_float sx) (d_float sy) (d_float st)
               (d_float gx) (d_float gy) (d_float gt) p in
  let out := planService sx sy st gx gy gt resp p in
  fst (fst out) = fst planned
  /\ resp_result (snd (fst out)) = fst planned
  /\ resp_costs (snd (fst out)) = ivPathCost (snd planned)
  /\ resp_footsteps (snd (fst out))
     = resp_footsteps resp ++ flat_map step_of (ivPath (snd planned))
  /\ same_setup (snd planned) (snd out)
  /\ same_plan (snd planned) (snd out)
  /\ events_since (snd planned) (snd out)
     = map (fun _ => ROS_ERROR noleg_message)
           (noleg_steps (ivPath (snd planned)))
  /\ (List.length (flat_map step_of (ivPath (snd planned)))
      + List.length (noleg_steps (ivPath (snd planned)))
      = List.length (ivPath (snd planned)))%nat.
Proof.
  intros planned out. subst out. unfold planService. fold planned.
  destruct planned as [res q]. cbn [fst snd resp_result resp_costs
                                       resp_footsteps].
  destruct (footsteps_loop_spec (ivPath q) (resp_footsteps resp) q)
    as (Hf & Hs & Hp & Ht).
  repeat split; try assumption; try apply Hs; try apply Hp.
  - apply events_since_app. exact Ht.
  - apply steps_partition.
Qed.

End ServiceFacts.

(** ** The footstep markers *)

Section MarkerFacts.
Context {D Env Search : Type}.
Context {O : DoubleOps D} {T : Trig D} {L : Literals D} {M : MarkerOps D}.

Abbreviation Planner := (FootstepPlanner D Env Search).

(** With a map, [footstepToMarker] returns; it overwrites every field of
    the marker but the id. *)
Lemma footstepToMarker_fields (vis : Visualisation D) (p : Planner)
      (m : GridMap2D D) (s : State D) (mk : Marker D) :
  ivMapPtr p = Some m ->
  exists f,
    footstepToMarker vis p s mk = Some f /\
    mk_id f = mk_id mk /\ mk_action f = ADD /\ mk_type f = CUBE /\
    mk_frame_id f = getFrameID m /\ mk_ns f = ivMarkerNamespace vis /\
    forall mk', footstepToMarker vis p s mk' = Some (with_id (mk_id mk') f).
Proof.
  intros Hm. unfold footstepToMarker. rewrite Hm. cbn [obind].
  eexists. split; [reflexivity|]. cbn.
  repeat (split; [reflexivity|]). intros mk'. reflexivity.
Qed.

Lemma push_footstep_spec (vis : Visualisation D) (p : Planner)
      (m : GridMap2D D) (s : State D) (mk : Marker D) (c : Z)
      (ms : list (Marker D)) :
  ivMapPtr p = Some m -> c + 1 < 2 ^ 31 ->
  exists f,
    push_footstep vis p s (mk, c, ms) = Some (f, c + 1, ms ++ [f]) /\
    footstepToMarker vis p s (with_id c Marker_default) = Some f /\
    mk_id f = c /\ mk_action f = ADD /\
    mk_frame_id f = getFrameID m /\ mk_ns f = ivMarkerNamespace vis.
Proof.
  intros Hm Hc.
  destruct (footstepToMarker_fields vis p m s mk Hm)
    as (f & Hf & _ & Ha & _ & Hfr & Hns & Hany).
  exists (with_id c f). unfold push_footstep. rewrite Hf. cbn [obind].
  replace (c + 1 <? 2 ^ 31) with true by (symmetry; apply Z.ltb_lt; exact Hc).
  cbn [assert obind]. split; [reflexivity|].
  split; [rewrite Hany; reflexivity|].
  cbn. auto.
Qed.

Lemma push_path_spec (vis : Visualisation D) (p : Planner)
      (m : GridMap2D D) (path : list (State D)) :
  ivMapPtr p = Some m ->
  forall (mk : Marker D) (c : Z) (ms : list (Marker D)),
    c + Z.of_nat (List.length path) < 2 ^ 31 ->
    mk_frame_id mk = getFrameID m ->
    exists mk' new,
      push_path vis p path (mk, c, ms)
      = Some (mk', c + Z.of_nat (List.length path), ms ++ new) /\
      mk_frame_id mk' = getFrameID m /\
      List.length new = List.length path /\
      map mk_id new = map (Z.add c) (zrange (Z.of_nat (List.length path))) /\
      map mk_action new = repeat ADD (List.length path) /\
      Forall (fun f => mk_frame_id f = getFrameID m /\
                       mk_ns f = ivMarkerNamespace vis) new.
Proof.
  intros Hm. induction path as [|s rest IH]; intros mk c ms Hc Hfr.
  - exists mk, []. cbn [push_path List.length Z.of_nat].
    rewrite Z.add_0_r, app_nil_r. repeat split; auto.
  - cbn [List.length] in *. rewrite Nat2Z.inj_succ in *.
    destruct (push_footstep_spec vis p m s mk c ms Hm ltac:(lia))
      as (f & Hp & _ & Hid & Ha & Hff & Hns).
    destruct (IH f (c + 1) (ms ++ [f]) ltac:(lia) Hff)
      as (mk' & new & Hr & Hfr' & Hlen & Hids & Hacts & Hall).
    exists mk', (f :: new). cbn [push_path]. rewrite Hp. cbn [obind].
    rewrite Hr. rewrite <- app_assoc. cbn [app].
    split; [f_equal; f_equal; f_equal; lia|].
    split; [exact Hfr'|]. split; [cbn; lia|].
    split.
    + unfold zrange in *. rewrite Z2Nat.inj_succ by lia.
      rewrite Nat2Z.id in *. cbn [seq map]. rewrite Hid, Hids.
      f_equal; [cbn; lia|].
      rewrite <- seq_shift, !map_map. apply map_ext. intros a. lia.
    + split; [cbn; rewrite Ha, Hacts; reflexivity|].
      constructor; auto.
Qed.

Lemma push_delete_spec (vis : Visualisation D) (m : GridMap2D D) (k : nat) :
  forall (j : Z) (mk : Marker D) (c : Z) (ms : list (Marker D)),
    mk_frame_id mk = getFrameID m ->
    exists mk' new,
      for_from k j (push_delete vis) (mk, c, ms) = Some (mk', c, ms ++ new) /\
      List.length new = k /\
      map mk_id new = map (Z.add j) (zrange (Z.of_nat k)) /\
      map mk_action new = repeat DELETE k /\
      Forall (fun f => mk_frame_id f = getFrameID m /\
                       mk_ns f = ivMarkerNamespace vis) new.
Proof.
  induction k as [|k IH]; intros j mk c ms Hfr.
  - exists mk, []. cbn. rewrite app_nil_r. repeat split; auto.
  - cbn [for_from push_delete obind].
    destruct (IH (j + 1) (as_delete (ivMarkerNamespace vis) j mk) c
                 (ms ++ [as_delete (ivMarkerNamespace vis) j mk]) Hfr)
      as (mk' & new & Hr & Hlen & Hids & Hacts & Hall).
    exists mk', (as_delete (ivMarkerNamespace vis) j mk :: new).
    rewrite Hr, <- app_assoc. cbn [app].
    split; [reflexivity|]. split; [cbn; lia|].
    split.
    + unfold zrange in *. rewrite Nat2Z.id in *. cbn [seq map].
      rewrite Hids. f_equal; [cbn; lia|].
      rewrite <- seq_shift, !map_map. apply map_ext. intros a. lia.
    + split; [cbn; rewrite Hacts; reflexivity|].
      constructor; auto.
Qed.


(** The message of [broadcastFootstepPathVis] for a path that is not
    empty: the start foot, the steps of the path, a DELETE marker for
    every id from [n + 1] up to the size of the last message, and the goal
    foot, which takes the id [n + 1] again. *)
Lemma broadcastFootstepPathVis_spec (vis : Visualisation D) (p : Planner)
      (m : GridMap2D D) (front : State D) (rest : list (State D)) :
  ivMapPtr p = Some m ->
  ivPath p = front :: rest ->
  Z.of_nat (List.length (ivPath p)) + 2 < 2 ^ 31 ->
  ivLastMarkerMsgSize vis + 1 < 2 ^ 31 ->
  let n := Z.of_nat (List.length (ivPath p)) in
  let old := ivLastMarkerMsgSize vis in
  exists f0 steps dels g,
    broadcastFootstepPathVis vis p
    = Some (Some (f0 :: steps ++ dels ++ [g]),
            mkVisualisation (Z.max (n + 2) (old + 1))
                            (ivMarkerNamespace vis) (ivFootsizeZ vis),
            p)
    /\ footstepToMarker vis p
         (if Leg_eqb (leg front) LEFT then ivStartFootRight p
          else ivStartFootLeft p)
         (with_id 0 Marker_default) = Some f0
    /\ footstepToMarker vis p
         (if Leg_eqb (leg (last (ivPath p) front)) LEFT
          then ivGoalFootRight p else ivGoalFootLeft p)
         (with_id (n + 1) Marker_default) = Some g
    /\ List.length steps = List.length (ivPath p)
    /\ map mk_id steps = map (Z.add 1) (zrange n)
    /\ map mk_action steps = repeat ADD (List.length (ivPath p))
    /\ List.length dels = Z.to_nat (old - (n + 1))
    /\ map mk_id dels = map (Z.add (n + 1)) (zrange (old - (n + 1)))
    /\ map mk_action dels = repeat DELETE (Z.to_nat (old - (n + 1)))
    /\ Forall (fun f => mk_frame_id f = getFrameID m
                        /\ mk_ns f = ivMarkerNamespace vis)
              (f0 :: steps ++ dels ++ [g]).
Proof.
  intros Hm Hpath Hn Hold n old.
  destruct (push_footstep_spec vis p m
              (if Leg_eqb (leg front) LEFT then ivStartFootRight p
               else ivStartFootLeft p)
              (with_frame (getFrameID m) Marker_default) 0 [] Hm
              ltac:(lia))
    as (f0 & Hp0 & Hf0 & Hid0 & Ha0 & Hfr0 & Hns0).
  destruct (push_path_spec vis p m (ivPath p) Hm f0 (0 + 1) [f0]
              ltac:(lia) Hfr0)
    as (mk1 & steps & Hpp & Hfr1 & Hlen1 & Hids1 & Hacts1 & Hall1).
  fold n in Hpp, Hids1.
  assert (Hdel : exists mk2 dels,
             (if 0 + 1 + n <? ivLastMarkerMsgSize vis
              then for_from (Z.to_nat (ivLastMarkerMsgSize vis - (0 + 1 + n)))
                            (0 + 1 + n) (push_delete vis)
                            (mk1, 0 + 1 + n, [f0] ++ steps)
              else Some (mk1, 0 + 1 + n, [f0] ++ steps))
             = Some (mk2, 0 + 1 + n, ([f0] ++ steps) ++ dels)
             /\ List.length dels = Z.to_nat (old - (n + 1))
             /\ map mk_id dels = map (Z.add (n + 1)) (zrange (old - (n + 1)))
             /\ map mk_action dels = repeat DELETE (Z.to_nat (old - (n + 1)))
             /\ Forall (fun f => mk_frame_id f = getFrameID m
                                 /\ mk_ns f = ivMarkerNamespace vis) dels).
  { fold old. destruct (Z.ltb_spec (0 + 1 + n) old) as [Hlt|Hge].
    - destruct (push_delete_spec vis m (Z.to_nat (old - (0 + 1 + n)))
                  (0 + 1 + n) mk1 (0 + 1 + n) ([f0] ++ steps) Hfr1)
        as (mk2 & dels & Hr & Hlen & Hids & Hacts & Hall).
      exists mk2, dels. rewrite Hr.
      replace (old - (n + 1)) with (old - (0 + 1 + n)) by lia.
      replace (n + 1) with (0 + 1 + n) by lia.
      rewrite Z2Nat.id in Hids by lia.
      repeat split; assumption.
    - exists mk1, []. rewrite app_nil_r.
      replace (Z.to_nat (old - (n + 1))) with 0%nat by lia.
      unfold zrange.
      replace (Z.to_nat (old - (n + 1))) with 0%nat by lia.
      repeat split. constructor. }
  destruct Hdel as (mk2 & dels & Hd & Hlen2 & Hids2 & Hacts2 & Hall2).
  destruct (push_footstep_spec vis p m
              (if Leg_eqb (leg (last (ivPath p) front)) LEFT
               then ivGoalFootRight p else ivGoalFootLeft p)
              mk2 (0 + 1 + n) (([f0] ++ steps) ++ dels) Hm ltac:(lia))
    as (g & Hpg & Hfg & Hidg & Hag & Hfrg & Hnsg).
  exists f0, steps, dels, g.
  split.
  { unfold broadcastFootstepPathVis. rewrite Hpath, Hm. cbn [obind].
    rewrite <- Hpath. rewrite Hp0. cbn [obind app]. rewrite Hpp.
    cbn [obind fst snd]. unfold MarkerState in *. rewrite Hd.
    cbn [obind]. rewrite Hpg.
    cbn [obind snd].
    rewrite <- !app_assoc. cbn [app]. f_equal. f_equal. f_equal.
    cbn [List.length]. rewrite !length_app, Hlen1, Hlen2.
    cbn [List.length]. unfold s32, u32.
    f_equal.
    match goal with
    | |- (if Z.of_nat ?k mod _ <? _ then _ else _) = _ =>
        assert (Hsz : Z.of_nat k = Z.max (n + 2) (old + 1))
          by (subst n; lia);
        rewrite Hsz
    end.
    rewrite Z.mod_small by lia.
    destruct (Z.ltb_spec (Z.max (n + 2) (old + 1)) (2 ^ 31)); lia. }
  split; [exact Hf0|].
  split; [replace (n + 1) with (0 + 1 + n) by lia; exact Hfg|].
  split; [exact Hlen1|]. split.
  { rewrite Hids1. apply map_ext. intros a. lia. }
  split; [exact Hacts1|]. split; [exact Hlen2|].
  split; [exact Hids2|]. split; [exact Hacts2|].
  constructor; [auto|]. apply Forall_app. split; [exact Hall1|].
  apply Forall_app. split; [exact Hall2|]. constructor; auto.
Qed.


(** The loop of [clearFootstepPathVis]. *)
Lemma clear_loop_spec (ns : string) (k : nat) :
  forall (i : Z) (mk : Marker D) (ms : list (Marker D)),
    0 <= i -> i + Z.of_nat k <= 2 ^ 31 ->
    exists mk' new,
      for_from k i
        (fun i st =>
           let '(marker, markers) := st in
           let mk := as_delete ns (s32 i) marker in
           Some (mk, markers ++ [mk]))
        (mk, ms)
      = Some (mk', ms ++ new)
      /\ map mk_id new = map (Z.add i) (zrange (Z.of_nat k))
      /\ Forall (fun f => mk_action f = DELETE /\ mk_ns f = ns
                          /\ mk_frame_id f = mk_frame_id mk) new.
Proof.
  set (body := fun (i : Z) (st : Marker D * list (Marker D)) =>
                 let '(marker, markers) := st in
                 let mk := as_delete ns (s32 i) marker in
                 Some (mk, markers ++ [mk])).
  induction k as [|k IH]; intros i mk ms Hi Hk.
  - exists mk, []. cbn. rewrite app_nil_r. repeat split. constructor.
  - cbn [for_from].
    change (body i (mk, ms))
      with (Some (as_delete ns (s32 i) mk,
                  ms ++ [as_delete ns (s32 i) mk])).
    cbn [obind].
    destruct (IH (i + 1) (as_delete ns (s32 i) mk)
                 (ms ++ [as_delete ns (s32 i) mk]) ltac:(lia) ltac:(lia))
      as (mk' & new & Hr & Hids & Hall).
    exists mk', (as_delete ns (s32 i) mk :: new).
    rewrite Hr, <- app_assoc. cbn [app]. split; [reflexivity|]. split.
    + unfold zrange in *. rewrite Nat2Z.id in *. cbn [seq map].
      rewrite Hids. f_equal.
      * cbn [mk_id as_delete]. unfold s32, u32.
        rewrite Z.mod_small by lia.
        destruct (Z.ltb_spec i (2 ^ 31)); lia.
      * rewrite <- seq_shift, !map_map. apply map_ext. intros a. lia.
    + constructor; [cbn; auto|]. exact Hall.
Qed.

(** [broadcastFootstepPathVis] on a path that is not empty publishes one
    marker for the start foot, one for each step and one for the goal
    foot, with the ids 0 to [n + 1] in this order, and between the steps
    and the goal foot a DELETE marker for every id from [n + 1] up to the
    size of the last message.  The goal foot is the last marker though
    its id is [n + 1]; the start and the goal foot shown are those of the
    leg opposite to the first and to the last step.  The size stored for
    the next call is the number of markers published, which is larger
    than the size stored before. *)
Theorem broadcastFootstepPathVis_message (vis : Visualisation D)
        (p : Planner) (m : GridMap2D D) (front : State D)
        (rest : list (State D)) :
  ivMapPtr p = Some m ->
  ivPath p = front :: rest ->
  Z.of_nat (List.length (ivPath p)) + 2 < 2 ^ 31 ->
  ivLastMarkerMsgSize vis + 1 < 2 ^ 31 ->
  let n := Z.of_nat (List.length (ivPath p)) in
  let old := ivLastMarkerMsgSize vis in
  exists markers vis',
    broadcastFootstepPathVis vis p = Some (Some markers, vis', p)
    /\ ivLastMarkerMsgSize vis' = Z.of_nat (List.length markers)
    /\ Z.of_nat (List.length markers) = Z.max (n + 2) (old + 1)
    /\ old < ivLastMarkerMsgSize vis'
    /\ map mk_id markers
       = zrange (n + 1) ++ map (Z.add (n + 1)) (zrange (old - (n + 1)))
                ++ [n + 1]
    /\ map mk_action markers
       = repeat ADD (S (List.length (ivPath p)))
                ++ repeat DELETE (Z.to_nat (old - (n + 1))) ++ [ADD]
    /\ Forall (fun f => mk_frame_id f = getFrameID m
                        /\ mk_ns f = ivMarkerNamespace vis) markers
    /\ hd_error markers
       = footstepToMarker vis p
           (if Leg_eqb (leg front) LEFT then ivStartFootRight p
            else ivStartFootLeft p)
           (with_id 0 Marker_default)
    /\ Some (last markers Marker_default)
       = footstepToMarker vis p
           (if Leg_eqb (leg (last (ivPath p) front)) LEFT
            then ivGoalFootRight p else ivGoalFootLeft p)
           (with_id (n + 1) Marker_default).
Proof.
  intros Hm Hpath Hn Hold n old.
  destruct (broadcastFootstepPathVis_spec vis p m front rest Hm Hpath Hn Hold)
    as (f0 & steps & dels & g & Hrun & Hf0 & Hg & Hlen1 & Hids1 & Hacts1
        & Hlen2 & Hids2 & Hacts2 & Hall).
  fold n in Hrun, Hg, Hids1, Hlen2, Hids2, Hacts2.
  fold old in Hrun, Hlen2, Hids2, Hacts2.
  destruct (footstepToMarker_fields vis p m
              (if Leg_eqb (leg front) LEFT then ivStartFootRight p
               else ivStartFootLeft p) (with_id 0 Marker_default) Hm)
    as (f0' & Hf0' & Hid0 & Ha0 & _).
  destruct (footstepToMarker_fields vis p m
              (if Leg_eqb (leg (last (ivPath p) front)) LEFT
               then ivGoalFootRight p else ivGoalFootLeft p)
              (with_id (n + 1) Marker_default) Hm)
    as (g' & Hg' & Hidg & Hag & _).
  rewrite Hf0 in Hf0'. injection Hf0' as <-.
  rewrite Hg in Hg'. injection Hg' as <-.
  assert (Hsize : Z.of_nat (List.length (f0 :: steps ++ dels ++ [g]))
                  = Z.max (n + 2) (old + 1)).
  { cbn [List.length]. rewrite !length_app, Hlen1, Hlen2.
    cbn [List.length]. subst n. lia. }
  do 2 eexists. split; [exact Hrun|]. cbn [ivLastMarkerMsgSize].
  split; [symmetry; exact Hsize|]. split; [exact Hsize|].
  split; [lia|]. split.
  { cbn [map]. rewrite !map_app, Hids1, Hids2, Hid0. cbn [map].
    rewrite Hidg. cbn [mk_id with_id].
    unfold zrange at 3. replace (Z.to_nat (n + 1)) with (S (Z.to_nat n))
      by lia.
    cbn [seq map]. rewrite <- seq_shift, map_map.
    unfold zrange at 1. rewrite map_map.
    cbn [app]. f_equal. f_equal. apply map_ext. intros a. lia. }
  split.
  { cbn [map repeat]. rewrite !map_app, Hacts1, Hacts2, Ha0. cbn [map].
    rewrite Hag. reflexivity. }
  split; [exact Hall|]. split; [cbn [hd_error]; symmetry; exact Hf0|].
  rewrite Hg. f_equal.
  change (f0 :: steps ++ dels ++ [g]) with ((f0 :: steps) ++ dels ++ [g]).
  rewrite !app_assoc. apply last_last.
Qed.

(** Broadcasting the same path a second time publishes exactly one marker
    more than the first time: the message holds a DELETE marker for the id
    [n + 1] and, after it, the goal foot added under the same id. *)
Theorem broadcastFootstepPathVis_again (vis : Visualisation D)
        (p : Planner) (m : GridMap2D D) (front : State D)
        (rest : list (State D)) :
  ivMapPtr p = Some m ->
  ivPath p = front :: rest ->
  Z.of_nat (List.length (ivPath p)) + 3 < 2 ^ 31 ->
  ivLastMarkerMsgSize vis + 2 < 2 ^ 31 ->
  let n := Z.of_nat (List.length (ivPath p)) in
  exists ms1 vis1 ms2 vis2,
    broadcastFootstepPathVis vis p = Some (Some ms1, vis1, p)
    /\ broadcastFootstepPathVis vis1 p = Some (Some ms2, vis2, p)
    /\ List.length ms2 = S (List.length ms1)
    /\ ivLastMarkerMsgSize vis2 = ivLastMarkerMsgSize vis1 + 1
    /\ exists pre d post g,
         ms2 = pre ++ d :: post ++ [g]
         /\ mk_id d = n + 1 /\ mk_action d = DELETE
         /\ mk_id g = n + 1 /\ mk_action g = ADD.
Proof.
  intros Hm Hpath Hn Hold n.
  destruct (broadcastFootstepPathVis_spec vis p m front rest Hm Hpath
              ltac:(lia) ltac:(lia))
    as (f0 & steps & dels & g & Hrun & _ & _ & Hlen1 & _ & _ & Hlen2 & _).
  fold n in Hrun, Hlen2.
  set (old1 := Z.max (n + 2) (ivLastMarkerMsgSize vis + 1)) in *.
  assert (Ho1 : n + 2 <= old1 /\ old1 + 1 < 2 ^ 31)
    by (unfold old1; subst n; lia).
  set (vis1 := mkVisualisation old1 (ivMarkerNamespace vis)
                               (ivFootsizeZ vis)) in *.
  destruct (broadcastFootstepPathVis_spec vis1 p m front rest Hm Hpath
              ltac:(lia) ltac:(cbn [ivLastMarkerMsgSize vis1]; lia))
    as (f0' & steps' & dels' & g' & Hrun' & _ & Hg' & Hlen1' & _ & _
        & Hlen2' & Hids2' & Hacts2' & _).
  fold n in Hrun', Hg', Hlen2', Hids2', Hacts2'.
  cbn [ivLastMarkerMsgSize ivMarkerNamespace ivFootsizeZ vis1] in *.
  destruct (footstepToMarker_fields vis1 p m
              (if Leg_eqb (leg (last (ivPath p) front)) LEFT
               then ivGoalFootRight p else ivGoalFootLeft p)
              (with_id (n + 1) Marker_default) Hm)
    as (g2 & Hg2 & Hidg & Hag & _).
  rewrite Hg' in Hg2. injection Hg2 as <-.
  do 4 eexists.
  split; [exact Hrun|]. split; [exact Hrun'|]. split.
  { cbn [List.length]. rewrite !length_app, Hlen1, Hlen2, Hlen1', Hlen2'.
    cbn [List.length]. subst n. lia. }
  split; [unfold vis1; cbn [ivLastMarkerMsgSize]; lia|].
  destruct dels' as [|d post].
  { cbn [List.length] in Hlen2'. lia. }
  exists (f0' :: steps'), d, post, g'.
  split; [reflexivity|].
  unfold zrange in Hids2'.
  replace (Z.to_nat (old1 - (n + 1)))
    with (S (Z.to_nat (old1 - (n + 1)) - 1)) in Hids2', Hacts2' by lia.
  cbn [seq map repeat] in Hids2', Hacts2'.
  injection Hids2' as Hd _. injection Hacts2' as Hda _.
  split; [rewrite Hd; cbn; lia|]. split; [exact Hda|].
  split; [rewrite Hidg; reflexivity|exact Hag].
Qed.

(** [clearFootstepPathVis] publishes DELETE markers in the planner's
    namespace and in the frame of the map, with the ids from 0 on: as
    many as asked for, and as many as the last message held when fewer
    than one is asked for.  Without a map the call does not return. *)
Theorem clearFootstepPathVis_message (vis : Visualisation D) (p : Planner)
        (num_footsteps : Z) :
  0 <= num_footsteps <= 2 ^ 31 ->
  0 <= ivLastMarkerMsgSize vis < 2 ^ 31 ->
  let count := if num_footsteps <? 1 then ivLastMarkerMsgSize vis
               else num_footsteps in
  match ivMapPtr p with
  | None => clearFootstepPathVis vis p num_footsteps = None
  | Some m =>
      exists markers,
        clearFootstepPathVis vis p num_footsteps = Some markers
        /\ map mk_id markers = zrange count
        /\ Forall (fun f => mk_action f = DELETE
                            /\ mk_ns f = ivMarkerNamespace vis
                            /\ mk_frame_id f = getFrameID m) markers
  end.
Proof.
  intros Hnum Hlast count.
  destruct (ivMapPtr p) as [m|] eqn:Em.
  2: { unfold clearFootstepPathVis. rewrite Em. reflexivity. }
  assert (Hcount : (if num_footsteps <? 1 then u32 (ivLastMarkerMsgSize vis)
                    else num_footsteps) = count).
  { subst count. destruct (num_footsteps <? 1); [|reflexivity].
    unfold u32. apply Z.mod_small. lia. }
  assert (Hc : 0 <= count <= 2 ^ 31).
  { subst count. destruct (num_footsteps <? 1); lia. }
  destruct (clear_loop_spec (ivMarkerNamespace vis) (Z.to_nat count) 0
              (with_frame (getFrameID m) Marker_default) []
              ltac:(lia) ltac:(lia))
    as (mk' & new & Hr & Hids & Hall).
  exists new. split.
  - unfold clearFootstepPathVis. rewrite Em. cbn [obind]. cbv zeta.
    rewrite Hcount.
    match type of Hr with
    | ?lhs = _ =>
        match goal with
        | |- context [for_from ?a ?b ?f ?s] =>
            change (for_from a b f s) with lhs
        end
    end.
    rewrite Hr. reflexivity.
  - split.
    + rewrite Hids, Z2Nat.id by lia.
      rewrite <- (map_id (zrange count)) at 2.
      apply map_ext. intros a. lia.
    + exact Hall.
Qed.

End MarkerFacts.

(** ** Closed examples for the further properties *)

(** A solution of the ids 0 and 0 on the example planner, which has one
    registered state. *)
Lemma extractSolution_resolved_witness :
  ivPath (snd (extractSolution [0; 0] (example_planner 2 free3)))
  = [example_foot; example_foot].
Proof.
  pose proof (extractSolution_resolved
                (E := table_Environment) [0; 0] (example_planner 2 free3))
    as Hx.
  assert (Hall : forall id, In id [0; 0] ->
                   env_getState
                     (ivPlannerEnvironmentPtr (example_planner 2 free3)) id
                   <> None)
    by (intros id [<-|[<-|[]]]; discriminate).
  destruct (Hx Hall) as (_ & _ & _ & _). reflexivity.
Defined.

(** [setStart] where every footprint is occupied. *)
Lemma setStart_iff_feet_free_witness :
  snd (setStart 1%R 0%R 0%R (walled_planner true))
  = emit (ROS_ERROR "Start pose not accessible.") (walled_planner true).
Proof.
  apply (setStart_iff_feet_free
           (O := R_DoubleOps) (T := R_Trig) (H := R_Helper)
           (E := table_Environment)
           1%R 0%R 0%R (walled_planner true)
           (mkGridMap2D 1%R 3 3 free3 (fun mx my => (IZR mx, IZR my)))
           ltac:(reflexivity)).
  reflexivity.
Defined.

(** [setGoal] where no footprint is occupied. *)
Lemma setGoal_feet_free_witness :
  ivGoalPoseSetUp (snd (setGoal 1%R 0%R 0%R open_planner)) = true.
Proof.
  apply (setGoal_feet_free
           (O := R_DoubleOps) (T := R_Trig) (H := R_Helper)
           (E := table_Environment)
           1%R 0%R 0%R open_planner
           (mkGridMap2D 1%R 3 3 free3 (fun mx my => (IZR mx, IZR my)))
           ltac:(reflexivity) ltac:(reflexivity) ltac:(reflexivity)).
Defined.

(** The update of the 3x3 example within the limit of changed cells keeps
    the step stored as the path. *)
Lemma updateEnvironment_keeps_plan_witness :
  exists p',
    updateEnvironment (example_grid free3) (example_planner 5 centre3)
    = Some p'
    /\ ivPath p' = [example_foot].
Proof.
  eexists. split; [vm_compute; reflexivity|].
  refine (proj1 (proj1 (proj2 (updateEnvironment_keeps_plan
            (O := float_DoubleOps) (H := float_Helper)
            (E := table_Environment) (P := recording_Search)
            (example_grid free3) (example_planner 5 centre3) _ _)))).
  vm_compute. reflexivity.
Defined.

(** A new map for the example planner, which has a map and a plan: the
    search is run again. *)
Lemma setMap_replans_iff_plan_existed_witness :
  exists p',
    setMap (example_grid centre3) (example_planner 5 free3) = Some p'
    /\ In EnvSetUp (events_since (example_planner 5 free3) p').
Proof.
  eexists. split; [vm_compute; reflexivity|].
  refine (proj2 (proj1 (proj2 (proj2 (proj2 (proj2
            (setMap_replans_iff_plan_existed
               (O := float_DoubleOps) (H := float_Helper)
               (E := table_Environment) (P := recording_Search)
               (example_grid centre3) (example_planner 5 free3) _ _))))))
            (conj eq_refl eq_refl)).
  vm_compute. reflexivity.
Defined.

(** The loops on a mask of one row and two columns. *)
Lemma scan_changed_cells_not_square_witness :
  scan_changed_cells (H := float_Helper) (example_grid free23) 4
                     (mkMat 1 2 (fun _ _ => 0)) = None.
Proof.
  apply (scan_changed_cells_not_square
           (H := float_Helper) (example_grid free23) 4
           (mkMat 1 2 (fun _ _ => 0))); simpl; lia.
Defined.


(** The markers of the two steps of [walked_planner], published for the
    first time: four of them. *)
Lemma broadcastFootstepPathVis_message_witness :
  exists markers vis',
    broadcastFootstepPathVis (mkVisualisation 0 "" 1%R) walked_planner
    = Some (Some markers, vis', walked_planner)
    /\ ivLastMarkerMsgSize vis' = 4.
Proof.
  destruct (broadcastFootstepPathVis_message
              (M := map_MarkerOps) (mkVisualisation 0 "" 1%R) walked_planner
              (mkGridMap2D 1%R 3 3 free3 (fun mx my => (IZR mx, IZR my)))
              (mkState 1%R 0%R 0%R RIGHT) [mkState 2%R 1%R 0%R LEFT]
              eq_refl eq_refl ltac:(cbn; lia) ltac:(cbn; lia))
    as (markers & vis' & Hrun & Hsize & Hlen & _).
  exists markers, vis'. split; [exact Hrun|].
  rewrite Hsize, Hlen. reflexivity.
Defined.

(** The same path published twice: four markers, then five. *)
Lemma broadcastFootstepPathVis_again_witness :
  exists ms1 vis1 ms2 vis2,
    broadcastFootstepPathVis (mkVisualisation 0 "" 1%R) walked_planner
    = Some (Some ms1, vis1, walked_planner)
    /\ broadcastFootstepPathVis vis1 walked_planner
       = Some (Some ms2, vis2, walked_planner)
    /\ List.length ms2 = S (List.length ms1).
Proof.
  destruct (broadcastFootstepPathVis_again
              (M := map_MarkerOps) (mkVisualisation 0 "" 1%R) walked_planner
              (mkGridMap2D 1%R 3 3 free3 (fun mx my => (IZR mx, IZR my)))
              (mkState 1%R 0%R 0%R RIGHT) [mkState 2%R 1%R 0%R LEFT]
              eq_refl eq_refl ltac:(cbn; lia) ltac:(cbn; lia))
    as (ms1 & vis1 & ms2 & vis2 & H1 & H2 & Hlen & _).
  exists ms1, vis1, ms2, vis2. repeat split; assumption.
Defined.

(** Clearing after a message of three markers. *)
Lemma clearFootstepPathVis_message_witness :
  exists markers,
    clearFootstepPathVis (mkVisualisation 3 "" 1%R) walked_planner 0
    = Some markers
    /\ map mk_id markers = [0; 1; 2].
Proof.
  destruct (clearFootstepPathVis_message
              (M := map_MarkerOps) (mkVisualisation 3 "" 1%R) walked_planner
              0 ltac:(lia) ltac:(cbn; lia))
    as (markers & Hrun & Hids & _).
  exists markers. split; [exact Hrun|exact Hids].
Defined.
